(** * FTD configuration resource: a shallow embedding of
      [module_utils/configuration.py]

    The module defines [BaseConfigurationResource], which maps named
    operations (add / edit / delete / find / general) onto a model-driven
    REST backend, and the generator [iterate_over_pageable_resource].

    Python values are embedded as the inductive type [value]; insertion
    ordered dictionaries are association lists; the two caches of the
    resource, which are only ever looked up by key, are [gmap]s.  Methods
    that touch [self], the connection or the caller's [params] dictionary
    run in a small state-and-exception monad [M]. *)

From Stdlib Require Import ZArith List Bool Ascii String.
From stdpp Require Import base option strings gmap.
Import ListNotations.

#[local] Set Warnings "-register-all".
#[local] Open Scope string_scope.
#[local] Open Scope Z_scope.

(** ** Python values *)

Inductive value : Type :=
| VNone
| VBool (b : bool)
| VInt (z : Z)
| VStr (s : string)
| VList (l : list value)
| VDict (d : list (string * value)).

(** A dictionary with string keys, in insertion order. *)
Abbreviation dict := (list (string * value)).

Module Dict.

Section Generic.
Context {A : Type}.

(** [d.get(k)] *)
Fixpoint get (k : string) (d : list (string * A)) : option A :=
  match d with
  | [] => None
  | (k', v) :: d' => if String.eqb k k' then Some v else get k d'
  end.

(** [k in d] *)
Definition mem (k : string) (d : list (string * A)) : bool :=
  match get k d with Some _ => true | None => false end.

(** [d[k] = v]: an existing key keeps its position, a new one goes last. *)
Fixpoint set (k : string) (v : A) (d : list (string * A)) : list (string * A) :=
  match d with
  | [] => [(k, v)]
  | (k', v') :: d' =>
      if String.eqb k k' then (k, v) :: d' else (k', v') :: set k v d'
  end.

(** [d.setdefault(k, v)] *)
Definition setdefault (k : string) (v : A) (d : list (string * A))
  : list (string * A) :=
  if mem k d then d else set k v d.

Definition keys (d : list (string * A)) : list string := map fst d.
End Generic.

End Dict.

(** Truth value of a Python object ([bool(v)]). *)
Definition truthy (v : value) : bool :=
  match v with
  | VNone => false
  | VBool b => b
  | VInt z => negb (z =? 0)
  | VStr s => negb (String.eqb s "")
  | VList l => match l with [] => false | _ => true end
  | VDict d => match d with [] => false | _ => true end
  end.

(** Python [==] on the embedded values.  Dictionaries compare without regard
    to order; [True == 1] and [False == 0] hold as in Python. *)
Fixpoint py_eq (a b : value) {struct a} : bool :=
  match a, b with
  | VNone, VNone => true
  | VBool x, VBool y => Bool.eqb x y
  | VBool x, VInt y => (if x then 1 else 0) =? y
  | VInt x, VBool y => x =? (if y then 1 else 0)
  | VInt x, VInt y => x =? y
  | VStr x, VStr y => String.eqb x y
  | VList x, VList y =>
      (fix eq_list (x : list value) (y : list value) {struct x} : bool :=
         match x, y with
         | [], [] => true
         | a' :: x', b' :: y' => py_eq a' b' && eq_list x' y'
         | _, _ => false
         end) x y
  | VDict x, VDict y =>
      (List.length x =? List.length y)%nat &&
      (fix sub (x : list (string * value)) {struct x} : bool :=
         match x with
         | [] => true
         | (k, v) :: x' =>
             match Dict.get k y with
             | Some v' => py_eq v v' && sub x'
             | None => false
             end
         end) x
  | _, _ => false
  end.

(** [s.startswith(p)], [s.endswith(p)] and [p in s] on strings. *)
Definition startswith (s p : string) : bool := String.prefix p s.

Definition endswith (s p : string) : bool :=
  let n := String.length s in
  let m := String.length p in
  (m <=? n)%nat && String.eqb (String.substring (n - m) m s) p.

Fixpoint contains (needle hay : string) : bool :=
  String.prefix needle hay ||
  match hay with
  | EmptyString => false
  | String _ hay' => contains needle hay'
  end.

Fixpoint join (sep : string) (l : list string) : string :=
  match l with
  | [] => ""
  | [s] => s
  | s :: l' => s ++ sep ++ join sep l'
  end.

(** ** Constants of the module *)

Definition DEFAULT_PAGE_SIZE : Z := 10.
Definition DEFAULT_OFFSET : Z := 0.

Definition UNPROCESSABLE_ENTITY_STATUS : Z := 422.
Definition INVALID_UUID_ERROR_MESSAGE : string :=
  "Validation failed due to an invalid UUID".
Definition DUPLICATE_NAME_ERROR_MESSAGE : string :=
  "Validation failed due to a duplicate name".

Module _OperationNamePrefix.
Definition ADD : string := "add".
Definition EDIT : string := "edit".
Definition GET : string := "get".
Definition DELETE : string := "delete".
End _OperationNamePrefix.

(** ** Collaborator types ([module_utils/common.py],
       [module_utils/fdm_swagger_client.py]) *)

Module HTTPMethod.
(** The four methods the module names, and any other method string an
    operation specification may carry. *)
Inductive t : Type := GET | POST | PUT | DELETE | Other (name : string).

#[global] Instance eq_dec : EqDecision t.
Proof. solve_decision. Defined.

Definition eqb (a b : t) : bool := bool_decide (a = b).
End HTTPMethod.

(** An operation specification, indexed in the source with the
    [OperationField] keys. *)
Record OperationSpec : Type := mkSpec
  { METHOD : HTTPMethod.t;
    URL : string;
    MODEL_NAME : string }.

(** The arguments of one [send_request] call on the connection. *)
Record Request : Type := mkRequest
  { url_path : string;
    http_method : HTTPMethod.t;
    body_params : value;
    path_params : value;
    query_params : value }.

(** The response envelope, indexed in the source with [ResponseParams]. *)
Record Response : Type := mkResponse
  { SUCCESS : bool;
    RESPONSE : value;
    STATUS_CODE : Z }.

(** What a validation method of the connection does: it returns the pair
    [(is_valid, validation_report)] or raises an exception [e], of which the
    caller keeps [str(e)]. *)
Inductive Validation : Type :=
| Validated (is_valid : bool) (validation_report : value)
| ValidationRaised (message : string).

(** Exceptions raised in the module. *)
Inductive exn : Type :=
| CheckModeException
| FtdInvalidOperationNameError (operation_name : string)
| ValidationError (report : dict)
| FtdServerError (response : value) (code : Z)
| FtdConfigurationError (msg : string) (obj : value)
| KeyError (key : string)
| TypeError
| AttributeError
| ValueError.

(** The connection plugin held in [self._conn].  Specifications and
    validators are read-only metadata; [send_request] talks to a device whose
    state is ['W]. *)
Record Connection (W : Type) : Type := mkConnection
  { conn_get_operation_spec : string -> option OperationSpec;
    conn_get_operation_specs_by_model_name :
      string -> list (string * OperationSpec);
    conn_send_request : Request -> W -> Response * W;
    conn_validate_query_params : string -> value -> Validation;
    conn_validate_path_params : string -> value -> Validation;
    conn_validate_data : string -> value -> Validation }.

Arguments conn_get_operation_spec {W}.
Arguments conn_get_operation_specs_by_model_name {W}.
Arguments conn_send_request {W}.
Arguments conn_validate_query_params {W}.
Arguments conn_validate_path_params {W}.
Arguments conn_validate_data {W}.

(** ** The resource object and the store *)

(** The attributes of a [BaseConfigurationResource] besides [_conn]. *)
Record Resource : Type := mkResource
  { config_changed : bool;
    _operation_spec_cache : gmap string (option OperationSpec);
    _models_operations_specs_cache : gmap string (list (string * OperationSpec));
    _check_mode : bool }.

(** [BaseConfigurationResource.__init__] *)
Definition __init__ (check_mode : bool) : Resource :=
  {| config_changed := false;
     _operation_spec_cache := ∅;
     _models_operations_specs_cache := ∅;
     _check_mode := check_mode |}.

(** The store a method runs in: the resource [self], the device behind the
    connection, the requests handed to [self._conn.send_request] so far
    (oldest first), and the one [params] dictionary of the caller, which every
    method receives by reference. *)
Record Store (W : Type) : Type := mkStore
  { self : Resource;
    device : W;
    sent : list Request;
    params : dict }.

Arguments mkStore {W}.
Arguments self {W}.
Arguments device {W}.
Arguments sent {W}.
Arguments params {W}.

(** How a call ends; [OutOfFuel] marks a loop of the model that was cut off
    before the Python loop would have ended. *)
Inductive outcome (A : Type) : Type :=
| Ok (a : A)
| Raise (e : exn)
| OutOfFuel.

Arguments Ok {A}.
Arguments Raise {A}.
Arguments OutOfFuel {A}.

Module Monad.
Section Ops.
Context {W : Type}.

Definition M (A : Type) : Type := Store W -> outcome A * Store W.

Definition ret {A} (a : A) : M A := fun st => (Ok a, st).

Definition bind {A B} (m : M A) (k : A -> M B) : M B :=
  fun st =>
    match m st with
    | (Ok a, st') => k a st'
    | (Raise e, st') => (Raise e, st')
    | (OutOfFuel, st') => (OutOfFuel, st')
    end.

Definition raise {A} (e : exn) : M A := fun st => (Raise e, st).

Definition out_of_fuel {A} : M A := fun st => (OutOfFuel, st).

(** [try: m  except FtdServerError as e: h e] *)
Definition except_FtdServerError {A} (m : M A) (h : value -> Z -> M A) : M A :=
  fun st =>
    match m st with
    | (Raise (FtdServerError response code), st') => h response code st'
    | r => r
    end.

Definition get_self : M Resource := fun st => (Ok (self st), st).

Definition set_self (r : Resource) : M unit :=
  fun st => (Ok tt, mkStore r (device st) (sent st) (params st)).

Definition get_params : M dict := fun st => (Ok (params st), st).

Definition set_params (p : dict) : M unit :=
  fun st => (Ok tt, mkStore (self st) (device st) (sent st) p).

(** Lifting a partial pure step: [None] is the exception [e]. *)
Definition or_raise {A} (o : option A) (e : exn) : M A :=
  match o with Some a => ret a | None => raise e end.
End Ops.
End Monad.
Import Monad.

Notation "'let*' x ':=' m 'in' k" := (bind m (fun x => k))
  (at level 10, x pattern, m at level 100, k at level 200, only parsing).

(** Attribute assignment on [self]. *)
Definition with_config_changed (b : bool) (r : Resource) : Resource :=
  mkResource b (_operation_spec_cache r) (_models_operations_specs_cache r)
             (_check_mode r).

Definition with_operation_spec_cache
    (c : gmap string (option OperationSpec)) (r : Resource) : Resource :=
  mkResource (config_changed r) c (_models_operations_specs_cache r)
             (_check_mode r).

Definition with_models_operations_specs_cache
    (c : gmap string (list (string * OperationSpec))) (r : Resource) : Resource :=
  mkResource (config_changed r) (_operation_spec_cache r) c (_check_mode r).

(** [cache.setdefault(k, v)] on a cache. *)
Definition cache_setdefault {A} (k : string) (v : A) (c : gmap string A)
  : gmap string A :=
  match c !! k with
  | Some _ => c
  | None => <[k := v]> c
  end.

(** ** Module-level helpers *)

Definition is_post_request {W} (operation_spec : option OperationSpec) : @M W bool :=
  match operation_spec with
  | Some s => ret (HTTPMethod.eqb (METHOD s) HTTPMethod.POST)
  | None => raise TypeError
  end.

Definition is_put_request {W} (operation_spec : option OperationSpec) : @M W bool :=
  match operation_spec with
  | Some s => ret (HTTPMethod.eqb (METHOD s) HTTPMethod.PUT)
  | None => raise TypeError
  end.

(** [params.get(k, {})] *)
Definition get_or_empty (k : string) (p : dict) : value :=
  match Dict.get k p with
  | Some v => v
  | None => VDict []
  end.

Definition _get_user_params (p : dict) : value * value * value :=
  (get_or_empty "data" p, get_or_empty "query_params" p,
   get_or_empty "path_params" p).

Definition _get_request_params_from_spec {W}
    (operation_spec : option OperationSpec) : @M W (string * HTTPMethod.t) :=
  match operation_spec with
  | Some s => ret (URL s, METHOD s)
  | None => raise TypeError
  end.

(** [_set_default(params, field_name, value)]; the dictionary it updates in
    place is returned. *)
Definition _set_default (p : dict) (field_name : string) (v : value) : dict :=
  match Dict.get field_name p with
  | None | Some VNone => Dict.set field_name v p
  | Some _ => p
  end.

(** [v[k]] for a string key [k]. *)
Definition getitem {W} (v : value) (k : string) : @M W value :=
  match v with
  | VDict d => or_raise (Dict.get k d) (KeyError k)
  | _ => raise TypeError
  end.

(** ** The pagination generator

    A generator object is its suspended frame: not yet started (holding the
    argument it was created with), suspended at the [yield] inside the [for]
    loop (holding the items of the page still to come and the query
    parameters of that page), or finished. *)
Inductive generator : Type :=
| Created (query_params : value)
| Suspended (rest : list value) (query_params : dict)
| Finished.

Definition iterate_over_pageable_resource (query_params : value) : generator :=
  Created query_params.

Section Generator.
Context {W : Type}.
(** Python's [int] applied to a string. *)
Variable int_of_str : string -> option Z.
Variable resource_func : dict -> @M W value.

(** Python's [int] on a value. *)
Definition py_int (v : value) : @M W Z :=
  match v with
  | VInt z => ret z
  | VBool b => ret (if b then 1 else 0)
  | VStr s => or_raise (int_of_str s) ValueError
  | _ => raise TypeError
  end.

(** [result = resource_func(query_params=query_params)] followed by the
    [while result['items']] test and the entry into the [for] loop.  A list
    is iterated by its elements, a dictionary by its keys, a string by its
    characters; any false value ends the loop and any other true value is not
    iterable. *)
Definition fetch (query_params : dict) : @M W (option value * generator) :=
  let* result := resource_func query_params in
  let* items := getitem result "items" in
  match items with
  | VList (item :: rest) => ret (Some item, Suspended rest query_params)
  | VDict ((k, _) :: rest) =>
      ret (Some (VStr k),
           Suspended (map (fun kv => VStr (fst kv)) rest) query_params)
  | VStr (String c s) =>
      ret (Some (VStr (String c EmptyString)),
           Suspended
             (map (fun a => VStr (String a EmptyString)) (list_ascii_of_string s))
             query_params)
  | v => if truthy v then raise TypeError else ret (None, Finished)
  end.

(** [next(g)]: [Some item] is a yielded item, [None] is [StopIteration].
    The body of the generator runs from one [yield] to the next, which is at
    most one call of [resource_func].  [dict(query_params)] is taken on [None]
    (the default) and on dictionaries.  Python's [dict] also accepts an empty
    list or string and a sequence of pairs, whose keys need not be strings;
    such arguments are outside the embedded dictionaries and are made to
    raise [TypeError] here, so that what is proved of the iterator is proved
    for [None] and dictionary arguments. *)
Definition next (g : generator) : @M W (option value * generator) :=
  match g with
  | Created query_params =>
      let* query_params :=
        match query_params with
        | VNone => ret []
        | VDict d => ret d
        | _ => raise TypeError
        end in
      let query_params :=
        Dict.setdefault "limit" (VInt DEFAULT_PAGE_SIZE) query_params in
      let query_params :=
        Dict.setdefault "offset" (VInt DEFAULT_OFFSET) query_params in
      fetch query_params
  | Suspended (item :: rest) query_params =>
      ret (Some item, Suspended rest query_params)
  | Suspended [] query_params =>
      let* offset := getitem (VDict query_params) "offset" in
      let* offset := py_int offset in
      let* limit := getitem (VDict query_params) "limit" in
      let* limit := py_int limit in
      fetch (Dict.set "offset" (VInt (offset + limit)) query_params)
  | Finished => ret (None, Finished)
  end.

(** [[i for i in g if keep(i)]], pulling at most [fuel] times. *)
Fixpoint collect (fuel : nat) (keep : value -> @M W bool) (g : generator)
  : @M W (list value) :=
  match fuel with
  | O => out_of_fuel
  | S fuel' =>
      let* r := next g in
      match r with
      | (None, _) => ret []
      | (Some i, g') =>
          let* b := keep i in
          let* l := collect fuel' keep g' in
          ret (if b then i :: l else l)
      end
  end.

(** [next((i for i in g if keep(i)), None)], pulling at most [fuel] times. *)
Fixpoint first (fuel : nat) (keep : value -> @M W bool) (g : generator)
  : @M W value :=
  match fuel with
  | O => out_of_fuel
  | S fuel' =>
      let* r := next g in
      match r with
      | (None, _) => ret VNone
      | (Some i, g') =>
          let* b := keep i in
          if b then ret i else first fuel' keep g'
      end
  end.
End Generator.

(** ** [BaseConfigurationResource] *)

Section BaseConfigurationResource.
Context {W : Type}.
(** [self._conn] *)
Variable conn : Connection W.
(** Python's [str] on a value and [int] on a string. *)
Variable py_str : value -> string.
Variable int_of_str : string -> option Z.
(** [equal_objects] of [module_utils/common.py]. *)
Variable equal_objects : value -> value -> bool.

Definition get_operation_spec (operation_name : string)
  : @M W (option OperationSpec) :=
  let* r := get_self in
  match _operation_spec_cache r !! operation_name with
  | Some spec => ret spec
  | None =>
      let spec := conn_get_operation_spec conn operation_name in
      let* _ :=
        set_self (with_operation_spec_cache
                    (<[operation_name := spec]> (_operation_spec_cache r)) r) in
      ret spec
  end.

(** The [for op_name, op_spec in iteritems(model_op_specs)] loop. *)
Definition backfill (model_op_specs : list (string * OperationSpec))
    (c : gmap string (option OperationSpec)) : gmap string (option OperationSpec) :=
  fold_left (fun c kv => cache_setdefault (fst kv) (Some (snd kv)) c)
            model_op_specs c.

Definition get_operation_specs_by_model_name (model_name : string)
  : @M W (list (string * OperationSpec)) :=
  let* r := get_self in
  match _models_operations_specs_cache r !! model_name with
  | Some specs => ret specs
  | None =>
      let model_op_specs :=
        conn_get_operation_specs_by_model_name conn model_name in
      let r :=
        with_models_operations_specs_cache
          (<[model_name := model_op_specs]> (_models_operations_specs_cache r)) r in
      let r :=
        with_operation_spec_cache
          (backfill model_op_specs (_operation_spec_cache r)) r in
      let* _ := set_self r in
      ret model_op_specs
  end.

(** The inner function [validate] of [validate_params]; the report it
    updates is threaded through. *)
Definition validate (validation_method : string -> value -> Validation)
    (operation_name field_name : string) (user_params : value) (report : dict)
  : dict :=
  let key := "Invalid " ++ field_name ++ " provided" in
  match validation_method operation_name user_params with
  | Validated is_valid validation_report =>
      if is_valid then report else Dict.set key validation_report report
  | ValidationRaised message => Dict.set key (VStr message) report
  end.

Definition validate_params (operation_name : string) : @M W unit :=
  let* params := get_params in
  let report : dict := [] in
  let* op_spec := get_operation_spec operation_name in
  let '(data, query_params, path_params) := _get_user_params params in
  let report :=
    validate (conn_validate_query_params conn) operation_name
             "query_params" query_params report in
  let report :=
    validate (conn_validate_path_params conn) operation_name
             "path_params" path_params report in
  let* post := is_post_request op_spec in
  let* post_or_put := if post then ret true else is_put_request op_spec in
  let report :=
    if post_or_put
    then validate (conn_validate_data conn) operation_name "data" data report
    else report in
  match report with
  | [] => ret tt
  | _ => raise (ValidationError report)
  end.

Definition stop_if_check_mode : @M W unit :=
  let* r := get_self in
  if _check_mode r then raise CheckModeException else ret tt.

(** [self._conn.send_request(...)]; the request is recorded in [sent]. *)
Definition conn_call (req : Request) : @M W Response :=
  fun st =>
    let (response, device') := conn_send_request conn req (device st) in
    (Ok response, mkStore (self st) device' (sent st ++ [req]) (params st)).

Definition _send_request (url_path : string) (http_method : HTTPMethod.t)
    (body_params path_params query_params : value) : @M W value :=
  let* response :=
    conn_call (mkRequest url_path http_method body_params path_params
                         query_params) in
  let* _ :=
    if SUCCESS response then ret tt
    else raise (FtdServerError (RESPONSE response) (STATUS_CODE response)) in
  let* _ :=
    if HTTPMethod.eqb http_method HTTPMethod.GET then ret tt
    else
      let* r := get_self in
      set_self (with_config_changed true r) in
  ret (RESPONSE response).

(** *** Classification of operations *)

Definition is_add_operation (operation_name : string) : @M W bool :=
  let* operation_spec := get_operation_spec operation_name in
  if startswith operation_name _OperationNamePrefix.ADD
  then is_post_request operation_spec
  else ret false.

Definition is_edit_operation (operation_name : string) : @M W bool :=
  let* operation_spec := get_operation_spec operation_name in
  if startswith operation_name _OperationNamePrefix.EDIT
  then is_put_request operation_spec
  else ret false.

Definition is_delete_operation (operation_name : string) : @M W bool :=
  let* operation_spec := get_operation_spec operation_name in
  if startswith operation_name _OperationNamePrefix.DELETE
  then
    match operation_spec with
    | Some s => ret (HTTPMethod.eqb (METHOD s) HTTPMethod.DELETE)
    | None => raise TypeError
    end
  else ret false.

Definition is_find_all_operation (operation_name : string) : @M W bool :=
  let* operation_spec := get_operation_spec operation_name in
  let is_get_list_operation :=
    startswith operation_name _OperationNamePrefix.GET
    && endswith operation_name "List" in
  let* is_get_method :=
    match operation_spec with
    | Some s => ret (HTTPMethod.eqb (METHOD s) HTTPMethod.GET)
    | None => raise TypeError
    end in
  ret (is_get_list_operation && is_get_method).

Definition is_find_by_filter_operation (operation_name : string) : @M W bool :=
  let* params := get_params in
  let* is_find_all := is_find_all_operation operation_name in
  ret (is_find_all &&
       match Dict.get "filters" params with
       | Some f => truthy f
       | None => false
       end).

(** *** Handlers *)

(** The inner functions of [get_objects_by_filter]. *)
Definition transform_filters_to_query_param (filter_params : dict) : string :=
  join ";" (map (fun kv => fst kv ++ ":" ++ py_str (snd kv)) filter_params).

Definition match_filters (filter_params : dict) (obj : value) : @M W bool :=
  match obj with
  | VDict o =>
      ret (forallb
             (fun kv =>
                match Dict.get (fst kv) o with
                | Some v' => py_eq (snd kv) v'
                | None => false
                end)
             filter_params)
  | _ => raise AttributeError
  end.

(** [filters = params.get('filters') or {}] and the [if filters:] block.
    The dictionary [query_params] is the caller's [params['query_params']]
    when that key is present, so the assignment shows through [params];
    otherwise it is the fresh default. *)
Definition apply_filters (query_params : value) : @M W (dict * value) :=
  let* params := get_params in
  let filters :=
    match Dict.get "filters" params with
    | Some f => if truthy f then f else VDict []
    | None => VDict []
    end in
  if truthy filters then
    match filters with
    | VDict f =>
        match query_params with
        | VDict q =>
            let q' :=
              Dict.set "filters" (VStr (transform_filters_to_query_param f)) q in
            let* _ :=
              if Dict.mem "query_params" params
              then set_params (Dict.set "query_params" (VDict q') params)
              else ret tt in
            ret (f, VDict q')
        | _ => raise TypeError
        end
    | _ => raise AttributeError
    end
  else ret ([], query_params).

Definition get_objects_by_filter (fuel : nat) (operation_name : string)
    (get_one_item : bool) : @M W value :=
  let* _ := validate_params operation_name in
  let* _ := stop_if_check_mode in
  let* params := get_params in
  let '(data, query_params, path_params) := _get_user_params params in
  let* op_spec := get_operation_spec operation_name in
  let* (url, method) := _get_request_params_from_spec op_spec in
  let* (filters, query_params) := apply_filters query_params in
  let resource_func :=
    fun query_params : dict =>
      _send_request url method VNone path_params (VDict query_params) in
  let item_generator := iterate_over_pageable_resource query_params in
  if get_one_item
  then first int_of_str resource_func fuel (match_filters filters) item_generator
  else
    let* l :=
      collect int_of_str resource_func fuel (match_filters filters)
              item_generator in
    ret (VList l).

(** [next((op_name for op_name in operations.keys()
           if self.is_find_all_operation(op_name)), None)] *)
Fixpoint first_find_all (op_names : list string) : @M W (option string) :=
  match op_names with
  | [] => ret None
  | op_name :: rest =>
      let* b := is_find_all_operation op_name in
      if b then ret (Some op_name) else first_find_all rest
  end.

Definition _get_find_all_operation_name (model_name : string)
  : @M W (option string) :=
  let* operations := get_operation_specs_by_model_name model_name in
  match operations with
  | [] => ret None
  | _ => first_find_all (Dict.keys operations)
  end.

Definition is_duplicate_name_error (response : value) (code : Z) : bool :=
  (code =? UNPROCESSABLE_ENTITY_STATUS)
  && contains DUPLICATE_NAME_ERROR_MESSAGE (py_str response).

Definition is_invalid_uuid_error (response : value) (code : Z) : bool :=
  (code =? UNPROCESSABLE_ENTITY_STATUS)
  && contains INVALID_UUID_ERROR_MESSAGE (py_str response).

Definition same_name_message : string :=
  "Cannot add new object. An object with the same name but different parameters already exists.".

(** [e] is the caught [FtdServerError]; a name returned by
    [_get_find_all_operation_name] starts with "get" and is therefore a
    true value in [if find_operation:]. *)
Definition _check_if_the_same_object (fuel : nat)
    (op_spec : option OperationSpec) (e : exn) : @M W value :=
  let* spec := or_raise op_spec TypeError in
  let model_name := MODEL_NAME spec in
  let* find_operation := _get_find_all_operation_name model_name in
  match find_operation with
  | Some find_operation =>
      let* params := get_params in
      let* data := or_raise (Dict.get "data" params) (KeyError "data") in
      let* _ :=
        if Dict.mem "filters" params then ret tt
        else
          let* name := getitem data "name" in
          set_params (Dict.set "filters" (VDict [("name", name)]) params) in
      let* existing_obj := get_objects_by_filter fuel find_operation true in
      match existing_obj with
      | VNone => raise e
      | _ =>
          if equal_objects existing_obj data then ret existing_obj
          else raise (FtdConfigurationError same_name_message existing_obj)
      end
  | None => raise e
  end.

Definition add_object (fuel : nat) (operation_name : string) : @M W value :=
  let* _ := validate_params operation_name in
  let* _ := stop_if_check_mode in
  let* params := get_params in
  let '(data, query_params, path_params) := _get_user_params params in
  let* op_spec := get_operation_spec operation_name in
  let* (url, method) := _get_request_params_from_spec op_spec in
  except_FtdServerError
    (_send_request url method data path_params query_params)
    (fun response code =>
       if is_duplicate_name_error response code
       then _check_if_the_same_object fuel op_spec (FtdServerError response code)
       else raise (FtdServerError response code)).

Definition delete_object (operation_name : string) : @M W value :=
  let* _ := validate_params operation_name in
  let* _ := stop_if_check_mode in
  let* params := get_params in
  let '(_, query_params, path_params) := _get_user_params params in
  let* op_spec := get_operation_spec operation_name in
  let* (url, method) := _get_request_params_from_spec op_spec in
  except_FtdServerError
    (_send_request url method VNone path_params VNone)
    (fun response code =>
       if is_invalid_uuid_error response code
       then ret (VDict [("status", VStr "Referenced object does not exist")])
       else raise (FtdServerError response code)).

Definition edit_object (operation_name : string) : @M W value :=
  let* _ := validate_params operation_name in
  let* _ := stop_if_check_mode in
  let* params := get_params in
  let '(data, query_params, path_params) := _get_user_params params in
  let* op_spec := get_operation_spec operation_name in
  let* (url, method) := _get_request_params_from_spec op_spec in
  let* existing_object :=
    _send_request url HTTPMethod.GET VNone path_params VNone in
  if negb (truthy existing_object)
  then raise (FtdConfigurationError "Referenced object does not exist" VNone)
  else if equal_objects existing_object data
  then ret existing_object
  else _send_request url method data path_params query_params.

Definition send_general_request (operation_name : string) : @M W value :=
  let* _ := validate_params operation_name in
  let* _ := stop_if_check_mode in
  let* params := get_params in
  let '(data, query_params, path_params) := _get_user_params params in
  let* op_spec := get_operation_spec operation_name in
  let* (url, method) := _get_request_params_from_spec op_spec in
  _send_request url method data path_params query_params.

Definition crud_operation (fuel : nat) (op_name : string) : @M W value :=
  let* op_spec := get_operation_spec op_name in
  match op_spec with
  | None => raise (FtdInvalidOperationNameError op_name)
  | Some _ =>
      let* is_add := is_add_operation op_name in
      if is_add then add_object fuel op_name
      else
        let* is_edit := is_edit_operation op_name in
        if is_edit then edit_object op_name
        else
          let* is_delete := is_delete_operation op_name in
          if is_delete then delete_object op_name
          else
            let* is_find := is_find_by_filter_operation op_name in
            if is_find then get_objects_by_filter fuel op_name false
            else send_general_request op_name
  end.

End BaseConfigurationResource.

(** * A small device to run the resource against

    A connection to a device that stores network objects, with the five
    operations of the [NetworkObject] model. *)

Module Demo.

Definition NETWORKS : string := "/object/networks".
Definition NETWORK : string := "/object/networks/{objId}".

Definition operations : list (string * OperationSpec) :=
  [ ("addNetworkObject", mkSpec HTTPMethod.POST NETWORKS "NetworkObject");
    ("editNetworkObject", mkSpec HTTPMethod.PUT NETWORK "NetworkObject");
    ("deleteNetworkObject", mkSpec HTTPMethod.DELETE NETWORK "NetworkObject");
    ("getNetworkObject", mkSpec HTTPMethod.GET NETWORK "NetworkObject");
    ("getNetworkObjectList", mkSpec HTTPMethod.GET NETWORKS "NetworkObject") ].

Definition get_operation_spec (name : string) : option OperationSpec :=
  Dict.get name operations.

Definition get_operation_specs_by_model_name (model : string)
  : list (string * OperationSpec) :=
  List.filter (fun kv => String.eqb (MODEL_NAME (snd kv)) model) operations.

Definition field (k : string) (v : value) : value :=
  match v with
  | VDict d => match Dict.get k d with Some x => x | None => VNone end
  | _ => VNone
  end.

Definition nat_field (k : string) (v : value) : nat :=
  match field k v with
  | VInt z => Z.to_nat z
  | _ => 0
  end.

Definition page (q : value) (objs : list value) : list value :=
  firstn (nat_field "limit" q) (skipn (nat_field "offset" q) objs).

Definition has (k : string) (x : value) (o : value) : bool :=
  py_eq (field k o) x.

Definition send_request (req : Request) (objs : list value)
  : Response * list value :=
  let body := body_params req in
  let id := field "objId" (path_params req) in
  match http_method req with
  | HTTPMethod.GET =>
      if String.eqb (url_path req) NETWORKS
      then (mkResponse true
              (VDict [("items", VList (page (query_params req) objs))]) 200,
            objs)
      else
        match find (has "id" id) objs with
        | Some o => (mkResponse true o 200, objs)
        | None => (mkResponse true (VDict []) 200, objs)
        end
  | HTTPMethod.POST =>
      if existsb (has "name" (field "name" body)) objs
      then (mkResponse false
              (VStr "Validation failed due to a duplicate name") 422, objs)
      else (mkResponse true body 200, (objs ++ [body])%list)
  | HTTPMethod.PUT =>
      (mkResponse true body 200,
       map (fun o => if has "id" id o then body else o) objs)
  | HTTPMethod.DELETE =>
      if existsb (has "id" id) objs
      then (mkResponse true (VDict []) 204,
            List.filter (fun o => negb (has "id" id o)) objs)
      else (mkResponse false
              (VStr "Validation failed due to an invalid UUID") 422, objs)
  | HTTPMethod.Other _ =>
      (mkResponse false (VStr "Method not allowed") 405, objs)
  end.

Definition validate_mapping (what : string) (v : value) : Validation :=
  match v with
  | VDict _ => Validated true VNone
  | _ => ValidationRaised (what ++ " must be a mapping")
  end.

Definition validate_data (_ : string) (v : value) : Validation :=
  match v with
  | VDict d =>
      if Dict.mem "name" d then Validated true VNone
      else Validated false (VDict [("required", VList [VStr "name"])])
  | _ => Validated false (VStr "data must be a mapping")
  end.

Definition conn : Connection (list value) :=
  {| conn_get_operation_spec := get_operation_spec;
     conn_get_operation_specs_by_model_name := get_operation_specs_by_model_name;
     conn_send_request := send_request;
     conn_validate_query_params := fun _ => validate_mapping "query_params";
     conn_validate_path_params := fun _ => validate_mapping "path_params";
     conn_validate_data := validate_data |}.

(** The same device behind a connection whose models list no operation of
    the form [get...List]. *)
Definition conn_without_find_all : Connection (list value) :=
  {| conn_get_operation_spec := get_operation_spec;
     conn_get_operation_specs_by_model_name :=
       fun model =>
         List.filter (fun kv => negb (endswith (fst kv) "List"))
                     (get_operation_specs_by_model_name model);
     conn_send_request := send_request;
     conn_validate_query_params := fun _ => validate_mapping "query_params";
     conn_validate_path_params := fun _ => validate_mapping "path_params";
     conn_validate_data := validate_data |}.

(** The same device behind a connection that lists the operations of a
    model but knows none of them by name. *)
Definition conn_by_model_only : Connection (list value) :=
  {| conn_get_operation_spec := fun _ => None;
     conn_get_operation_specs_by_model_name := get_operation_specs_by_model_name;
     conn_send_request := send_request;
     conn_validate_query_params := fun _ => validate_mapping "query_params";
     conn_validate_path_params := fun _ => validate_mapping "path_params";
     conn_validate_data := validate_data |}.

Definition py_str (v : value) : string :=
  match v with
  | VStr s => s
  | _ => ""
  end.

Definition int_of_str (_ : string) : option Z := None.

(** Every field of the submitted data is in the existing object. *)
Definition equal_objects (existing data : value) : bool :=
  match data with
  | VDict d => forallb (fun kv => has (fst kv) (snd kv) existing) d
  | _ => py_eq existing data
  end.

(** A fresh resource in front of a device holding [objs]. *)
Definition store (check_mode : bool) (objs : list value) (p : dict)
  : Store (list value) :=
  mkStore (__init__ check_mode) objs [] p.

Definition network (id : Z) (name : string) (subnet : string) : value :=
  VDict [("id", VInt id); ("name", VStr name); ("value", VStr subnet)].

Definition numbered (n : nat) : list value :=
  map (fun i => VDict [("id", VInt (Z.of_nat i))]) (seq 0 n).

Definition crud := crud_operation conn py_str int_of_str equal_objects.
End Demo.

(** * Vocabulary of the statements *)

(** ** Relations between the store before and after a call *)

(** [m] takes every store to a store related to it by [R]. *)
Definition respects {W} (R : Store W -> Store W -> Prop) {A} (m : @M W A)
  : Prop :=
  forall st, R st (snd (m st)).

(** Nothing but the two caches of [self] has changed: no request went out,
    the device, the caller's [params], [config_changed] and [_check_mode]
    are as before. *)
Definition quiet {W} (a b : Store W) : Prop :=
  device b = device a /\ sent b = sent a /\ params b = params a /\
  config_changed (self b) = config_changed (self a) /\
  _check_mode (self b) = _check_mode (self a).

(** What every method guarantees: [_check_mode] is as before,
    [config_changed] has not gone from true to false, and the requests
    sent so far are still there, followed by the new ones. *)
Definition evolves {W} (a b : Store W) : Prop :=
  _check_mode (self b) = _check_mode (self a) /\
  implb (config_changed (self a)) (config_changed (self b)) = true /\
  exists l, sent b = (sent a ++ l)%list.

(** The entry [params['filters']] is as before. *)
Definition filters_stay {W} (a b : Store W) : Prop :=
  Dict.get "filters" (params b) = Dict.get "filters" (params a).

(** ** What a call computes *)

(** The specification [get_operation_spec] answers with in a store, and the
    store it leaves behind. *)
Definition lookup_spec {W} (conn : Connection W) (op : string) (st : Store W)
  : option OperationSpec :=
  match _operation_spec_cache (self st) !! op with
  | Some s => s
  | None => conn_get_operation_spec conn op
  end.

Definition cache_spec {W} (conn : Connection W) (op : string) (st : Store W)
  : Store W :=
  match _operation_spec_cache (self st) !! op with
  | Some _ => st
  | None =>
      mkStore
        (with_operation_spec_cache
           (<[op := conn_get_operation_spec conn op]>
              (_operation_spec_cache (self st))) (self st))
        (device st) (sent st) (params st)
  end.

(** The report of [validate_params], said declaratively: one entry per
    failing category, in the order query, path, data; the data are looked
    at only for a POST or PUT operation. *)
Definition failure (label : string) (v : Validation) : dict :=
  match v with
  | Validated true _ => []
  | Validated false validation_report => [(label, validation_report)]
  | ValidationRaised message => [(label, VStr message)]
  end.

Definition expected_report {W} (conn : Connection W) (op : string)
    (s : OperationSpec) (p : dict) : dict :=
  (failure "Invalid query_params provided"
     (conn_validate_query_params conn op (get_or_empty "query_params" p))
   ++ failure "Invalid path_params provided"
        (conn_validate_path_params conn op (get_or_empty "path_params" p))
   ++ match METHOD s with
      | HTTPMethod.POST | HTTPMethod.PUT =>
          failure "Invalid data provided"
            (conn_validate_data conn op (get_or_empty "data" p))
      | _ => []
      end)%list.

Definition validation_outcome (report : dict) : outcome unit :=
  match report with
  | [] => Ok tt
  | _ => Raise (ValidationError report)
  end.

(** What a category contributes to the report: nothing when it is valid, the
    validator's report when it is not, the text of the exception when the
    validator raised. *)
Definition entry (v : Validation) : option value :=
  match v with
  | Validated true _ => None
  | Validated false validation_report => Some validation_report
  | ValidationRaised message => Some (VStr message)
  end.

(** Handing a request to the connection. *)
Definition transmit {W} (conn : Connection W) (req : Request) (st : Store W)
  : Response * Store W :=
  let (response, device') := conn_send_request conn req (device st) in
  (response, mkStore (self st) device' (sent st ++ [req]) (params st)).

Definition mark_changed {W} (st : Store W) : Store W :=
  mkStore (with_config_changed true (self st)) (device st) (sent st)
          (params st).

Definition with_params {W} (p : dict) (st : Store W) : Store W :=
  mkStore (self st) (device st) (sent st) p.

(** The handlers of one operation. *)
Definition handlers {W} (conn : Connection W) (py_str : value -> string)
    (int_of_str : string -> option Z) (equal_objects : value -> value -> bool)
    (fuel : nat) (op : string) : list (@M W value) :=
  [ add_object conn py_str int_of_str equal_objects fuel op;
    edit_object conn equal_objects op;
    delete_object conn py_str op;
    get_objects_by_filter conn py_str int_of_str fuel op false;
    get_objects_by_filter conn py_str int_of_str fuel op true;
    send_general_request conn op ].

(** ** The check-mode gate *)

(** The gate as a reading of "read-only operations and find-by-filter are
    never gated": with valid parameters, neither [get_objects_by_filter] nor
    a general request of method GET ends in [CheckModeException]. *)
Definition read_only_never_gated : Prop :=
  forall (W : Type) (conn : Connection W) py_str int_of_str fuel op one
         (st : Store W) s,
    lookup_spec conn op st = Some s ->
    expected_report conn op s (params st) = [] ->
    _check_mode (self st) = true ->
    fst (get_objects_by_filter conn py_str int_of_str fuel op one st)
      <> Raise CheckModeException /\
    (METHOD s = HTTPMethod.GET ->
     fst (send_general_request conn op st) <> Raise CheckModeException).

(** ** The two caches *)

Inductive cache_call : Type :=
| GetOperationSpec (operation_name : string)
| GetOperationSpecsByModelName (model_name : string).

Definition run_call {W} (conn : Connection W) (c : cache_call) (st : Store W)
  : Store W :=
  match c with
  | GetOperationSpec n => snd (get_operation_spec conn n st)
  | GetOperationSpecsByModelName m =>
      snd (get_operation_specs_by_model_name conn m st)
  end.

Definition run_calls {W} (conn : Connection W) (cs : list cache_call)
    (st : Store W) : Store W :=
  fold_left (fun st c => run_call conn c st) cs st.

(** Every operation of every cached model has an entry in the name cache. *)
Definition backfilled (r : Resource) : Prop :=
  forall model specs name spec,
    _models_operations_specs_cache r !! model = Some specs ->
    In (name, spec) specs ->
    is_Some (_operation_spec_cache r !! name).

(** The same, with the entry being the very specification. *)
Definition backfilled_exactly (r : Resource) : Prop :=
  forall model specs name spec,
    _models_operations_specs_cache r !! model = Some specs ->
    In (name, spec) specs ->
    _operation_spec_cache r !! name = Some (Some spec).

(** The invariant as a reading of "after any sequence of
    [get_operation_spec] and [get_operation_specs_by_model_name] calls, every
    spec present in the model-level cache under some model is also present in
    the name-level cache under its operation name". *)
Definition model_specs_always_cached_by_name : Prop :=
  forall (W : Type) (conn : Connection W) (check_mode : bool) (d : W)
         (p : dict) (calls : list cache_call),
    backfilled_exactly
      (self (run_calls conn calls (mkStore (__init__ check_mode) d [] p))).

(** The connection describes an operation in the same way whether it is asked
    by operation name or by model name. *)
Definition consistent {W} (conn : Connection W) : Prop :=
  forall model name spec,
    In (name, spec) (conn_get_operation_specs_by_model_name conn model) ->
    conn_get_operation_spec conn name = Some spec.

(** Both caches hold what the connection answered. *)
Definition faithful {W} (conn : Connection W) (r : Resource) : Prop :=
  (forall name v,
     _operation_spec_cache r !! name = Some v ->
     v = conn_get_operation_spec conn name) /\
  (forall model specs,
     _models_operations_specs_cache r !! model = Some specs ->
     specs = conn_get_operation_specs_by_model_name conn model).

(** ** The pagination iterator *)

(** The query parameters of the first request. *)
Definition with_defaults (supplied : dict) : dict :=
  Dict.setdefault "offset" (VInt DEFAULT_OFFSET)
    (Dict.setdefault "limit" (VInt DEFAULT_PAGE_SIZE) supplied).

Definition has_paging (query_params : dict) : bool :=
  Dict.mem "limit" query_params && Dict.mem "offset" query_params.

Definition keep_all {W} (_ : value) : @M W bool := ret true.

(** The iterator as the specification words it: fetch the page at the current
    offset; an empty item list ends the sequence; otherwise the items of the
    page come next, in order, and the following page is fetched with the
    offset advanced by the limit.  [n] bounds the number of pages. *)
Fixpoint pages {W} (int_of_str : string -> option Z)
    (resource_func : dict -> @M W value) (n : nat) (query_params : dict)
  : @M W (list value) :=
  match n with
  | O => out_of_fuel
  | S n' =>
      let* result := resource_func query_params in
      let* items := getitem result "items" in
      match items with
      | VList [] => ret []
      | VList page =>
          let* offset := getitem (VDict query_params) "offset" in
          let* offset := py_int int_of_str offset in
          let* limit := getitem (VDict query_params) "limit" in
          let* limit := py_int int_of_str limit in
          let* rest :=
            pages int_of_str resource_func n'
                  (Dict.set "offset" (VInt (offset + limit)) query_params) in
          ret (page ++ rest)%list
      | _ => raise TypeError
      end
  end.

(** A resource function that refuses a query without [limit] or [offset]. *)
Definition guarded {W} (resource_func : dict -> @M W value)
    (query_params : dict) : @M W value :=
  if has_paging query_params then resource_func query_params
  else raise (KeyError "limit").

(** [collect (S fuel)] with the first [next] replaced by [m]. *)
Definition collect_after {W} (int_of_str : string -> option Z)
    (resource_func : dict -> @M W value)
    (m : @M W (option value * generator)) (fuel : nat) : @M W (list value) :=
  let* r := m in
  match r with
  | (None, _) => ret []
  | (Some i, g') =>
      let* b := keep_all i in
      let* l := collect int_of_str resource_func fuel keep_all g' in
      ret (if b then i :: l else l)
  end.

(** The frames in which the query parameters carry [limit] and [offset]. *)
Definition paged (g : generator) : Prop :=
  match g with
  | Suspended _ q => has_paging q = true
  | _ => True
  end.

(** The list endpoint of the demo device as a resource function. *)
Definition demo_pages (q : dict) : @M (list value) value :=
  _send_request Demo.conn Demo.NETWORKS HTTPMethod.GET VNone (VDict [])
                (VDict q).

Definition paging (offset : Z) : value :=
  VDict [("limit", VInt 10); ("offset", VInt offset)].

(** ** Reconciliation of a duplicate name *)

(** The caller's [params] after the [if 'filters' not in params] block of
    [_check_if_the_same_object], when that block does not raise. *)
Definition default_filters (p : dict) (data : value) : option dict :=
  if Dict.mem "filters" p then Some p
  else
    match data with
    | VDict d =>
        match Dict.get "name" d with
        | Some name => Some (Dict.set "filters" (VDict [("name", name)]) p)
        | None => None
        end
    | _ => None
    end.

(** The side effect on [params] as a reading of "when the create fails with
    a 422 duplicate-name error and the caller did not supply a 'filters' key,
    [params['filters'] = {'name': data['name']}] is inserted". *)
Definition filters_always_inserted : Prop :=
  forall (W : Type) (conn : Connection W) py_str int_of_str equal_objects
         (fuel : nat) (op : string) (st : Store W) (s : OperationSpec)
         (d : dict) (name : value),
    lookup_spec conn op st = Some s ->
    expected_report conn op s (params st) = [] ->
    _check_mode (self st) = false ->
    let create :=
      mkRequest (URL s) (METHOD s) (get_or_empty "data" (params st))
                (get_or_empty "path_params" (params st))
                (get_or_empty "query_params" (params st)) in
    let response := fst (transmit conn create (cache_spec conn op st)) in
    SUCCESS response = false ->
    (STATUS_CODE response =? 422)
    && contains "Validation failed due to a duplicate name"
                (py_str (RESPONSE response)) = true ->
    Dict.get "filters" (params st) = None ->
    Dict.get "data" (params st) = Some (VDict d) ->
    Dict.get "name" d = Some name ->
    Dict.get "filters"
      (params (snd (add_object conn py_str int_of_str equal_objects fuel op st)))
    = Some (VDict [("name", name)]).

(** How [_check_if_the_same_object] ends after the lookup [found]. *)
Definition reconcile (equal_objects : value -> value -> bool) (e : exn)
    (data : value) (found : outcome value) : outcome value :=
  match found with
  | Ok VNone => Raise e
  | Ok existing_obj =>
      if equal_objects existing_obj data then Ok existing_obj
      else Raise (FtdConfigurationError same_name_message existing_obj)
  | other => other
  end.

(** ** Dispatch *)

(** The categories [crud_operation] tells apart, in the order it tests them. *)
Inductive kind : Type := Add | Edit | Delete | FindByFilter | General.

Definition classify (op : string) (s : OperationSpec) (p : dict) : kind :=
  if startswith op "add" && HTTPMethod.eqb (METHOD s) HTTPMethod.POST
  then Add
  else if startswith op "edit" && HTTPMethod.eqb (METHOD s) HTTPMethod.PUT
  then Edit
  else if startswith op "delete"
          && HTTPMethod.eqb (METHOD s) HTTPMethod.DELETE
  then Delete
  else if (startswith op "get" && endswith op "List"
           && HTTPMethod.eqb (METHOD s) HTTPMethod.GET)
          && match Dict.get "filters" p with
             | Some f => truthy f
             | None => false
             end
  then FindByFilter
  else General.

Definition handler {W} (conn : Connection W) (py_str : value -> string)
    (int_of_str : string -> option Z) (equal_objects : value -> value -> bool)
    (fuel : nat) (op : string) (k : kind) : @M W value :=
  match k with
  | Add => add_object conn py_str int_of_str equal_objects fuel op
  | Edit => edit_object conn equal_objects op
  | Delete => delete_object conn py_str op
  | FindByFilter => get_objects_by_filter conn py_str int_of_str fuel op false
  | General => send_general_request conn op
  end.

(** The test of [is_find_all_operation] on an operation of a model. *)
Definition is_find_all_spec (kv : string * OperationSpec) : bool :=
  startswith (fst kv) "get" && endswith (fst kv) "List"
  && HTTPMethod.eqb (METHOD (snd kv)) HTTPMethod.GET.

(** ** Client-side filtering *)

(** The test of [match_filters] as a predicate: every filter key is in the
    object with an equal value. *)
Definition matches (filter_params : dict) (obj : value) : bool :=
  match obj with
  | VDict o =>
      forallb
        (fun kv =>
           match Dict.get (fst kv) o with
           | Some v' => py_eq (snd kv) v'
           | None => false
           end)
        filter_params
  | _ => false
  end.

Definition is_dict (v : value) : bool :=
  match v with
  | VDict _ => true
  | _ => false
  end.

(** ** Frame conditions *)

(** The caller's [params] is as before. *)
Definition same_params {W} (a b : Store W) : Prop := params b = params a.

(** Reading only: [config_changed] is as before, and every request sent
    since is a GET. *)
Definition reads_only {W} (a b : Store W) : Prop :=
  config_changed (self b) = config_changed (self a) /\
  exists l, sent b = (sent a ++ l)%list /\
            Forall (fun r => http_method r = HTTPMethod.GET) l.

(** Both caches hold all they held, an entry of a cached model is still
    matched by an entry under its name, and the caches still hold what the
    connection answered. *)
Definition caches_kept {W} (conn : Connection W) (a b : Store W) : Prop :=
  _operation_spec_cache (self a) ⊆ _operation_spec_cache (self b) /\
  _models_operations_specs_cache (self a)
  ⊆ _models_operations_specs_cache (self b) /\
  (backfilled (self a) -> backfilled (self b)) /\
  (consistent conn -> faithful conn (self a) -> faithful conn (self b)).

(** Every request sent since goes to the URL [u] with the path parameters
    [p]. *)
Definition sends_to {W} (u : string) (p : value) (a b : Store W) : Prop :=
  exists l, sent b = (sent a ++ l)%list /\
            Forall (fun r => url_path r = u /\ path_params r = p) l.

(** The caller's [params] after the [if filters:] block of
    [get_objects_by_filter]: with a non-empty [filters] dictionary and a
    [query_params] dictionary of the caller's own, the serialized filters are
    stored in it; otherwise nothing changes. *)
Definition params_after_filters (py_str : value -> string) (p : dict) : dict :=
  match Dict.get "filters" p, Dict.get "query_params" p with
  | Some (VDict (kv :: f)), Some (VDict q) =>
      Dict.set "query_params"
        (VDict (Dict.set "filters"
                  (VStr (transform_filters_to_query_param py_str (kv :: f))) q))
        p
  | _, _ => p
  end.

(** A resource function that refuses a query failing the test [P]. *)
Definition screened {W} (P : dict -> bool) (resource_func : dict -> @M W value)
    (query_params : dict) : @M W value :=
  if P query_params then resource_func query_params else raise ValueError.

(** The frames whose next query passes the test [P]. *)
Definition passes (P : dict -> bool) (g : generator) : Prop :=
  match g with
  | Created VNone => P (with_defaults []) = true
  | Created (VDict d) => P (with_defaults d) = true
  | Suspended _ q => P q = true
  | _ => True
  end.

(** ** Reconciliation against the listing *)





(** * Reasoning principles *)

(** ** Relations between the store before and after a call *)

Section Respects.
Context {W : Type}.
Variable R : Store W -> Store W -> Prop.
Hypothesis R_refl : forall st, R st st.
Hypothesis R_trans : forall a b c, R a b -> R b c -> R a c.

Lemma respects_ret {A} (a : A) : respects R (ret a).
Proof. intros st. apply R_refl. Qed.

Lemma respects_raise {A} (e : exn) : respects R (@raise W A e).
Proof. intros st. apply R_refl. Qed.

Lemma respects_out_of_fuel {A} : respects R (@out_of_fuel W A).
Proof. intros st. apply R_refl. Qed.

Lemma respects_get_self : respects R (@get_self W).
Proof. intros st. apply R_refl. Qed.

Lemma respects_get_params : respects R (@get_params W).
Proof. intros st. apply R_refl. Qed.

Lemma respects_or_raise {A} (o : option A) e : respects R (or_raise o e).
Proof. destruct o; [apply respects_ret | apply respects_raise]. Qed.

Lemma respects_bind {A B} (m : @M W A) (k : A -> @M W B) :
  respects R m -> (forall a, respects R (k a)) -> respects R (bind m k).
Proof.
  intros Hm Hk st. unfold bind.
  specialize (Hm st). destruct (m st) as [[a|e|] st']; simpl in *; auto.
  eapply R_trans; [exact Hm | apply Hk].
Qed.

Lemma respects_except {A} (m : @M W A) h :
  respects R m -> (forall r c, respects R (h r c)) ->
  respects R (except_FtdServerError m h).
Proof.
  intros Hm Hh st. unfold except_FtdServerError.
  specialize (Hm st). destruct (m st) as [[a|e|] st']; simpl in *; auto.
  destruct e; simpl; auto.
  eapply R_trans; [exact Hm | apply Hh].
Qed.

Lemma respects_is_post_request o : respects R (@is_post_request W o).
Proof. destruct o; [apply respects_ret | apply respects_raise]. Qed.

Lemma respects_is_put_request o : respects R (@is_put_request W o).
Proof. destruct o; [apply respects_ret | apply respects_raise]. Qed.

Lemma respects_request_params o :
  respects R (@_get_request_params_from_spec W o).
Proof. destruct o; [apply respects_ret | apply respects_raise]. Qed.

Lemma respects_getitem v k : respects R (@getitem W v k).
Proof.
  destruct v; simpl; try apply respects_raise. apply respects_or_raise.
Qed.

Lemma respects_py_int f v : respects R (@py_int W f v).
Proof.
  destruct v; simpl; try apply respects_raise; try apply respects_ret.
  apply respects_or_raise.
Qed.
End Respects.

(** ** Two relations on stores *)

Section Relations.
Context {W : Type}.

Lemma quiet_refl (st : Store W) : quiet st st.
Proof. repeat split. Qed.

Lemma quiet_trans (a b c : Store W) : quiet a b -> quiet b c -> quiet a c.
Proof.
  intros (H1 & H2 & H3 & H4 & H5) (G1 & G2 & G3 & G4 & G5).
  repeat split; congruence.
Qed.

Lemma evolves_refl (st : Store W) : evolves st st.
Proof.
  repeat split.
  - destruct (config_changed (self st)); reflexivity.
  - exists []. symmetry. apply app_nil_r.
Qed.

Lemma evolves_trans (a b c : Store W) : evolves a b -> evolves b c -> evolves a c.
Proof.
  intros (H1 & H2 & l1 & H3) (G1 & G2 & l2 & G3). repeat split.
  - congruence.
  - destruct (config_changed (self a)), (config_changed (self b)),
      (config_changed (self c)); simpl in *; congruence.
  - exists (l1 ++ l2)%list. rewrite G3, H3. symmetry. apply app_assoc.
Qed.

Lemma quiet_evolves (a b : Store W) : quiet a b -> evolves a b.
Proof.
  intros (H1 & H2 & H3 & H4 & H5). repeat split; auto.
  - rewrite H4. destruct (config_changed (self a)); reflexivity.
  - exists []. rewrite H2. symmetry. apply app_nil_r.
Qed.

Lemma respects_quiet_evolves {A} (m : @M W A) :
  respects quiet m -> respects evolves m.
Proof. intros H st. apply quiet_evolves, H. Qed.
End Relations.

Create HintDb respects.

Ltac rel_side :=
  first [ exact quiet_refl | exact quiet_trans
        | exact evolves_refl | exact evolves_trans ].

(** Unfolds one layer of monadic structure of a [respects] goal. *)
Ltac respects_step :=
  match goal with
  | |- respects _ (bind _ _) => apply respects_bind; [rel_side .. | | intros ]
  | |- respects _ (except_FtdServerError _ _) =>
      apply respects_except; [rel_side .. | | intros ]
  | |- respects _ (ret _) => apply respects_ret; rel_side
  | |- respects _ (raise _) => apply respects_raise; rel_side
  | |- respects _ out_of_fuel => apply respects_out_of_fuel; rel_side
  | |- respects _ get_self => apply respects_get_self; rel_side
  | |- respects _ get_params => apply respects_get_params; rel_side
  | |- respects _ (or_raise _ _) => apply respects_or_raise; rel_side
  | |- respects _ (is_post_request _) => apply respects_is_post_request; rel_side
  | |- respects _ (is_put_request _) => apply respects_is_put_request; rel_side
  | |- respects _ (_get_request_params_from_spec _) =>
      apply respects_request_params; rel_side
  | |- respects _ (getitem _ _) => apply respects_getitem; rel_side
  | |- respects _ (py_int _ _) => apply respects_py_int; rel_side
  | |- respects _ (match ?x with _ => _ end) => destruct x
  | |- respects _ (if ?b then _ else _) => destruct b
  | |- respects _ (let (_, _) := ?x in _) => destruct x
  end.

Ltac respects_solve :=
  repeat first [ solve [auto with respects] | respects_step ].

Section MethodsRespect.
Context {W : Type}.
Variable conn : Connection W.
Variable py_str : value -> string.
Variable int_of_str : string -> option Z.
Variable equal_objects : value -> value -> bool.

Lemma quiet_set_cache (c : gmap string (option OperationSpec)) (st : Store W) :
  quiet st (snd (set_self (with_operation_spec_cache c (self st)) st)).
Proof. repeat split. Qed.

Lemma quiet_get_operation_spec op :
  respects quiet (get_operation_spec conn op).
Proof.
  intros st. unfold get_operation_spec, bind, get_self. simpl.
  destruct (_operation_spec_cache (self st) !! op); simpl; repeat split.
Qed.

Lemma quiet_get_operation_specs_by_model_name m :
  respects quiet (get_operation_specs_by_model_name conn m).
Proof.
  intros st. unfold get_operation_specs_by_model_name, bind, get_self. simpl.
  destruct (_models_operations_specs_cache (self st) !! m); simpl;
    repeat split.
Qed.

Hint Resolve quiet_get_operation_spec quiet_get_operation_specs_by_model_name
  : respects.

Lemma quiet_validate_params op : respects quiet (validate_params conn op).
Proof. unfold validate_params. respects_solve. Qed.

Lemma quiet_stop_if_check_mode : respects quiet (@stop_if_check_mode W).
Proof. unfold stop_if_check_mode. respects_solve. Qed.

Lemma quiet_is_add_operation op : respects quiet (is_add_operation conn op).
Proof. unfold is_add_operation. respects_solve. Qed.

Lemma quiet_is_edit_operation op : respects quiet (is_edit_operation conn op).
Proof. unfold is_edit_operation. respects_solve. Qed.

Lemma quiet_is_delete_operation op :
  respects quiet (is_delete_operation conn op).
Proof. unfold is_delete_operation. respects_solve. Qed.

Lemma quiet_is_find_all_operation op :
  respects quiet (is_find_all_operation conn op).
Proof. unfold is_find_all_operation. respects_solve. Qed.

Hint Resolve quiet_validate_params quiet_stop_if_check_mode
  quiet_is_add_operation quiet_is_edit_operation quiet_is_delete_operation
  quiet_is_find_all_operation : respects.

Lemma quiet_is_find_by_filter_operation op :
  respects quiet (is_find_by_filter_operation conn op).
Proof. unfold is_find_by_filter_operation. respects_solve. Qed.

Lemma quiet_first_find_all names :
  respects quiet (first_find_all conn names).
Proof. induction names as [|n names IH]; simpl; respects_solve. Qed.

Hint Resolve quiet_is_find_by_filter_operation quiet_first_find_all : respects.

Lemma quiet__get_find_all_operation_name m :
  respects quiet (_get_find_all_operation_name conn m).
Proof. unfold _get_find_all_operation_name. respects_solve. Qed.

Hint Resolve quiet__get_find_all_operation_name respects_quiet_evolves
  : respects.

Lemma evolves_conn_call req : respects evolves (conn_call conn req).
Proof.
  intros st. unfold conn_call.
  destruct (conn_send_request conn req (device st)) as [r d].
  unfold evolves; simpl. repeat split.
  - destruct (config_changed (self st)); reflexivity.
  - eexists. reflexivity.
Qed.

Lemma evolves_set_config_changed (st : Store W) :
  evolves st (snd (set_self (with_config_changed true (self st)) st)).
Proof.
  unfold evolves; simpl. repeat split.
  - destruct (config_changed (self st)); reflexivity.
  - exists []. symmetry. apply app_nil_r.
Qed.

Lemma evolves__send_request u m b p q :
  respects evolves (_send_request conn u m b p q).
Proof.
  unfold _send_request.
  apply respects_bind; [rel_side | apply evolves_conn_call | intros r].
  apply respects_bind; [rel_side | respects_solve | intros _].
  apply respects_bind; [rel_side | | intros; respects_solve].
  destruct (HTTPMethod.eqb m HTTPMethod.GET); [respects_solve|].
  intros st. apply evolves_set_config_changed.
Qed.

Lemma evolves_set_params p : respects evolves (@set_params W p).
Proof.
  intros st. unfold evolves; simpl. repeat split.
  - destruct (config_changed (self st)); reflexivity.
  - exists []. symmetry. apply app_nil_r.
Qed.

Hint Resolve evolves__send_request evolves_set_params : respects.

Lemma evolves_apply_filters q : respects evolves (@apply_filters W py_str q).
Proof. unfold apply_filters. respects_solve. Qed.

Lemma evolves_match_filters f o : respects evolves (@match_filters W f o).
Proof. unfold match_filters. respects_solve. Qed.

Hint Resolve evolves_apply_filters evolves_match_filters : respects.

Section Pull.
Variable resource_func : dict -> @M W value.
Hypothesis evolves_resource_func :
  forall q, respects evolves (resource_func q).
Variable keep : value -> @M W bool.
Hypothesis evolves_keep : forall i, respects evolves (keep i).

Lemma evolves_fetch q : respects evolves (fetch resource_func q).
Proof. unfold fetch. respects_solve. Qed.

Hint Resolve evolves_fetch : respects.

Lemma evolves_next g : respects evolves (next int_of_str resource_func g).
Proof. unfold next. respects_solve. Qed.

Hint Resolve evolves_next : respects.

Lemma evolves_collect fuel g :
  respects evolves (collect int_of_str resource_func fuel keep g).
Proof.
  revert g. induction fuel as [|fuel IH]; intros g; simpl; respects_solve.
Qed.

Lemma evolves_first fuel g :
  respects evolves (first int_of_str resource_func fuel keep g).
Proof.
  revert g. induction fuel as [|fuel IH]; intros g; simpl; respects_solve.
Qed.
End Pull.

Hint Resolve evolves_collect evolves_first : respects.

Lemma evolves_get_objects_by_filter fuel op one :
  respects evolves
    (get_objects_by_filter conn py_str int_of_str fuel op one).
Proof. unfold get_objects_by_filter. respects_solve. Qed.

Hint Resolve evolves_get_objects_by_filter : respects.

Lemma evolves__check_if_the_same_object fuel o e :
  respects evolves
    (_check_if_the_same_object conn py_str int_of_str equal_objects fuel o e).
Proof. unfold _check_if_the_same_object. respects_solve. Qed.

Hint Resolve evolves__check_if_the_same_object : respects.

Lemma evolves_add_object fuel op :
  respects evolves (add_object conn py_str int_of_str equal_objects fuel op).
Proof. unfold add_object. respects_solve. Qed.

Lemma evolves_delete_object op :
  respects evolves (delete_object conn py_str op).
Proof. unfold delete_object. respects_solve. Qed.

Lemma evolves_edit_object op :
  respects evolves (edit_object conn equal_objects op).
Proof. unfold edit_object. respects_solve. Qed.

Lemma evolves_send_general_request op :
  respects evolves (send_general_request conn op).
Proof. unfold send_general_request. respects_solve. Qed.

Hint Resolve evolves_add_object evolves_delete_object evolves_edit_object
  evolves_send_general_request : respects.

Lemma evolves_crud_operation fuel op :
  respects evolves
    (crud_operation conn py_str int_of_str equal_objects fuel op).
Proof. unfold crud_operation. respects_solve. Qed.
End MethodsRespect.

(** ** What a call computes *)

Lemma bind_ok {W A B} (m : @M W A) (k : A -> @M W B) st a st' :
  m st = (Ok a, st') -> bind m k st = k a st'.
Proof. intros H. unfold bind. rewrite H. reflexivity. Qed.

Lemma bind_raise {W A B} (m : @M W A) (k : A -> @M W B) st e st' :
  m st = (Raise e, st') -> bind m k st = (Raise e, st').
Proof. intros H. unfold bind. rewrite H. reflexivity. Qed.

Lemma bind_out_of_fuel {W A B} (m : @M W A) (k : A -> @M W B) st st' :
  m st = (OutOfFuel, st') -> bind m k st = (OutOfFuel, st').
Proof. intros H. unfold bind. rewrite H. reflexivity. Qed.

Lemma getitem_state {W} v k (st : Store W) : snd (getitem v k st) = st.
Proof. symmetry. apply (respects_getitem eq (fun _ => eq_refl)). Qed.

Lemma py_int_state {W} f v (st : Store W) : snd (py_int f v st) = st.
Proof. symmetry. apply (respects_py_int eq (fun _ => eq_refl)). Qed.

(** Inverts a hypothesis [H : bind m k st = (Ok _, _)]: the first step [m]
    returned a value [x] in a store [st1], by the equation [E]. *)
Ltac bind_inv H E x st1 :=
  match type of H with
  | bind ?m _ ?st = _ =>
      destruct (m st) as [[x| |] st1] eqn:E;
      [ rewrite (bind_ok _ _ _ _ _ E) in H
      | rewrite (bind_raise _ _ _ _ _ E) in H; discriminate H
      | rewrite (bind_out_of_fuel _ _ _ _ E) in H; discriminate H ]
  end.

Section Runs.
Context {W : Type}.
Variable conn : Connection W.
Variable py_str : value -> string.
Variable int_of_str : string -> option Z.
Variable equal_objects : value -> value -> bool.

Lemma get_operation_spec_run op st :
  get_operation_spec conn op st
  = (Ok (lookup_spec conn op st), cache_spec conn op st).
Proof.
  unfold get_operation_spec, lookup_spec, cache_spec, bind, get_self.
  simpl. destruct (_operation_spec_cache (self st) !! op); reflexivity.
Qed.

Lemma cache_spec_lookup op st :
  _operation_spec_cache (self (cache_spec conn op st)) !! op
  = Some (lookup_spec conn op st).
Proof.
  unfold cache_spec, lookup_spec.
  destruct (_operation_spec_cache (self st) !! op) eqn:E; simpl.
  - exact E.
  - apply lookup_insert_eq.
Qed.

Lemma get_operation_spec_hit op st s :
  _operation_spec_cache (self st) !! op = Some s ->
  get_operation_spec conn op st = (Ok s, st).
Proof.
  intros H. rewrite get_operation_spec_run.
  unfold lookup_spec, cache_spec. rewrite H. reflexivity.
Qed.

Lemma get_operation_spec_again op st :
  get_operation_spec conn op (cache_spec conn op st)
  = (Ok (lookup_spec conn op st), cache_spec conn op st).
Proof. apply get_operation_spec_hit, cache_spec_lookup. Qed.

Lemma cache_spec_quiet op st : quiet st (cache_spec conn op st).
Proof.
  unfold cache_spec. destruct (_operation_spec_cache (self st) !! op).
  - apply quiet_refl.
  - repeat split.
Qed.

Lemma validate_params_run op st :
  validate_params conn op st =
  (match lookup_spec conn op st with
   | Some s => validation_outcome (expected_report conn op s (params st))
   | None => Raise TypeError
   end, cache_spec conn op st).
Proof.
  unfold validate_params.
  rewrite (bind_ok _ _ st (params st) st) by reflexivity.
  rewrite (bind_ok _ _ _ _ _ (get_operation_spec_run op st)).
  unfold _get_user_params.
  destruct (lookup_spec conn op st) as [s|]; [|reflexivity].
  unfold expected_report, validate, is_post_request, is_put_request, bind, ret.
  destruct (conn_validate_query_params conn op _) as [[|] ?|?];
    destruct (conn_validate_path_params conn op _) as [[|] ?|?];
    destruct (METHOD s); simpl; try reflexivity;
    destruct (conn_validate_data conn op _) as [[|] ?|?]; reflexivity.
Qed.

Lemma stop_if_check_mode_run (st : Store W) :
  stop_if_check_mode st =
  (if _check_mode (self st) then Raise CheckModeException else Ok tt, st).
Proof.
  unfold stop_if_check_mode, bind, get_self. simpl.
  destruct (_check_mode (self st)); reflexivity.
Qed.

Lemma _send_request_run u m b p q st :
  _send_request conn u m b p q st =
  let (response, st') := transmit conn (mkRequest u m b p q) st in
  if SUCCESS response
  then (Ok (RESPONSE response),
        if HTTPMethod.eqb m HTTPMethod.GET then st' else mark_changed st')
  else (Raise (FtdServerError (RESPONSE response) (STATUS_CODE response)), st').
Proof.
  unfold _send_request, transmit, bind, conn_call.
  destruct (conn_send_request conn _ (device st)) as [r d].
  destruct (SUCCESS r); simpl; [|reflexivity].
  destruct (HTTPMethod.eqb m HTTPMethod.GET); reflexivity.
Qed.
End Runs.

Section Handlers.
Context {W : Type}.
Variable conn : Connection W.
Variable py_str : value -> string.
Variable int_of_str : string -> option Z.
Variable equal_objects : value -> value -> bool.

Lemma cache_spec_params op (st : Store W) :
  params (cache_spec conn op st) = params st.
Proof. apply (cache_spec_quiet conn op st). Qed.

Lemma cache_spec_sent op (st : Store W) :
  sent (cache_spec conn op st) = sent st.
Proof. apply (cache_spec_quiet conn op st). Qed.

Lemma cache_spec_device op (st : Store W) :
  device (cache_spec conn op st) = device st.
Proof. apply (cache_spec_quiet conn op st). Qed.

Lemma cache_spec_check_mode op (st : Store W) :
  _check_mode (self (cache_spec conn op st)) = _check_mode (self st).
Proof. apply (cache_spec_quiet conn op st). Qed.

Lemma cache_spec_config_changed op (st : Store W) :
  config_changed (self (cache_spec conn op st)) = config_changed (self st).
Proof. apply (cache_spec_quiet conn op st). Qed.

Section Prelude.
Variables (op : string) (st : Store W) (s : OperationSpec).
Hypothesis Hs : lookup_spec conn op st = Some s.

Lemma validate_ok :
  expected_report conn op s (params st) = [] ->
  validate_params conn op st = (Ok tt, cache_spec conn op st).
Proof. intros H. rewrite validate_params_run, Hs, H. reflexivity. Qed.

Lemma validate_fail :
  expected_report conn op s (params st) <> [] ->
  validate_params conn op st
  = (Raise (ValidationError (expected_report conn op s (params st))),
     cache_spec conn op st).
Proof.
  intros H. rewrite validate_params_run, Hs.
  destruct (expected_report conn op s (params st)); [congruence|reflexivity].
Qed.

Lemma stop_ok :
  _check_mode (self st) = false ->
  stop_if_check_mode (cache_spec conn op st) = (Ok tt, cache_spec conn op st).
Proof.
  intros H. rewrite stop_if_check_mode_run, cache_spec_check_mode, H.
  reflexivity.
Qed.

Lemma stop_raise :
  _check_mode (self st) = true ->
  stop_if_check_mode (cache_spec conn op st)
  = (Raise CheckModeException, cache_spec conn op st).
Proof.
  intros H. rewrite stop_if_check_mode_run, cache_spec_check_mode, H.
  reflexivity.
Qed.

Lemma params_after_validation :
  get_params (cache_spec conn op st) = (Ok (params st), cache_spec conn op st).
Proof. unfold get_params. rewrite cache_spec_params. reflexivity. Qed.

Lemma spec_after_validation :
  get_operation_spec conn op (cache_spec conn op st)
  = (Ok (Some s), cache_spec conn op st).
Proof. rewrite get_operation_spec_again, Hs. reflexivity. Qed.
End Prelude.

Lemma request_params_ok (s : OperationSpec) (st : Store W) :
  _get_request_params_from_spec (Some s) st = (Ok (URL s, METHOD s), st).
Proof. reflexivity. Qed.

(** Runs the common opening of a handler: validation, the check-mode gate,
    the reading of [params] and of the operation specification. *)
Ltac run_prelude Hs Hv Hc :=
  rewrite (bind_ok _ _ _ _ _ (validate_ok _ _ _ Hs Hv));
  rewrite (bind_ok _ _ _ _ _ (stop_ok _ _ Hc));
  rewrite (bind_ok _ _ _ _ _ (params_after_validation _ _));
  unfold _get_user_params; cbv beta iota;
  rewrite (bind_ok _ _ _ _ _ (spec_after_validation _ _ _ Hs));
  rewrite (bind_ok _ _ _ _ _ (request_params_ok _ _)).

(** *** Every handler validates first and is gated second *)

Section Gate.
Variables (fuel : nat) (op : string) (st : Store W) (s : OperationSpec).
Hypothesis Hs : lookup_spec conn op st = Some s.

Lemma handlers_invalid h :
  In h (handlers conn py_str int_of_str equal_objects fuel op) ->
  expected_report conn op s (params st) <> [] ->
  h st = (Raise (ValidationError (expected_report conn op s (params st))),
          cache_spec conn op st).
Proof.
  intros Hin Hv. pose proof (validate_fail _ _ _ Hs Hv) as E.
  simpl in Hin.
  repeat (destruct Hin as [<-|Hin]; [apply (bind_raise _ _ _ _ _ E)|]).
  destruct Hin.
Qed.

Lemma handlers_gated h :
  In h (handlers conn py_str int_of_str equal_objects fuel op) ->
  expected_report conn op s (params st) = [] ->
  _check_mode (self st) = true ->
  h st = (Raise CheckModeException, cache_spec conn op st).
Proof.
  intros Hin Hv Hc.
  pose proof (validate_ok _ _ _ Hs Hv) as E.
  pose proof (stop_raise op st Hc) as G.
  simpl in Hin.
  repeat (destruct Hin as [<-|Hin];
          [ unfold add_object, edit_object, delete_object,
              get_objects_by_filter, send_general_request;
            rewrite (bind_ok _ _ _ _ _ E);
            apply (bind_raise _ _ _ _ _ G) |]).
  destruct Hin.
Qed.
End Gate.

(** *** What the handlers do once past validation and the gate *)

Section Bodies.
Variables (op : string) (st : Store W) (s : OperationSpec).
Hypothesis Hs : lookup_spec conn op st = Some s.
Hypothesis Hv : expected_report conn op s (params st) = [].
Hypothesis Hc : _check_mode (self st) = false.

Let data := get_or_empty "data" (params st).
Let query := get_or_empty "query_params" (params st).
Let path := get_or_empty "path_params" (params st).
Let st0 := cache_spec conn op st.

Lemma send_general_request_run :
  send_general_request conn op st
  = _send_request conn (URL s) (METHOD s) data path query st0.
Proof. unfold send_general_request. run_prelude Hs Hv Hc. reflexivity. Qed.

Lemma delete_object_run :
  delete_object conn py_str op st =
  let (response, st') :=
    transmit conn (mkRequest (URL s) (METHOD s) VNone path VNone) st0 in
  if SUCCESS response
  then (Ok (RESPONSE response),
        if HTTPMethod.eqb (METHOD s) HTTPMethod.GET then st'
        else mark_changed st')
  else if is_invalid_uuid_error py_str (RESPONSE response)
                                (STATUS_CODE response)
  then (Ok (VDict [("status", VStr "Referenced object does not exist")]), st')
  else (Raise (FtdServerError (RESPONSE response) (STATUS_CODE response)), st').
Proof.
  unfold delete_object. run_prelude Hs Hv Hc.
  unfold except_FtdServerError. rewrite _send_request_run.
  fold path st0. destruct (transmit conn _ st0) as [r st'].
  destruct (SUCCESS r); [reflexivity|].
  destruct (is_invalid_uuid_error py_str (RESPONSE r) (STATUS_CODE r));
    reflexivity.
Qed.

Lemma edit_object_run :
  edit_object conn equal_objects op st =
  let (fetched, st1) :=
    transmit conn (mkRequest (URL s) HTTPMethod.GET VNone path VNone) st0 in
  if negb (SUCCESS fetched)
  then (Raise (FtdServerError (RESPONSE fetched) (STATUS_CODE fetched)), st1)
  else if negb (truthy (RESPONSE fetched))
  then (Raise (FtdConfigurationError "Referenced object does not exist" VNone),
        st1)
  else if equal_objects (RESPONSE fetched) data
  then (Ok (RESPONSE fetched), st1)
  else _send_request conn (URL s) (METHOD s) data path query st1.
Proof.
  unfold edit_object. run_prelude Hs Hv Hc.
  unfold bind at 1. rewrite _send_request_run.
  fold path st0. destruct (transmit conn _ st0) as [r st1].
  destruct (SUCCESS r); [|reflexivity]. simpl.
  fold data query.
  destruct (truthy (RESPONSE r)); [|reflexivity]. simpl.
  destruct (equal_objects (RESPONSE r) data); reflexivity.
Qed.

Lemma add_object_run fuel :
  add_object conn py_str int_of_str equal_objects fuel op st =
  let (response, st1) :=
    transmit conn (mkRequest (URL s) (METHOD s) data path query) st0 in
  if SUCCESS response
  then (Ok (RESPONSE response),
        if HTTPMethod.eqb (METHOD s) HTTPMethod.GET then st1
        else mark_changed st1)
  else if is_duplicate_name_error py_str (RESPONSE response)
                                  (STATUS_CODE response)
  then _check_if_the_same_object conn py_str int_of_str equal_objects fuel
         (Some s)
         (FtdServerError (RESPONSE response) (STATUS_CODE response)) st1
  else (Raise (FtdServerError (RESPONSE response) (STATUS_CODE response)), st1).
Proof.
  unfold add_object. run_prelude Hs Hv Hc.
  unfold except_FtdServerError. rewrite _send_request_run.
  fold path st0 data query. destruct (transmit conn _ st0) as [r st1].
  destruct (SUCCESS r); [reflexivity|].
  destruct (is_duplicate_name_error py_str (RESPONSE r) (STATUS_CODE r));
    reflexivity.
Qed.
End Bodies.
End Handlers.

(** * The check-mode gate *)

Ltac in_list := simpl; repeat first [ left; reflexivity | right ].

(** C1, as stated, fails: in check mode a find-by-filter call on the list
    operation of the demo device, with valid parameters, is stopped by the
    gate like any other handler. *)
Lemma check_mode_stops_find_by_filter : ~ read_only_never_gated.
Proof.
  intros H.
  destruct (H _ Demo.conn Demo.py_str Demo.int_of_str 50%nat
              "getNetworkObjectList" false
              (Demo.store true (Demo.numbered 3)
                 [("filters", VDict [("id", VInt 2)])])
              (mkSpec HTTPMethod.GET Demo.NETWORKS "NetworkObject")
              eq_refl eq_refl eq_refl) as [Hfind _].
  apply Hfind. vm_compute. reflexivity.
Qed.

(** C1, amended: in check mode every handler -- add, edit, delete,
    find-by-filter in both of its modes, and the general request whatever its
    method -- raises [CheckModeException] once validation has passed, and it
    does so before any request is handed to the connection: the requests sent
    and the device are as before the call. *)
Theorem check_mode_gates_every_handler
    (W : Type) (conn : Connection W) py_str int_of_str equal_objects
    (fuel : nat) (op : string) (one : bool) (st : Store W) (s : OperationSpec) :
  lookup_spec conn op st = Some s ->
  expected_report conn op s (params st) = [] ->
  _check_mode (self st) = true ->
  let gated := (Raise CheckModeException, cache_spec conn op st) in
  add_object conn py_str int_of_str equal_objects fuel op st = gated /\
  edit_object conn equal_objects op st = gated /\
  delete_object conn py_str op st = gated /\
  get_objects_by_filter conn py_str int_of_str fuel op one st = gated /\
  send_general_request conn op st = gated /\
  sent (cache_spec conn op st) = sent st /\
  device (cache_spec conn op st) = device st.
Proof.
  intros Hs Hv Hc gated.
  assert (G : forall h,
             In h (handlers conn py_str int_of_str equal_objects fuel op) ->
             h st = gated).
  { intros h Hin. eapply handlers_gated; eauto. }
  repeat split.
  - apply G. in_list.
  - apply G. in_list.
  - apply G. in_list.
  - destruct one; apply G; in_list.
  - apply G. in_list.
  - apply cache_spec_sent.
  - apply cache_spec_device.
Qed.

Lemma check_mode_gates_every_handler_witness :
  let st := Demo.store true [Demo.network 1 "x" "10.0.0.0/8"]
              [("path_params", VDict [("objId", VInt 1)])] in
  let s := mkSpec HTTPMethod.GET Demo.NETWORK "NetworkObject" in
  lookup_spec Demo.conn "getNetworkObject" st = Some s /\
  expected_report Demo.conn "getNetworkObject" s (params st) = [] /\
  _check_mode (self st) = true /\
  fst (send_general_request Demo.conn "getNetworkObject" st)
  = Raise CheckModeException /\
  sent (snd (send_general_request Demo.conn "getNetworkObject" st)) = [].
Proof.
  intros st s.
  assert (Hs : lookup_spec Demo.conn "getNetworkObject" st = Some s)
    by reflexivity.
  assert (Hv : expected_report Demo.conn "getNetworkObject" s (params st) = [])
    by reflexivity.
  assert (Hc : _check_mode (self st) = true) by reflexivity.
  destruct (check_mode_gates_every_handler _ Demo.conn Demo.py_str
              Demo.int_of_str Demo.equal_objects 50%nat "getNetworkObject"
              false st s Hs Hv Hc) as (_ & _ & _ & _ & Hg & Hsent & _).
  split; [exact Hs|]. split; [exact Hv|]. split; [exact Hc|].
  rewrite Hg. split; [reflexivity | exact Hsent].
Defined.

(** * Parameter validation *)

Lemma expected_report_entries {W} (conn : Connection W) op s p :
  let report := expected_report conn op s p in
  Dict.get "Invalid query_params provided" report
  = entry (conn_validate_query_params conn op (get_or_empty "query_params" p)) /\
  Dict.get "Invalid path_params provided" report
  = entry (conn_validate_path_params conn op (get_or_empty "path_params" p)) /\
  Dict.get "Invalid data provided" report
  = if HTTPMethod.eqb (METHOD s) HTTPMethod.POST
       || HTTPMethod.eqb (METHOD s) HTTPMethod.PUT
    then entry (conn_validate_data conn op (get_or_empty "data" p))
    else None.
Proof.
  unfold expected_report.
  destruct (conn_validate_query_params conn op _) as [[|] ?|?];
    destruct (conn_validate_path_params conn op _) as [[|] ?|?];
    destruct (METHOD s); simpl; repeat split;
    destruct (conn_validate_data conn op _) as [[|] ?|?]; reflexivity.
Qed.

(** C4: [validate_params] always validates the query and the path
    parameters and validates the data only for a POST or PUT operation; each
    category has its own entry in the report whatever the others did, an
    exception of a validator being recorded as its text; a non-empty report
    is raised as [ValidationError] with the whole report.  Every handler then
    ends in that [ValidationError] with nothing handed to the connection,
    whether or not the resource is in check mode. *)
Theorem validation_comes_first
    (W : Type) (conn : Connection W) py_str int_of_str equal_objects
    (fuel : nat) (op : string) (one : bool) (st : Store W) (s : OperationSpec) :
  lookup_spec conn op st = Some s ->
  let p := params st in
  let report := expected_report conn op s p in
  let invalid := (Raise (ValidationError report), cache_spec conn op st) in
  (Dict.get "Invalid query_params provided" report
   = entry (conn_validate_query_params conn op (get_or_empty "query_params" p)) /\
   Dict.get "Invalid path_params provided" report
   = entry (conn_validate_path_params conn op (get_or_empty "path_params" p)) /\
   Dict.get "Invalid data provided" report
   = if HTTPMethod.eqb (METHOD s) HTTPMethod.POST
        || HTTPMethod.eqb (METHOD s) HTTPMethod.PUT
     then entry (conn_validate_data conn op (get_or_empty "data" p))
     else None) /\
  validate_params conn op st
  = (match report with [] => Ok tt | _ => Raise (ValidationError report) end,
     cache_spec conn op st) /\
  sent (cache_spec conn op st) = sent st /\
  device (cache_spec conn op st) = device st /\
  (report <> [] ->
   add_object conn py_str int_of_str equal_objects fuel op st = invalid /\
   edit_object conn equal_objects op st = invalid /\
   delete_object conn py_str op st = invalid /\
   get_objects_by_filter conn py_str int_of_str fuel op one st = invalid /\
   send_general_request conn op st = invalid).
Proof.
  intros Hs p report invalid.
  split; [apply expected_report_entries|].
  split; [rewrite validate_params_run, Hs; reflexivity|].
  split; [apply cache_spec_sent|].
  split; [apply cache_spec_device|].
  intros Hv.
  assert (G : forall h,
             In h (handlers conn py_str int_of_str equal_objects fuel op) ->
             h st = invalid).
  { intros h Hin. eapply handlers_invalid; eauto. }
  repeat split.
  - apply G. in_list.
  - apply G. in_list.
  - apply G. in_list.
  - destruct one; apply G; in_list.
  - apply G. in_list.
Qed.

Lemma validation_comes_first_witness :
  let st := Demo.store true [] [("data", VDict [("value", VStr "10.0.0.0/8")])] in
  let s := mkSpec HTTPMethod.POST Demo.NETWORKS "NetworkObject" in
  let report :=
    [("Invalid data provided", VDict [("required", VList [VStr "name"])])] in
  lookup_spec Demo.conn "addNetworkObject" st = Some s /\
  _check_mode (self st) = true /\
  fst (add_object Demo.conn Demo.py_str Demo.int_of_str Demo.equal_objects 50
         "addNetworkObject" st) = Raise (ValidationError report) /\
  sent (snd (add_object Demo.conn Demo.py_str Demo.int_of_str Demo.equal_objects
               50 "addNetworkObject" st)) = [].
Proof.
  intros st s report.
  assert (Hs : lookup_spec Demo.conn "addNetworkObject" st = Some s)
    by reflexivity.
  destruct (validation_comes_first _ Demo.conn Demo.py_str Demo.int_of_str
              Demo.equal_objects 50%nat "addNetworkObject" false st s Hs)
    as (_ & _ & Hsent & _ & Hh).
  destruct Hh as (Hadd & _); [discriminate|].
  split; [exact Hs|]. split; [reflexivity|].
  rewrite Hadd. split; [reflexivity | exact Hsent].
Defined.

(** * Edit, delete and the request dispatcher *)

Lemma transmit_sent {W} (conn : Connection W) req st :
  sent (snd (transmit conn req st)) = (sent st ++ [req])%list.
Proof.
  unfold transmit. destruct (conn_send_request conn req (device st)).
  reflexivity.
Qed.

Lemma transmit_self {W} (conn : Connection W) req st :
  self (snd (transmit conn req st)) = self st.
Proof.
  unfold transmit. destruct (conn_send_request conn req (device st)).
  reflexivity.
Qed.

Lemma transmit_response {W} (conn : Connection W) req st :
  fst (transmit conn req st) = fst (conn_send_request conn req (device st)).
Proof.
  unfold transmit. destruct (conn_send_request conn req (device st)).
  reflexivity.
Qed.

Lemma is_edit_operation_put {W} (conn : Connection W) op (st : Store W) s :
  lookup_spec conn op st = Some s ->
  fst (is_edit_operation conn op st) = Ok true ->
  METHOD s = HTTPMethod.PUT.
Proof.
  intros Hs. unfold is_edit_operation.
  rewrite (bind_ok _ _ _ _ _ (get_operation_spec_run conn op st)), Hs.
  destruct (startswith op _OperationNamePrefix.EDIT); simpl; [|discriminate].
  unfold HTTPMethod.eqb. intros H. injection H as H.
  apply bool_decide_eq_true in H. exact H.
Qed.

(** C5: past validation and the gate, [edit_object] first fetches the current
    object with a GET at the operation's URL and path parameters.  A failed
    fetch raises its [FtdServerError]; an empty result raises
    [FtdConfigurationError] "Referenced object does not exist"; a result equal
    to the submitted data is returned with the GET as the only request sent;
    otherwise the write request (a PUT for an operation classified as edit) is
    sent with the data and the query parameters and its result returned. *)
Theorem edit_object_fetches_then_writes
    (W : Type) (conn : Connection W) equal_objects
    (op : string) (st : Store W) (s : OperationSpec) :
  lookup_spec conn op st = Some s ->
  expected_report conn op s (params st) = [] ->
  _check_mode (self st) = false ->
  let data := get_or_empty "data" (params st) in
  let query := get_or_empty "query_params" (params st) in
  let path := get_or_empty "path_params" (params st) in
  let fetch_req := mkRequest (URL s) HTTPMethod.GET VNone path VNone in
  let write_req := mkRequest (URL s) (METHOD s) data path query in
  let fetched := fst (transmit conn fetch_req (cache_spec conn op st)) in
  let st1 := snd (transmit conn fetch_req (cache_spec conn op st)) in
  let written := fst (transmit conn write_req st1) in
  let st2 := snd (transmit conn write_req st1) in
  sent st1 = (sent st ++ [fetch_req])%list /\
  sent st2 = (sent st ++ [fetch_req; write_req])%list /\
  (fst (is_edit_operation conn op st) = Ok true -> METHOD s = HTTPMethod.PUT) /\
  edit_object conn equal_objects op st =
  if negb (SUCCESS fetched)
  then (Raise (FtdServerError (RESPONSE fetched) (STATUS_CODE fetched)), st1)
  else if negb (truthy (RESPONSE fetched))
  then (Raise (FtdConfigurationError "Referenced object does not exist" VNone), st1)
  else if equal_objects (RESPONSE fetched) data
  then (Ok (RESPONSE fetched), st1)
  else if SUCCESS written
  then (Ok (RESPONSE written),
        if HTTPMethod.eqb (METHOD s) HTTPMethod.GET then st2 else mark_changed st2)
  else (Raise (FtdServerError (RESPONSE written) (STATUS_CODE written)), st2).
Proof.
  intros Hs Hv Hc data query path fetch_req write_req fetched st1 written st2.
  assert (E1 : sent st1 = (sent st ++ [fetch_req])%list).
  { unfold st1. rewrite transmit_sent, cache_spec_sent. reflexivity. }
  split; [exact E1|]. split.
  { unfold st2. rewrite transmit_sent, E1, <- app_assoc. reflexivity. }
  split; [apply is_edit_operation_put; exact Hs|].
  rewrite (edit_object_run conn equal_objects op st s Hs Hv Hc).
  fold data query path fetch_req. unfold fetched, st1 in *.
  destruct (transmit conn fetch_req (cache_spec conn op st)) as [r t1]. simpl.
  destruct (SUCCESS r); [|reflexivity]. simpl.
  destruct (truthy (RESPONSE r)); [|reflexivity]. simpl.
  destruct (equal_objects (RESPONSE r) data); [reflexivity|].
  rewrite _send_request_run. fold write_req. unfold written, st2. simpl.
  destruct (transmit conn write_req t1) as [r2 t2]. reflexivity.
Qed.

Lemma edit_object_fetches_then_writes_witness :
  let st := Demo.store false [Demo.network 1 "x" "10.0.0.0/8"]
              [("data", Demo.network 1 "x" "10.0.0.0/8");
               ("path_params", VDict [("objId", VInt 1)])] in
  let s := mkSpec HTTPMethod.PUT Demo.NETWORK "NetworkObject" in
  lookup_spec Demo.conn "editNetworkObject" st = Some s /\
  expected_report Demo.conn "editNetworkObject" s (params st) = [] /\
  _check_mode (self st) = false /\
  edit_object Demo.conn Demo.equal_objects "editNetworkObject" st
  = (Ok (Demo.network 1 "x" "10.0.0.0/8"),
     snd (transmit Demo.conn
            (mkRequest Demo.NETWORK HTTPMethod.GET VNone
                       (VDict [("objId", VInt 1)]) VNone)
            (cache_spec Demo.conn "editNetworkObject" st))).
Proof.
  intros st s.
  assert (Hs : lookup_spec Demo.conn "editNetworkObject" st = Some s)
    by reflexivity.
  assert (Hv : expected_report Demo.conn "editNetworkObject" s (params st) = [])
    by reflexivity.
  assert (Hc : _check_mode (self st) = false) by reflexivity.
  destruct (edit_object_fetches_then_writes _ Demo.conn Demo.equal_objects
              "editNetworkObject" st s Hs Hv Hc) as (_ & _ & _ & H).
  split; [exact Hs|]. split; [exact Hv|]. split; [exact Hc|].
  rewrite H. reflexivity.
Defined.

(** C6: past validation and the gate, [delete_object] sends the delete
    request; on success it returns the result; a failure of status 422 whose
    text contains the invalid-UUID message is swallowed and the mapping
    [{'status': 'Referenced object does not exist'}] is returned; any other
    failure is raised as the [FtdServerError] it is. *)
Theorem delete_object_tolerates_absent_object
    (W : Type) (conn : Connection W) py_str
    (op : string) (st : Store W) (s : OperationSpec) :
  lookup_spec conn op st = Some s ->
  expected_report conn op s (params st) = [] ->
  _check_mode (self st) = false ->
  let path := get_or_empty "path_params" (params st) in
  let req := mkRequest (URL s) (METHOD s) VNone path VNone in
  let response := fst (transmit conn req (cache_spec conn op st)) in
  let st' := snd (transmit conn req (cache_spec conn op st)) in
  let code := STATUS_CODE response in
  let text := py_str (RESPONSE response) in
  delete_object conn py_str op st =
  if SUCCESS response
  then (Ok (RESPONSE response),
        if HTTPMethod.eqb (METHOD s) HTTPMethod.GET then st' else mark_changed st')
  else if (code =? 422) && contains "Validation failed due to an invalid UUID" text
  then (Ok (VDict [("status", VStr "Referenced object does not exist")]), st')
  else (Raise (FtdServerError (RESPONSE response) code), st').
Proof.
  intros Hs Hv Hc path req response st' code text.
  rewrite (delete_object_run conn py_str op st s Hs Hv Hc).
  fold path req. unfold response, st', code, text in *.
  destruct (transmit conn req (cache_spec conn op st)) as [r t]. reflexivity.
Qed.

Lemma delete_object_tolerates_absent_object_witness :
  let st := Demo.store false [Demo.network 1 "x" "10.0.0.0/8"]
              [("path_params", VDict [("objId", VInt 7)])] in
  let s := mkSpec HTTPMethod.DELETE Demo.NETWORK "NetworkObject" in
  lookup_spec Demo.conn "deleteNetworkObject" st = Some s /\
  expected_report Demo.conn "deleteNetworkObject" s (params st) = [] /\
  _check_mode (self st) = false /\
  fst (delete_object Demo.conn Demo.py_str "deleteNetworkObject" st)
  = Ok (VDict [("status", VStr "Referenced object does not exist")]).
Proof.
  intros st s.
  assert (Hs : lookup_spec Demo.conn "deleteNetworkObject" st = Some s)
    by reflexivity.
  assert (Hv : expected_report Demo.conn "deleteNetworkObject" s (params st) = [])
    by reflexivity.
  assert (Hc : _check_mode (self st) = false) by reflexivity.
  pose proof (delete_object_tolerates_absent_object _ Demo.conn Demo.py_str
                "deleteNetworkObject" st s Hs Hv Hc) as H.
  split; [exact Hs|]. split; [exact Hv|]. split; [exact Hc|].
  rewrite H. reflexivity.
Defined.

(** C10: past validation and the gate, the one request [delete_object] sends
    carries the URL, the method and the path parameters of the call and
    [None] for both the body and the query parameters, whatever [data] and
    [query_params] the caller supplied; the general request, the create
    request of [add_object] and the write request of [edit_object] carry the
    caller's data and query parameters. *)
Theorem delete_object_drops_data_and_query
    (W : Type) (conn : Connection W) py_str int_of_str equal_objects
    (fuel : nat) (op : string) (st : Store W) (s : OperationSpec) :
  lookup_spec conn op st = Some s ->
  expected_report conn op s (params st) = [] ->
  _check_mode (self st) = false ->
  let data := get_or_empty "data" (params st) in
  let query := get_or_empty "query_params" (params st) in
  let path := get_or_empty "path_params" (params st) in
  let bare := mkRequest (URL s) (METHOD s) VNone path VNone in
  let full := mkRequest (URL s) (METHOD s) data path query in
  let fetch_req := mkRequest (URL s) HTTPMethod.GET VNone path VNone in
  sent (snd (delete_object conn py_str op st)) = (sent st ++ [bare])%list /\
  sent (snd (send_general_request conn op st)) = (sent st ++ [full])%list /\
  (exists rest,
     sent (snd (add_object conn py_str int_of_str equal_objects fuel op st))
     = (sent st ++ full :: rest)%list) /\
  (sent (snd (edit_object conn equal_objects op st))
   = (sent st ++ [fetch_req])%list \/
   sent (snd (edit_object conn equal_objects op st))
   = (sent st ++ [fetch_req; full])%list).
Proof.
  intros Hs Hv Hc data query path bare full fetch_req.
  split; [|split; [|split]].
  - rewrite (delete_object_run conn py_str op st s Hs Hv Hc). fold path bare.
    pose proof (transmit_sent conn bare (cache_spec conn op st)) as E.
    rewrite cache_spec_sent in E.
    destruct (transmit conn bare (cache_spec conn op st)) as [r t].
    simpl in E.
    destruct (SUCCESS r); simpl.
    + destruct (HTTPMethod.eqb (METHOD s) HTTPMethod.GET); exact E.
    + destruct (is_invalid_uuid_error py_str (RESPONSE r) (STATUS_CODE r));
        exact E.
  - rewrite (send_general_request_run conn op st s Hs Hv Hc).
    rewrite _send_request_run. fold data query path full.
    pose proof (transmit_sent conn full (cache_spec conn op st)) as E.
    rewrite cache_spec_sent in E.
    destruct (transmit conn full (cache_spec conn op st)) as [r t].
    simpl in E.
    destruct (SUCCESS r); simpl; [|exact E].
    destruct (HTTPMethod.eqb (METHOD s) HTTPMethod.GET); exact E.
  - rewrite (add_object_run conn py_str int_of_str equal_objects op st s
               Hs Hv Hc fuel).
    fold data query path full.
    pose proof (transmit_sent conn full (cache_spec conn op st)) as E.
    rewrite cache_spec_sent in E.
    destruct (transmit conn full (cache_spec conn op st)) as [r t].
    simpl in E.
    destruct (SUCCESS r); simpl.
    + exists []. destruct (HTTPMethod.eqb (METHOD s) HTTPMethod.GET); exact E.
    + destruct (is_duplicate_name_error py_str (RESPONSE r) (STATUS_CODE r)).
      * destruct (evolves__check_if_the_same_object conn py_str int_of_str
                    equal_objects fuel (Some s)
                    (FtdServerError (RESPONSE r) (STATUS_CODE r)) t)
          as (_ & _ & l & El).
        exists l. rewrite El, E, <- app_assoc. reflexivity.
      * exists []. exact E.
  - rewrite (edit_object_run conn equal_objects op st s Hs Hv Hc).
    fold data query path fetch_req.
    pose proof (transmit_sent conn fetch_req (cache_spec conn op st)) as E1.
    rewrite cache_spec_sent in E1.
    destruct (transmit conn fetch_req (cache_spec conn op st)) as [r t].
    simpl in E1.
    destruct (negb (SUCCESS r)); [left; exact E1|].
    destruct (negb (truthy (RESPONSE r))); [left; exact E1|].
    destruct (equal_objects (RESPONSE r) data); [left; exact E1|].
    right. rewrite _send_request_run. fold full.
    pose proof (transmit_sent conn full t) as E2.
    rewrite E1, <- app_assoc in E2.
    destruct (transmit conn full t) as [r2 t2]. simpl in E2.
    destruct (SUCCESS r2); simpl; [|exact E2].
    destruct (HTTPMethod.eqb (METHOD s) HTTPMethod.GET); exact E2.
Qed.

Lemma delete_object_drops_data_and_query_witness :
  let st := Demo.store false [Demo.network 1 "x" "10.0.0.0/8"]
              [("data", VDict [("name", VStr "x")]);
               ("query_params", VDict [("force", VBool true)]);
               ("path_params", VDict [("objId", VInt 1)])] in
  let s := mkSpec HTTPMethod.DELETE Demo.NETWORK "NetworkObject" in
  lookup_spec Demo.conn "deleteNetworkObject" st = Some s /\
  expected_report Demo.conn "deleteNetworkObject" s (params st) = [] /\
  _check_mode (self st) = false /\
  sent (snd (delete_object Demo.conn Demo.py_str "deleteNetworkObject" st))
  = [mkRequest Demo.NETWORK HTTPMethod.DELETE VNone
               (VDict [("objId", VInt 1)]) VNone].
Proof.
  intros st s.
  assert (Hs : lookup_spec Demo.conn "deleteNetworkObject" st = Some s)
    by reflexivity.
  assert (Hv : expected_report Demo.conn "deleteNetworkObject" s (params st) = [])
    by reflexivity.
  assert (Hc : _check_mode (self st) = false) by reflexivity.
  destruct (delete_object_drops_data_and_query _ Demo.conn Demo.py_str
              Demo.int_of_str Demo.equal_objects 50%nat "deleteNetworkObject"
              st s Hs Hv Hc) as (H & _).
  split; [exact Hs|]. split; [exact Hv|]. split; [exact Hc|].
  rewrite H. reflexivity.
Defined.

(** C8: [config_changed] is false in a new resource.  [_send_request] hands
    exactly one request to the connection; on a non-success envelope it
    raises [FtdServerError] with the response body and the status code and
    leaves the flag as it was; on success it returns the response body, and
    the flag is true afterwards for a method other than GET and unchanged for
    a GET.  No method of the resource takes the flag from true to false. *)
Theorem config_changed_only_rises
    (W : Type) (conn : Connection W) py_str int_of_str equal_objects
    (check_mode : bool) (fuel : nat) (op model : string) (one : bool)
    (url : string) (method : HTTPMethod.t) (body path query : value)
    (e : exn) (st : Store W) :
  let req := mkRequest url method body path query in
  let response := fst (conn_send_request conn req (device st)) in
  let after (h : @M W value) := config_changed (self (snd (h st))) in
  let before := config_changed (self st) in
  config_changed (__init__ check_mode) = false /\
  fst (_send_request conn url method body path query st)
  = (if SUCCESS response then Ok (RESPONSE response)
     else Raise (FtdServerError (RESPONSE response) (STATUS_CODE response))) /\
  sent (snd (_send_request conn url method body path query st))
  = (sent st ++ [req])%list /\
  after (_send_request conn url method body path query)
  = (if SUCCESS response
     then (if HTTPMethod.eqb method HTTPMethod.GET then before else true)
     else before) /\
  implb before (after (crud_operation conn py_str int_of_str equal_objects fuel op))
  = true /\
  implb before (after (add_object conn py_str int_of_str equal_objects fuel op))
  = true /\
  implb before (after (edit_object conn equal_objects op)) = true /\
  implb before (after (delete_object conn py_str op)) = true /\
  implb before (after (get_objects_by_filter conn py_str int_of_str fuel op one))
  = true /\
  implb before (after (send_general_request conn op)) = true /\
  implb before
    (after (_check_if_the_same_object conn py_str int_of_str equal_objects fuel
              (lookup_spec conn op st) e)) = true /\
  config_changed (self (snd (get_operation_spec conn op st))) = before /\
  config_changed (self (snd (get_operation_specs_by_model_name conn model st)))
  = before /\
  config_changed (self (snd (validate_params conn op st))) = before.
Proof.
  intros req response after before.
  split; [reflexivity|].
  pose proof (_send_request_run conn url method body path query st) as E.
  fold req in E.
  pose proof (transmit_sent conn req st) as Es.
  pose proof (transmit_self conn req st) as Ef.
  pose proof (transmit_response conn req st) as Er.
  fold response in Er.
  destruct (transmit conn req st) as [r t]. simpl in Es, Ef, Er. subst r.
  unfold after. rewrite E. clear E.
  split; [destruct (SUCCESS response); reflexivity|].
  split.
  { destruct (SUCCESS response); [|exact Es].
    destruct (HTTPMethod.eqb method HTTPMethod.GET); exact Es. }
  split.
  { unfold before. rewrite <- Ef.
    destruct (SUCCESS response); [|reflexivity].
    destruct (HTTPMethod.eqb method HTTPMethod.GET); reflexivity. }
  repeat split.
  - apply (evolves_crud_operation conn py_str int_of_str equal_objects fuel op st).
  - apply (evolves_add_object conn py_str int_of_str equal_objects fuel op st).
  - apply (evolves_edit_object conn equal_objects op st).
  - apply (evolves_delete_object conn py_str op st).
  - apply (evolves_get_objects_by_filter conn py_str int_of_str fuel op one st).
  - apply (evolves_send_general_request conn op st).
  - apply (evolves__check_if_the_same_object conn py_str int_of_str
             equal_objects fuel _ e st).
  - apply (quiet_get_operation_spec conn op st).
  - apply (quiet_get_operation_specs_by_model_name conn model st).
  - apply (quiet_validate_params conn op st).
Qed.

(** * The two caches *)

Lemma eqb_string_eq (a b : string) : String.eqb a b = true <-> a = b.
Proof. apply String.eqb_eq. Qed.

Lemma Dict_get_In {A} (k : string) (d : list (string * A)) v :
  Dict.get k d = Some v -> In (k, v) d.
Proof.
  induction d as [|[k' v'] d IH]; simpl; [discriminate|].
  destruct (String.eqb k k') eqn:E.
  - apply eqb_string_eq in E. intros [= ->]. subst. left. reflexivity.
  - intros H. right. apply IH, H.
Qed.

Lemma In_Dict_get {A} (k : string) (d : list (string * A)) v :
  In (k, v) d -> is_Some (Dict.get k d).
Proof.
  induction d as [|[k' v'] d IH]; simpl; [intros []|].
  destruct (String.eqb k k') eqn:E; [eauto|].
  intros [H|H]; [|apply IH, H].
  injection H as -> ->. rewrite String.eqb_refl in E. discriminate.
Qed.

Lemma cache_setdefault_lookup {A} (k : string) (v : A) (c : gmap string A) n :
  cache_setdefault k v c !! n
  = match c !! n with
    | Some x => Some x
    | None => if String.eqb n k then Some v else None
    end.
Proof.
  unfold cache_setdefault.
  destruct (String.eqb n k) eqn:E.
  - apply eqb_string_eq in E. subst n.
    destruct (c !! k) eqn:Ek; [rewrite Ek; reflexivity|].
    rewrite lookup_insert_eq. reflexivity.
  - assert (k <> n).
    { intros ->. rewrite String.eqb_refl in E. discriminate. }
    destruct (c !! k) eqn:Ek.
    + destruct (c !! n); reflexivity.
    + rewrite lookup_insert_ne by assumption. destruct (c !! n); reflexivity.
Qed.

Lemma backfill_lookup (specs : list (string * OperationSpec)) :
  forall (c : gmap string (option OperationSpec)) n,
    backfill specs c !! n
    = match c !! n with
      | Some x => Some x
      | None => option_map Some (Dict.get n specs)
      end.
Proof.
  induction specs as [|[k v] specs IH]; intros c n; simpl.
  - destruct (c !! n); reflexivity.
  - unfold backfill in *. simpl. rewrite IH, cache_setdefault_lookup.
    destruct (c !! n); [reflexivity|].
    destruct (String.eqb n k); reflexivity.
Qed.

Lemma backfill_keeps specs (c : gmap string (option OperationSpec)) :
  c ⊆ backfill specs c.
Proof.
  apply map_subseteq_spec. intros n x H. rewrite backfill_lookup, H.
  reflexivity.
Qed.

Lemma run_call_keeps {W} (conn : Connection W) c (st : Store W) :
  _operation_spec_cache (self st)
  ⊆ _operation_spec_cache (self (run_call conn c st)).
Proof.
  destruct c as [n|m]; simpl.
  - rewrite get_operation_spec_run. unfold cache_spec. simpl.
    destruct (_operation_spec_cache (self st) !! n) eqn:E; [reflexivity|].
    simpl. apply insert_subseteq, E.
  - unfold get_operation_specs_by_model_name, bind, get_self. simpl.
    destruct (_models_operations_specs_cache (self st) !! m); simpl;
      [reflexivity|apply backfill_keeps].
Qed.

Lemma run_calls_keeps {W} (conn : Connection W) cs : forall (st : Store W),
  _operation_spec_cache (self st)
  ⊆ _operation_spec_cache (self (run_calls conn cs st)).
Proof.
  induction cs as [|c cs IH]; intros st; simpl; [reflexivity|].
  etransitivity; [apply (run_call_keeps conn c st)|apply IH].
Qed.

Lemma run_call_backfilled {W} (conn : Connection W) c (st : Store W) :
  backfilled (self st) -> backfilled (self (run_call conn c st)).
Proof.
  intros Hb model specs name spec Hm Hin.
  pose proof (run_call_keeps conn c st) as Hk.
  destruct c as [n|m]; simpl in *.
  - assert (Hm' : _models_operations_specs_cache (self st) !! model = Some specs).
    { revert Hm. rewrite get_operation_spec_run. unfold cache_spec.
      destruct (_operation_spec_cache (self st) !! n); exact id. }
    destruct (Hb _ _ _ _ Hm' Hin) as [x Hx]. exists x.
    eapply lookup_weaken; eauto.
  - revert Hm Hk.
    unfold get_operation_specs_by_model_name, bind, get_self. simpl.
    destruct (_models_operations_specs_cache (self st) !! m) eqn:E; simpl.
    + intros Hm _. eapply Hb; eauto.
    + intros Hm Hk. destruct (decide (m = model)) as [->|Hne].
      * rewrite lookup_insert_eq in Hm. injection Hm as <-.
        rewrite backfill_lookup.
        destruct (_operation_spec_cache (self st) !! name); [eauto|].
        destruct (In_Dict_get _ _ _ Hin) as [x ->]. simpl. eauto.
      * rewrite lookup_insert_ne in Hm by assumption.
        destruct (Hb _ _ _ _ Hm Hin) as [x Hx]. exists x.
        eapply lookup_weaken; eauto.
Qed.

Lemma run_call_faithful {W} (conn : Connection W) c (st : Store W) :
  consistent conn ->
  faithful conn (self st) -> faithful conn (self (run_call conn c st)).
Proof.
  intros Hcons [Hn Hm]. destruct c as [n|m]; simpl.
  - rewrite get_operation_spec_run. unfold cache_spec.
    destruct (_operation_spec_cache (self st) !! n) eqn:E; [split; assumption|].
    simpl. split; [|exact Hm].
    intros name v. destruct (decide (n = name)) as [->|Hne].
    + simpl. rewrite lookup_insert_eq. intros [= <-]. reflexivity.
    + simpl. rewrite lookup_insert_ne by assumption. apply Hn.
  - unfold get_operation_specs_by_model_name, bind, get_self. simpl.
    destruct (_models_operations_specs_cache (self st) !! m) eqn:E; simpl;
      [split; assumption|].
    split.
    + intros name v. simpl. rewrite backfill_lookup.
      destruct (_operation_spec_cache (self st) !! name) eqn:En.
      * intros [= <-]. apply Hn, En.
      * destruct (Dict.get name _) eqn:Eg; simpl; [|discriminate].
        intros [= <-]. symmetry. eapply Hcons, Dict_get_In, Eg.
    + intros model specs. destruct (decide (m = model)) as [->|Hne].
      * simpl. rewrite lookup_insert_eq. intros [= <-]. reflexivity.
      * simpl. rewrite lookup_insert_ne by assumption. apply Hm.
Qed.

Lemma run_calls_invariant {W} (conn : Connection W) (P : Resource -> Prop) :
  (forall c (st : Store W), P (self st) -> P (self (run_call conn c st))) ->
  forall cs (st : Store W), P (self st) -> P (self (run_calls conn cs st)).
Proof.
  intros Hstep cs. induction cs as [|c cs IH]; intros st H; simpl; [exact H|].
  apply IH, Hstep, H.
Qed.

Lemma backfilled_faithful {W} (conn : Connection W) r :
  consistent conn -> backfilled r -> faithful conn r -> backfilled_exactly r.
Proof.
  intros Hcons Hb [Hn Hm] model specs name spec Hmodel Hin.
  destruct (Hb _ _ _ _ Hmodel Hin) as [v Hv]. rewrite Hv. f_equal.
  rewrite (Hn _ _ Hv). apply (Hcons model).
  rewrite <- (Hm _ _ Hmodel). exact Hin.
Qed.

Lemma Demo_consistent : consistent Demo.conn.
Proof.
  intros model name spec Hin. simpl in *.
  unfold Demo.get_operation_specs_by_model_name in Hin.
  apply filter_In in Hin as [Hin _].
  simpl in Hin.
  repeat (destruct Hin as [[= <- <-]|Hin]; [reflexivity|]).
  destruct Hin.
Qed.

(** C7, as stated, fails: the backfill does not overwrite, so an answer
    cached earlier under the operation name stays.  Against a connection that
    lists the operations of a model but knows none of them by name, a lookup
    of "getNetworkObjectList" by name followed by a fetch of its model leaves
    the specification in the model-level cache and the cached absence under
    the name. *)
Lemma name_cache_keeps_earlier_answer : ~ model_specs_always_cached_by_name.
Proof.
  intros H.
  specialize (H _ Demo.conn_by_model_only false [] []
                [GetOperationSpec "getNetworkObjectList";
                 GetOperationSpecsByModelName "NetworkObject"]
                "NetworkObject" Demo.operations "getNetworkObjectList"
                (mkSpec HTTPMethod.GET Demo.NETWORKS "NetworkObject")
                eq_refl).
  assert (Hin : In ("getNetworkObjectList",
                    mkSpec HTTPMethod.GET Demo.NETWORKS "NetworkObject")
                   Demo.operations) by in_list.
  specialize (H Hin). vm_compute in H. discriminate H.
Qed.

(** C7, amended: after any sequence of [get_operation_spec] and
    [get_operation_specs_by_model_name] calls on a new resource, every
    operation of a model held in the model-level cache has an entry under its
    name in the name-level cache, because the fetch of a model backfills each
    returned specification under its name without overwriting an entry
    already there: after the fetch a name holds what it held before, and
    otherwise the specification returned for it.  No call overwrites or
    removes an entry of the name-level cache.  The entry is the very
    specification held in the model-level cache when the connection describes
    an operation in the same way by name and by model. *)
Theorem model_cache_is_backfilled
    (W : Type) (conn : Connection W) (check_mode : bool) (d : W) (p : dict)
    (calls : list cache_call) (before : Store W) :
  let st := run_calls conn calls (mkStore (__init__ check_mode) d [] p) in
  backfilled (self st) /\
  _operation_spec_cache (self before)
  ⊆ _operation_spec_cache (self (run_calls conn calls before)) /\
  (forall model name,
     _models_operations_specs_cache (self before) !! model = None ->
     _operation_spec_cache
       (self (snd (get_operation_specs_by_model_name conn model before)))
     !! name
     = match _operation_spec_cache (self before) !! name with
       | Some v => Some v
       | None =>
           option_map Some
             (Dict.get name
                (conn_get_operation_specs_by_model_name conn model))
       end) /\
  (consistent conn -> backfilled_exactly (self st)).
Proof.
  intros st.
  assert (Hb : backfilled (self st)).
  { apply (run_calls_invariant conn backfilled).
    - intros c st0. apply run_call_backfilled.
    - intros model specs name spec H. simpl in H.
      rewrite lookup_empty in H. discriminate. }
  split; [exact Hb|]. split; [apply run_calls_keeps|].
  split.
  { intros model name Hm.
    unfold get_operation_specs_by_model_name, bind, get_self. simpl.
    rewrite Hm. simpl. apply backfill_lookup. }
  intros Hcons. apply (backfilled_faithful conn); [assumption..|].
  apply (run_calls_invariant conn (faithful conn)).
  - intros c st0. apply run_call_faithful, Hcons.
  - split; simpl; intros ? ? H; rewrite lookup_empty in H; discriminate.
Qed.

Lemma model_cache_is_backfilled_witness :
  let st := run_calls Demo.conn
              [GetOperationSpec "getNetworkObjectList";
               GetOperationSpecsByModelName "NetworkObject"]
              (Demo.store false [] []) in
  consistent Demo.conn /\
  _operation_spec_cache (self st) !! "addNetworkObject"
  = Some (Some (mkSpec HTTPMethod.POST Demo.NETWORKS "NetworkObject")).
Proof.
  intros st. split; [exact Demo_consistent|].
  destruct (model_cache_is_backfilled _ Demo.conn false [] []
              [GetOperationSpec "getNetworkObjectList";
               GetOperationSpecsByModelName "NetworkObject"]
              (Demo.store false [] [])) as (_ & _ & _ & H).
  apply (H Demo_consistent "NetworkObject" Demo.operations).
  - reflexivity.
  - simpl. auto.
Defined.

(** * The pagination iterator *)

Lemma Dict_get_set {A} (k k' : string) (v : A) (d : list (string * A)) :
  Dict.get k (Dict.set k' v d)
  = if String.eqb k k' then Some v else Dict.get k d.
Proof.
  induction d as [|[k0 v0] d IH]; simpl.
  - destruct (String.eqb k k'); reflexivity.
  - destruct (String.eqb k' k0) eqn:E0; simpl.
    + apply eqb_string_eq in E0. subst k0.
      destruct (String.eqb k k'); reflexivity.
    + destruct (String.eqb k k0) eqn:E1; [|exact IH].
      apply eqb_string_eq in E1. subst k0.
      rewrite String.eqb_sym, E0. reflexivity.
Qed.

Lemma Dict_get_setdefault {A} (k k' : string) (v : A) (d : list (string * A)) :
  Dict.get k (Dict.setdefault k' v d)
  = match Dict.get k d with
    | Some x => Some x
    | None => if String.eqb k k' then Some v else None
    end.
Proof.
  unfold Dict.setdefault, Dict.mem.
  destruct (Dict.get k' d) eqn:E'.
  - destruct (Dict.get k d) eqn:E; [reflexivity|].
    destruct (String.eqb k k') eqn:Ek; [|reflexivity].
    apply eqb_string_eq in Ek. congruence.
  - rewrite Dict_get_set.
    destruct (String.eqb k k') eqn:Ek.
    + apply eqb_string_eq in Ek. subst k'. rewrite E'. reflexivity.
    + destruct (Dict.get k d); reflexivity.
Qed.

Section Pagination.
Context {W : Type}.
Variable int_of_str : string -> option Z.
Variable resource_func : dict -> @M W value.

Lemma collect_after_ext m1 m2 fuel st :
  m1 st = m2 st ->
  collect_after int_of_str resource_func m1 fuel st
  = collect_after int_of_str resource_func m2 fuel st.
Proof. intros H. unfold collect_after, bind. rewrite H. reflexivity. Qed.

Lemma collect_cons i rest q fuel st :
  collect int_of_str resource_func (S fuel) keep_all (Suspended (i :: rest) q) st
  = match collect int_of_str resource_func fuel keep_all (Suspended rest q) st with
    | (Ok l, st') => (Ok (i :: l), st')
    | (Raise e, st') => (Raise e, st')
    | (OutOfFuel, st') => (OutOfFuel, st')
    end.
Proof. reflexivity. Qed.

Lemma collect_suspended rest : forall fuel q st l st',
  collect int_of_str resource_func (S fuel) keep_all (Suspended [] q) st
  = (Ok l, st') ->
  collect int_of_str resource_func (length rest + S fuel) keep_all
          (Suspended rest q) st
  = (Ok (rest ++ l)%list, st').
Proof.
  induction rest as [|i rest IH]; intros fuel q st l st' H; [exact H|].
  change (length (i :: rest) + S fuel)%nat with (S (length rest + S fuel)).
  rewrite collect_cons, (IH fuel q st l st' H). reflexivity.
Qed.

Lemma pages_collect n : forall q st l st',
  pages int_of_str resource_func n q st = (Ok l, st') ->
  collect_after int_of_str resource_func (fetch resource_func q) (length l) st
  = (Ok l, st').
Proof.
  induction n as [|n IH]; intros q st l st' H; [discriminate|].
  cbn [pages] in H.
  bind_inv H Er res st1. bind_inv H Eg its st2.
  destruct its as [| | | |page|]; try discriminate.
  destruct page as [|i rest].
  - injection H as <- <-.
    assert (F : fetch resource_func q st = (Ok (None, Finished), st2)).
    { unfold fetch. rewrite (bind_ok _ _ _ _ _ Er), (bind_ok _ _ _ _ _ Eg).
      reflexivity. }
    unfold collect_after. rewrite (bind_ok _ _ _ _ _ F). reflexivity.
  - bind_inv H E1 off st3. bind_inv H E2 o st4.
    bind_inv H E3 lim st5. bind_inv H E4 li st6.
    bind_inv H E5 l2 st7. injection H as <- <-.
    pose proof (getitem_state (VDict q) "offset" st2) as S1.
    pose proof (py_int_state int_of_str off st3) as S2.
    pose proof (getitem_state (VDict q) "limit" st4) as S3.
    pose proof (py_int_state int_of_str lim st5) as S4.
    rewrite E1 in S1. rewrite E2 in S2. rewrite E3 in S3. rewrite E4 in S4.
    simpl in S1, S2, S3, S4. subst st3 st4 st5 st6.
    apply IH in E5.
    assert (F : fetch resource_func q st
                = (Ok (Some i, Suspended rest q), st2)).
    { unfold fetch. rewrite (bind_ok _ _ _ _ _ Er), (bind_ok _ _ _ _ _ Eg).
      reflexivity. }
    assert (E : collect int_of_str resource_func (S (length l2)) keep_all
                  (Suspended [] q) st2 = (Ok l2, st7)).
    { rewrite <- E5.
      change (collect int_of_str resource_func (S (length l2)) keep_all
                (Suspended [] q))
        with (collect_after int_of_str resource_func
                (next int_of_str resource_func (Suspended [] q))
                (length l2)).
      apply collect_after_ext. cbn [next].
      rewrite (bind_ok _ _ _ _ _ E1), (bind_ok _ _ _ _ _ E2),
        (bind_ok _ _ _ _ _ E3), (bind_ok _ _ _ _ _ E4).
      reflexivity. }
    unfold collect_after. rewrite (bind_ok _ _ _ _ _ F).
    rewrite (bind_ok _ _ _ true st2 eq_refl).
    replace (length (i :: rest ++ l2)) with (length rest + S (length l2))%nat
      by (simpl; rewrite length_app; lia).
    pose proof (collect_suspended rest (length l2) q st2 l2 st7 E) as C.
    rewrite (bind_ok _ _ _ _ _ C). reflexivity.
Qed.
Lemma collect_more_fuel keep fuel : forall g st l st' fuel',
  collect int_of_str resource_func fuel keep g st = (Ok l, st') ->
  (fuel <= fuel')%nat ->
  collect int_of_str resource_func fuel' keep g st = (Ok l, st').
Proof.
  induction fuel as [|fuel IH]; intros g st l st' fuel' H Hle; [discriminate|].
  destruct fuel' as [|fuel']; [lia|].
  cbn [collect] in *.
  bind_inv H En r st1. rewrite (bind_ok _ _ _ _ _ En).
  destruct r as [[i|] g']; [|exact H].
  bind_inv H Ek b st2. bind_inv H Ec l0 st3.
  rewrite (bind_ok _ _ _ _ _ Ek).
  rewrite (bind_ok _ _ _ _ _ (IH _ _ _ _ fuel' Ec ltac:(lia))).
  exact H.
Qed.

Lemma first_more_fuel keep fuel : forall g st x st' fuel',
  first int_of_str resource_func fuel keep g st = (Ok x, st') ->
  (fuel <= fuel')%nat ->
  first int_of_str resource_func fuel' keep g st = (Ok x, st').
Proof.
  induction fuel as [|fuel IH]; intros g st x st' fuel' H Hle; [discriminate|].
  destruct fuel' as [|fuel']; [lia|].
  cbn [first] in *.
  bind_inv H En r st1. rewrite (bind_ok _ _ _ _ _ En).
  destruct r as [[i|] g']; [|exact H].
  bind_inv H Ek b st2. rewrite (bind_ok _ _ _ _ _ Ek).
  destruct b; [exact H|].
  apply (IH _ _ _ _ fuel' H). lia.
Qed.

Lemma has_paging_with_defaults supplied :
  has_paging (with_defaults supplied) = true.
Proof.
  unfold has_paging, with_defaults, Dict.mem.
  rewrite !Dict_get_setdefault.
  destruct (Dict.get "limit" supplied), (Dict.get "offset" supplied);
    reflexivity.
Qed.

Lemma has_paging_set_offset q v :
  has_paging q = true -> has_paging (Dict.set "offset" v q) = true.
Proof.
  unfold has_paging, Dict.mem. rewrite !Dict_get_set. simpl.
  destruct (Dict.get "limit" q); [reflexivity|discriminate].
Qed.

Lemma fetch_guarded q st :
  has_paging q = true ->
  fetch (guarded resource_func) q st = fetch resource_func q st.
Proof. intros H. unfold fetch, guarded, bind. rewrite H. reflexivity. Qed.

Lemma fetch_paged q st o g' st' :
  has_paging q = true ->
  fetch resource_func q st = (Ok (o, g'), st') -> paged g'.
Proof.
  intros Hq H. unfold fetch in H.
  bind_inv H Er res st1. bind_inv H Eg its st2.
  destruct its as [| b | z | [|c t] | [|i rest] | [|[k v] rest]];
    simpl in H; try discriminate;
    try (injection H as <- <- <-; simpl; auto).
  - destruct b; [discriminate|]. injection H as <- <- <-. exact I.
  - destruct (negb (z =? 0)); [discriminate|]. injection H as <- <- <-.
    exact I.
Qed.

Lemma next_guarded g st :
  paged g ->
  next int_of_str (guarded resource_func) g st = next int_of_str resource_func g st.
Proof.
  destruct g as [v|[|i rest] q|]; intros Hq; cbn [next]; try reflexivity.
  - destruct v; try reflexivity.
    apply (fetch_guarded (with_defaults d)), has_paging_with_defaults.
  - unfold bind.
    destruct (getitem (VDict q) "offset" st) as [[off| |] st1]; try reflexivity.
    destruct (py_int int_of_str off st1) as [[o| |] st2]; try reflexivity.
    destruct (getitem (VDict q) "limit" st2) as [[lim| |] st3]; try reflexivity.
    destruct (py_int int_of_str lim st3) as [[li| |] st4]; try reflexivity.
    apply fetch_guarded, has_paging_set_offset, Hq.
Qed.

Lemma next_paged g st o g' st' :
  paged g ->
  next int_of_str resource_func g st = (Ok (o, g'), st') -> paged g'.
Proof.
  destruct g as [v|[|i rest] q|]; intros Hq H; cbn [next] in H.
  - destruct v; try discriminate.
    + apply (fetch_paged (with_defaults []) _ _ _ _
               (has_paging_with_defaults []) H).
    + apply (fetch_paged (with_defaults d) _ _ _ _
               (has_paging_with_defaults d) H).
  - bind_inv H E1 off st1. bind_inv H E2 o1 st2.
    bind_inv H E3 lim st3. bind_inv H E4 li st4.
    eapply fetch_paged; [|exact H]. apply has_paging_set_offset, Hq.
  - injection H as <- <- <-. exact Hq.
  - injection H as <- <- <-. exact I.
Qed.

Lemma collect_guarded keep fuel : forall g st,
  paged g ->
  collect int_of_str (guarded resource_func) fuel keep g st
  = collect int_of_str resource_func fuel keep g st.
Proof.
  induction fuel as [|fuel IH]; intros g st Hg; [reflexivity|].
  cbn [collect]. unfold bind at 1 4. rewrite (next_guarded g st Hg).
  destruct (next int_of_str resource_func g st) as [[[[i|] g']| |] st1] eqn:En;
    try reflexivity.
  unfold bind.
  destruct (keep i st1) as [[b| |] st2]; try reflexivity.
  rewrite IH; [reflexivity|]. eapply next_paged; eauto.
Qed.
End Pagination.

(** C3: the first request carries [limit] and [offset], the supplied ones or
    else 10 and 0, and so does every later request (the iterator behaves the
    same against a resource function that refuses a query without them).
    Whenever fetching page after page, each at the offset of the one before
    plus the limit, reaches an empty item list, the iterator yields exactly
    the items of the pages before it, in order, and ends there.  Against a
    device holding 25 objects it yields the 25 objects with four requests, at
    offsets 0, 10, 20 and 30. *)
Theorem pagination_iterator
    (W : Type) (int_of_str : string -> option Z)
    (resource_func : dict -> @M W value) (supplied : dict) (n : nat)
    (st : Store W) (l : list value) (st' : Store W) :
  pages int_of_str resource_func n (with_defaults supplied) st = (Ok l, st') ->
  let it := iterate_over_pageable_resource (VDict supplied) in
  Dict.get "limit" (with_defaults supplied)
  = Some (match Dict.get "limit" supplied with
          | Some v => v
          | None => VInt 10
          end) /\
  Dict.get "offset" (with_defaults supplied)
  = Some (match Dict.get "offset" supplied with
          | Some v => v
          | None => VInt 0
          end) /\
  next int_of_str resource_func (iterate_over_pageable_resource VNone)
  = next int_of_str resource_func (iterate_over_pageable_resource (VDict [])) /\
  (forall fuel,
     collect int_of_str (guarded resource_func) fuel keep_all it st
     = collect int_of_str resource_func fuel keep_all it st) /\
  (forall fuel,
     (length l < fuel)%nat ->
     collect int_of_str resource_func fuel keep_all it st = (Ok l, st')) /\
  let all :=
    collect Demo.int_of_str demo_pages 26 keep_all
            (iterate_over_pageable_resource VNone)
            (Demo.store false (Demo.numbered 25) []) in
  fst all = Ok (Demo.numbered 25) /\
  length (Demo.numbered 25) = 25%nat /\
  map query_params (sent (snd all))
  = [paging 0; paging 10; paging 20; paging 30].
Proof.
  intros H it.
  split.
  { unfold with_defaults. rewrite !Dict_get_setdefault.
    destruct (Dict.get "limit" supplied); reflexivity. }
  split.
  { unfold with_defaults. rewrite !Dict_get_setdefault.
    destruct (Dict.get "offset" supplied); reflexivity. }
  split; [reflexivity|].
  split; [intros fuel; apply collect_guarded; exact I|].
  split.
  { intros fuel Hf. apply pages_collect in H.
    apply (collect_more_fuel int_of_str resource_func keep_all (S (length l)));
      [exact H | lia]. }
  vm_compute. repeat split.
Qed.

Lemma pagination_iterator_witness :
  let st := Demo.store false (Demo.numbered 25) [] in
  let run := pages Demo.int_of_str demo_pages 4 (with_defaults []) st in
  fst run = Ok (Demo.numbered 25) /\
  collect Demo.int_of_str demo_pages 30 keep_all
          (iterate_over_pageable_resource (VDict [])) st
  = (Ok (Demo.numbered 25), snd run) /\
  length (sent (snd run)) = 4%nat.
Proof.
  intros st run.
  assert (E : fst run = Ok (Demo.numbered 25)) by (vm_compute; reflexivity).
  assert (H : pages Demo.int_of_str demo_pages 4 (with_defaults []) st
              = (Ok (Demo.numbered 25), snd run)).
  { rewrite <- E. apply surjective_pairing. }
  destruct (pagination_iterator _ Demo.int_of_str demo_pages [] 4 st
              (Demo.numbered 25) (snd run) H) as (_ & _ & _ & _ & Hc & _).
  split; [exact E|]. split; [|vm_compute; reflexivity].
  apply Hc. vm_compute. lia.
Defined.

(** * Reconciliation of a duplicate name in [add_object] *)

Lemma filters_stay_refl {W} (st : Store W) : filters_stay st st.
Proof. reflexivity. Qed.

Lemma filters_stay_trans {W} (a b c : Store W) :
  filters_stay a b -> filters_stay b c -> filters_stay a c.
Proof. unfold filters_stay. congruence. Qed.

Lemma quiet_filters_stay {W} (a b : Store W) : quiet a b -> filters_stay a b.
Proof. intros (_ & _ & H & _). unfold filters_stay. rewrite H. reflexivity. Qed.

Lemma respects_quiet_filters_stay {W A} (m : @M W A) :
  respects quiet m -> respects filters_stay m.
Proof. intros H st. apply quiet_filters_stay, H. Qed.

Ltac rel_side ::=
  first [ exact quiet_refl | exact quiet_trans
        | exact evolves_refl | exact evolves_trans
        | exact filters_stay_refl | exact filters_stay_trans ].

Section Reconciliation.
Context {W : Type}.
Variable conn : Connection W.
Variable py_str : value -> string.
Variable int_of_str : string -> option Z.
Variable equal_objects : value -> value -> bool.

Hint Resolve quiet_get_operation_spec quiet_validate_params
  quiet_stop_if_check_mode : respects.

Lemma filters_stay__send_request u m b p q :
  respects filters_stay (_send_request conn u m b p q).
Proof.
  intros st. rewrite _send_request_run. unfold transmit, filters_stay.
  destruct (conn_send_request conn _ (device st)) as [r d].
  destruct (SUCCESS r); [|reflexivity].
  destruct (HTTPMethod.eqb m HTTPMethod.GET); reflexivity.
Qed.

Lemma filters_stay_apply_filters q :
  respects filters_stay (@apply_filters W py_str q).
Proof.
  intros st. unfold apply_filters, bind, get_params, filters_stay. simpl.
  destruct (truthy _); [|reflexivity].
  destruct (match Dict.get "filters" (params st) with
            | Some f => if truthy f then f else VDict []
            | None => VDict []
            end); try reflexivity.
  destruct q; try reflexivity.
  destruct (Dict.mem "query_params" (params st)); [|reflexivity].
  simpl. rewrite Dict_get_set. reflexivity.
Qed.

Lemma filters_stay_match_filters f o :
  respects filters_stay (@match_filters W f o).
Proof. unfold match_filters. respects_solve. Qed.

Hint Resolve filters_stay__send_request filters_stay_apply_filters
  filters_stay_match_filters respects_quiet_filters_stay : respects.

Lemma filters_stay_fetch rf q :
  (forall q, respects filters_stay (rf q)) ->
  respects filters_stay (@fetch W rf q).
Proof. intros H. unfold fetch. respects_solve. Qed.

Hint Resolve filters_stay_fetch : respects.

Lemma filters_stay_next rf g :
  (forall q, respects filters_stay (rf q)) ->
  respects filters_stay (@next W int_of_str rf g).
Proof. intros H. unfold next. respects_solve. Qed.

Hint Resolve filters_stay_next : respects.

Lemma filters_stay_first rf keep fuel :
  (forall q, respects filters_stay (rf q)) ->
  (forall i, respects filters_stay (keep i)) ->
  forall g, respects filters_stay (@first W int_of_str rf fuel keep g).
Proof.
  intros Hr Hk. induction fuel as [|fuel IH]; intros g; simpl; respects_solve.
Qed.

Lemma filters_stay_collect rf keep fuel :
  (forall q, respects filters_stay (rf q)) ->
  (forall i, respects filters_stay (keep i)) ->
  forall g, respects filters_stay (@collect W int_of_str rf fuel keep g).
Proof.
  intros Hr Hk. induction fuel as [|fuel IH]; intros g; simpl; respects_solve.
Qed.

Hint Resolve filters_stay_first filters_stay_collect : respects.

Lemma filters_stay_get_objects_by_filter fuel op one :
  respects filters_stay
    (get_objects_by_filter conn py_str int_of_str fuel op one).
Proof. unfold get_objects_by_filter. respects_solve. Qed.

Lemma or_raise_run {A} (a : A) e (st : Store W) :
  or_raise (Some a) e st = (Ok a, st).
Proof. reflexivity. Qed.

Lemma get_params_run (st : Store W) : get_params st = (Ok (params st), st).
Proof. reflexivity. Qed.

Lemma first_is_head rf keep fuel : forall g (st : Store W) l st',
  collect int_of_str rf fuel keep g st = (Ok l, st') ->
  exists st'', first int_of_str rf fuel keep g st = (Ok (hd VNone l), st'').
Proof.
  induction fuel as [|fuel IH]; intros g st l st' H; [discriminate|].
  cbn [collect] in H. cbn [first].
  bind_inv H En r st1. rewrite (bind_ok _ _ _ _ _ En).
  destruct r as [[i|] g'].
  - bind_inv H Ek b st2. bind_inv H Ec l0 st3. injection H as <- <-.
    rewrite (bind_ok _ _ _ _ _ Ek). destruct b.
    + eexists. reflexivity.
    + apply (IH _ _ _ _ Ec).
  - injection H as <- <-. eexists. reflexivity.
Qed.

Lemma _check_if_the_same_object_none fuel s e (st1 : Store W) :
  fst (_get_find_all_operation_name conn (MODEL_NAME s) st1) = Ok None ->
  _check_if_the_same_object conn py_str int_of_str equal_objects fuel
    (Some s) e st1
  = (Raise e, snd (_get_find_all_operation_name conn (MODEL_NAME s) st1)).
Proof.
  intros Hf. unfold _check_if_the_same_object.
  rewrite (bind_ok _ _ _ _ _ (or_raise_run s TypeError st1)).
  destruct (_get_find_all_operation_name conn (MODEL_NAME s) st1)
    as [o st2] eqn:Ef.
  simpl in Hf. subst o. rewrite (bind_ok _ _ _ _ _ Ef). reflexivity.
Qed.

Lemma _check_if_the_same_object_run fuel s e (st1 : Store W) f data p3 :
  fst (_get_find_all_operation_name conn (MODEL_NAME s) st1) = Ok (Some f) ->
  Dict.get "data" (params st1) = Some data ->
  default_filters (params st1) data = Some p3 ->
  let st2 := snd (_get_find_all_operation_name conn (MODEL_NAME s) st1) in
  let found :=
    get_objects_by_filter conn py_str int_of_str fuel f true
                          (with_params p3 st2) in
  _check_if_the_same_object conn py_str int_of_str equal_objects fuel
    (Some s) e st1
  = (reconcile equal_objects e data (fst found), snd found).
Proof.
  intros Hf Hd Hp st2 found. unfold _check_if_the_same_object.
  rewrite (bind_ok _ _ _ _ _ (or_raise_run s TypeError st1)).
  pose proof (quiet__get_find_all_operation_name conn (MODEL_NAME s) st1)
    as (_ & _ & Hq & _).
  fold st2 in Hq.
  assert (Ef : _get_find_all_operation_name conn (MODEL_NAME s) st1
               = (Ok (Some f), st2)).
  { rewrite <- Hf. apply surjective_pairing. }
  rewrite (bind_ok _ _ _ _ _ Ef).
  rewrite (bind_ok _ _ _ _ _ (get_params_run st2)).
  rewrite Hq, Hd.
  rewrite (bind_ok _ _ _ _ _ (or_raise_run data (KeyError "data") st2)).
  assert (Es : (if Dict.mem "filters" (params st1)
                then ret tt
                else
                  let* name := getitem data "name" in
                  set_params
                    (Dict.set "filters" (VDict [("name", name)]) (params st1)))
                 st2 = (Ok tt, with_params p3 st2)).
  { unfold default_filters in Hp.
    destruct (Dict.mem "filters" (params st1)).
    - injection Hp as <-. rewrite <- Hq. destruct st2; reflexivity.
    - destruct data as [| | | | |d]; try discriminate.
      destruct (Dict.get "name" d) as [name|] eqn:En; [|discriminate].
      injection Hp as <-.
      assert (Eg : getitem (VDict d) "name" st2 = (Ok name, st2)).
      { unfold getitem. rewrite En. reflexivity. }
      rewrite (bind_ok _ _ _ _ _ Eg). reflexivity. }
  rewrite (bind_ok _ _ _ _ _ Es).
  unfold bind. fold found.
  destruct found as [[x| |] st4]; [|reflexivity..].
  unfold reconcile. simpl.
  destruct x; try reflexivity; destruct (equal_objects _ data); reflexivity.
Qed.

End Reconciliation.

(** ** Filtering what the listing yields *)

Section Filtering.
Context {W : Type}.
Variable int_of_str : string -> option Z.
Variable rf : dict -> @M W value.
Variable f : dict.

Lemma collect_filter fuel : forall g (st : Store W) all st',
  collect int_of_str rf fuel keep_all g st = (Ok all, st') ->
  forallb is_dict all = true ->
  collect int_of_str rf fuel (match_filters f) g st
  = (Ok (List.filter (matches f) all), st').
Proof.
  induction fuel as [|fuel IH]; intros g st all st' H Hd; [discriminate|].
  cbn [collect] in H |- *.
  bind_inv H En r st1. rewrite (bind_ok _ _ _ _ _ En).
  destruct r as [[i|] g'].
  - bind_inv H Ek b st2. injection Ek as <- <-.
    bind_inv H Ec l0 st3. injection H as <- <-.
    simpl in Hd. apply andb_prop in Hd as [Hi Hl].
    destruct i as [| | | | |o]; try discriminate.
    assert (Em : match_filters f (VDict o) st1
                 = (Ok (matches f (VDict o)), st1)) by reflexivity.
    rewrite (bind_ok _ _ _ _ _ Em).
    rewrite (bind_ok _ _ _ _ _ (IH _ _ _ _ Ec Hl)).
    simpl. destruct (forallb _ f); reflexivity.
  - injection H as <- <-. reflexivity.
Qed.

Lemma matches_spec o :
  matches f (VDict o) = true <->
  forall k v, In (k, v) f ->
              exists v', Dict.get k o = Some v' /\ py_eq v v' = true.
Proof.
  unfold matches. rewrite forallb_forall. split.
  - intros H k v Hin. specialize (H (k, v) Hin). simpl in H.
    destruct (Dict.get k o) as [v'|]; [eauto|discriminate].
  - intros H [k v] Hin. simpl. destruct (H k v Hin) as (v' & -> & E).
    exact E.
Qed.

Hypothesis evolves_rf : forall q, respects evolves (rf q).

Lemma first_is_head_evolves keep fuel :
  (forall i, respects evolves (keep i)) ->
  forall g (st : Store W) l st',
    collect int_of_str rf fuel keep g st = (Ok l, st') ->
    exists st'',
      first int_of_str rf fuel keep g st = (Ok (hd VNone l), st'') /\
      evolves st'' st'.
Proof.
  intros Hk. induction fuel as [|fuel IH]; intros g st l st' H;
    [discriminate|].
  cbn [collect] in H. cbn [first].
  bind_inv H En r st1. rewrite (bind_ok _ _ _ _ _ En).
  destruct r as [[i|] g'].
  - bind_inv H Ek b st2. bind_inv H Ec l0 st3. injection H as <- <-.
    rewrite (bind_ok _ _ _ _ _ Ek). destruct b.
    + exists st2. split; [reflexivity|].
      pose proof (evolves_collect int_of_str rf evolves_rf keep Hk fuel g' st2)
        as R.
      rewrite Ec in R. exact R.
    + apply (IH _ _ _ _ Ec).
  - injection H as <- <-. eexists. split; [reflexivity|apply evolves_refl].
Qed.
End Filtering.








(** C9, as stated, fails: against a connection whose model has no find-all
    operation, a create that fails with the duplicate-name error leaves the
    caller's [params] without a ['filters'] key. *)
Lemma filters_not_inserted_without_find_all : ~ filters_always_inserted.
Proof.
  intros H.
  specialize (H _ Demo.conn_without_find_all Demo.py_str Demo.int_of_str
                Demo.equal_objects 50%nat "addNetworkObject"
                (Demo.store false [Demo.network 1 "x" "10.0.0.0/8"]
                   [("data", VDict [("name", VStr "x")])])
                (mkSpec HTTPMethod.POST Demo.NETWORKS "NetworkObject")
                [("name", VStr "x")] (VStr "x")
                eq_refl eq_refl eq_refl eq_refl eq_refl eq_refl eq_refl eq_refl).
  vm_compute in H. discriminate H.
Qed.

(** C9, amended: when the create request fails with a duplicate-name error
    and the caller's [params] has no ['filters'] key, then, if the model has
    a find-all operation, the caller's [params] holds
    ['filters'] = [{'name': data['name']}] after [add_object] has returned or
    raised; if the model has none, [params] is as the caller passed it. *)
Theorem add_object_writes_filters_into_params
    (W : Type) (conn : Connection W) py_str int_of_str equal_objects
    (fuel : nat) (op : string) (st : Store W) (s : OperationSpec)
    (d : dict) (name : value) :
  lookup_spec conn op st = Some s ->
  expected_report conn op s (params st) = [] ->
  _check_mode (self st) = false ->
  let data := get_or_empty "data" (params st) in
  let query := get_or_empty "query_params" (params st) in
  let path := get_or_empty "path_params" (params st) in
  let create := mkRequest (URL s) (METHOD s) data path query in
  let response := fst (transmit conn create (cache_spec conn op st)) in
  let st1 := snd (transmit conn create (cache_spec conn op st)) in
  let find := fst (_get_find_all_operation_name conn (MODEL_NAME s) st1) in
  let after :=
    params (snd (add_object conn py_str int_of_str equal_objects fuel op st)) in
  SUCCESS response = false ->
  (STATUS_CODE response =? 422)
  && contains "Validation failed due to a duplicate name"
              (py_str (RESPONSE response)) = true ->
  Dict.get "filters" (params st) = None ->
  Dict.get "data" (params st) = Some (VDict d) ->
  Dict.get "name" d = Some name ->
  (forall f, find = Ok (Some f) ->
             Dict.get "filters" after = Some (VDict [("name", name)])) /\
  (find = Ok None -> after = params st).
Proof.
  intros Hs Hv Hc data query path create response st1 find after Hfail Hdup
         Hnone Hdata Hname.
  assert (Ep : params st1 = params st).
  { unfold st1, transmit.
    destruct (conn_send_request conn create _). simpl.
    apply cache_spec_params. }
  assert (Ea : add_object conn py_str int_of_str equal_objects fuel op st
               = _check_if_the_same_object conn py_str int_of_str
                   equal_objects fuel (Some s)
                   (FtdServerError (RESPONSE response) (STATUS_CODE response))
                   st1).
  { rewrite (add_object_run conn py_str int_of_str equal_objects op st s
               Hs Hv Hc fuel).
    fold data query path create. unfold response, st1 in *.
    destruct (transmit conn create (cache_spec conn op st)) as [r t].
    simpl in *. rewrite Hfail.
    unfold is_duplicate_name_error.
    change UNPROCESSABLE_ENTITY_STATUS with 422.
    change DUPLICATE_NAME_ERROR_MESSAGE
      with "Validation failed due to a duplicate name".
    rewrite Hdup. reflexivity. }
  unfold after. rewrite Ea. split.
  - intros f Hf. rewrite <- Ep in Hdata.
    assert (Hp : default_filters (params st1) (VDict d)
                 = Some (Dict.set "filters" (VDict [("name", name)])
                                  (params st1))).
    { unfold default_filters, Dict.mem. rewrite Ep, Hnone, Hname.
      reflexivity. }
    rewrite (_check_if_the_same_object_run conn py_str int_of_str
               equal_objects fuel s _ st1 f (VDict d) _ Hf Hdata Hp).
    cbv zeta. simpl.
    rewrite (filters_stay_get_objects_by_filter conn py_str int_of_str fuel f
               true _).
    simpl. rewrite Dict_get_set. reflexivity.
  - intros Hf.
    rewrite (_check_if_the_same_object_none conn py_str int_of_str
               equal_objects fuel s _ st1 Hf).
    simpl. rewrite <- Ep.
    apply (quiet__get_find_all_operation_name conn (MODEL_NAME s) st1).
Qed.

Lemma add_object_writes_filters_into_params_witness :
  let data := VDict [("name", VStr "x"); ("value", VStr "10.0.0.0/9")] in
  let st := Demo.store false [Demo.network 1 "x" "10.0.0.0/8"] [("data", data)] in
  let s := mkSpec HTTPMethod.POST Demo.NETWORKS "NetworkObject" in
  let r := add_object Demo.conn Demo.py_str Demo.int_of_str Demo.equal_objects
             50 "addNetworkObject" st in
  lookup_spec Demo.conn "addNetworkObject" st = Some s /\
  expected_report Demo.conn "addNetworkObject" s (params st) = [] /\
  _check_mode (self st) = false /\
  Dict.get "filters" (params st) = None /\
  Dict.get "filters" (params (snd r)) = Some (VDict [("name", VStr "x")]) /\
  fst r = Raise (FtdConfigurationError same_name_message
                   (Demo.network 1 "x" "10.0.0.0/8")).
Proof.
  intros data st s r.
  assert (Hs : lookup_spec Demo.conn "addNetworkObject" st = Some s)
    by reflexivity.
  assert (Hv : expected_report Demo.conn "addNetworkObject" s (params st) = [])
    by reflexivity.
  assert (Hc : _check_mode (self st) = false) by reflexivity.
  destruct (add_object_writes_filters_into_params _ Demo.conn Demo.py_str
              Demo.int_of_str Demo.equal_objects 50%nat "addNetworkObject"
              st s [("name", VStr "x"); ("value", VStr "10.0.0.0/9")] (VStr "x")
              Hs Hv Hc eq_refl eq_refl eq_refl eq_refl eq_refl) as [H _].
  split; [exact Hs|]. split; [exact Hv|]. split; [exact Hc|].
  split; [reflexivity|]. split; [exact (H "getNetworkObjectList" eq_refl)|].
  vm_compute. reflexivity.
Defined.

(** * Dispatch in [crud_operation] *)

Lemma lookup_spec_cache_spec {W} (conn : Connection W) op (st : Store W) :
  lookup_spec conn op (cache_spec conn op st) = lookup_spec conn op st.
Proof.
  unfold lookup_spec at 1. rewrite cache_spec_lookup. reflexivity.
Qed.

Lemma cache_spec_idem {W} (conn : Connection W) op (st : Store W) :
  cache_spec conn op (cache_spec conn op st) = cache_spec conn op st.
Proof.
  unfold cache_spec at 1. rewrite cache_spec_lookup. reflexivity.
Qed.

Lemma validate_params_cached {W A} (conn : Connection W) op
    (k : unit -> @M W A) (st : Store W) :
  bind (validate_params conn op) k (cache_spec conn op st)
  = bind (validate_params conn op) k st.
Proof.
  unfold bind. rewrite !validate_params_run.
  rewrite lookup_spec_cache_spec, cache_spec_idem, cache_spec_params.
  reflexivity.
Qed.

Lemma handler_cached {W} (conn : Connection W) py_str int_of_str equal_objects
    fuel op k (st : Store W) :
  handler conn py_str int_of_str equal_objects fuel op k (cache_spec conn op st)
  = handler conn py_str int_of_str equal_objects fuel op k st.
Proof. destruct k; apply validate_params_cached. Qed.

Section Classifiers.
Context {W : Type}.
Variable conn : Connection W.
Variables (op : string) (st : Store W) (s : OperationSpec).
Hypothesis Hc : _operation_spec_cache (self st) !! op = Some (Some s).

Lemma is_add_operation_run :
  is_add_operation conn op st
  = (Ok (startswith op "add" && HTTPMethod.eqb (METHOD s) HTTPMethod.POST), st).
Proof.
  unfold is_add_operation.
  rewrite (bind_ok _ _ _ _ _ (get_operation_spec_hit conn op st _ Hc)).
  change _OperationNamePrefix.ADD with "add".
  destruct (startswith op "add"); reflexivity.
Qed.

Lemma is_edit_operation_run :
  is_edit_operation conn op st
  = (Ok (startswith op "edit" && HTTPMethod.eqb (METHOD s) HTTPMethod.PUT), st).
Proof.
  unfold is_edit_operation.
  rewrite (bind_ok _ _ _ _ _ (get_operation_spec_hit conn op st _ Hc)).
  change _OperationNamePrefix.EDIT with "edit".
  destruct (startswith op "edit"); reflexivity.
Qed.

Lemma is_delete_operation_run :
  is_delete_operation conn op st
  = (Ok (startswith op "delete"
         && HTTPMethod.eqb (METHOD s) HTTPMethod.DELETE), st).
Proof.
  unfold is_delete_operation.
  rewrite (bind_ok _ _ _ _ _ (get_operation_spec_hit conn op st _ Hc)).
  change _OperationNamePrefix.DELETE with "delete".
  destruct (startswith op "delete"); reflexivity.
Qed.

Lemma is_find_all_operation_run :
  is_find_all_operation conn op st
  = (Ok (startswith op "get" && endswith op "List"
         && HTTPMethod.eqb (METHOD s) HTTPMethod.GET), st).
Proof.
  unfold is_find_all_operation.
  rewrite (bind_ok _ _ _ _ _ (get_operation_spec_hit conn op st _ Hc)).
  reflexivity.
Qed.

Lemma is_find_by_filter_operation_run :
  is_find_by_filter_operation conn op st
  = (Ok ((startswith op "get" && endswith op "List"
          && HTTPMethod.eqb (METHOD s) HTTPMethod.GET)
         && match Dict.get "filters" (params st) with
            | Some f => truthy f
            | None => false
            end), st).
Proof.
  unfold is_find_by_filter_operation.
  rewrite (bind_ok _ _ _ _ _ (get_params_run st)).
  rewrite (bind_ok _ _ _ _ _ is_find_all_operation_run).
  reflexivity.
Qed.
End Classifiers.

Lemma crud_operation_run {W} (conn : Connection W) py_str int_of_str
    equal_objects fuel op (st : Store W) s :
  lookup_spec conn op st = Some s ->
  crud_operation conn py_str int_of_str equal_objects fuel op st
  = handler conn py_str int_of_str equal_objects fuel op
            (classify op s (params st)) st.
Proof.
  intros Hs. unfold crud_operation.
  rewrite (bind_ok _ _ _ _ _ (get_operation_spec_run conn op st)), Hs.
  assert (Hc : _operation_spec_cache (self (cache_spec conn op st)) !! op
               = Some (Some s)).
  { rewrite cache_spec_lookup, Hs. reflexivity. }
  rewrite <- (handler_cached conn py_str int_of_str equal_objects fuel op _ st).
  rewrite <- (cache_spec_params conn op st).
  set (st0 := cache_spec conn op st) in *.
  unfold classify.
  rewrite (bind_ok _ _ _ _ _ (is_add_operation_run conn op st0 s Hc)).
  destruct (startswith op "add" && _); [reflexivity|].
  rewrite (bind_ok _ _ _ _ _ (is_edit_operation_run conn op st0 s Hc)).
  destruct (startswith op "edit" && _); [reflexivity|].
  rewrite (bind_ok _ _ _ _ _ (is_delete_operation_run conn op st0 s Hc)).
  destruct (startswith op "delete" && _); [reflexivity|].
  rewrite (bind_ok _ _ _ _ _ (is_find_by_filter_operation_run conn op st0 s Hc)).
  destruct (_ && _); reflexivity.
Qed.

Lemma handler_in_check_mode {W} (conn : Connection W) py_str int_of_str
    equal_objects fuel op k (st : Store W) :
  _check_mode (self st) = true ->
  snd (handler conn py_str int_of_str equal_objects fuel op k st)
  = cache_spec conn op st /\
  forall v,
    fst (handler conn py_str int_of_str equal_objects fuel op k st) <> Ok v.
Proof.
  intros Hc.
  assert (G : forall (k' : @M W value),
             snd (bind (validate_params conn op)
                       (fun _ => bind stop_if_check_mode (fun _ => k')) st)
             = cache_spec conn op st /\
             forall v,
               fst (bind (validate_params conn op)
                         (fun _ => bind stop_if_check_mode (fun _ => k')) st)
               <> Ok v).
  { intros k'. unfold bind at 1 3. rewrite validate_params_run.
    destruct (lookup_spec conn op st) as [s|]; [|split; [reflexivity|easy]].
    destruct (validation_outcome _) as [[]| |]; try (split; [reflexivity|easy]).
    unfold bind. rewrite stop_if_check_mode_run, cache_spec_check_mode, Hc.
    split; [reflexivity|easy]. }
  destruct k; apply G.
Qed.

(** X1: an operation name the connection does not know makes
    [crud_operation] raise [FtdInvalidOperationNameError] with that name; no
    request is sent and nothing but the name cache changes.  The absence is
    cached: a later call for the same name raises again, whatever the
    connection would answer by then. *)
Theorem crud_operation_rejects_unknown_operation
    (W : Type) (conn conn' : Connection W) py_str int_of_str equal_objects
    (fuel : nat) (op : string) (st : Store W) :
  lookup_spec conn op st = None ->
  let r := crud_operation conn py_str int_of_str equal_objects fuel op st in
  r = (Raise (FtdInvalidOperationNameError op), cache_spec conn op st) /\
  quiet st (snd r) /\
  crud_operation conn' py_str int_of_str equal_objects fuel op (snd r)
  = (Raise (FtdInvalidOperationNameError op), snd r).
Proof.
  intros Hs r.
  assert (E : r = (Raise (FtdInvalidOperationNameError op),
                   cache_spec conn op st)).
  { unfold r, crud_operation.
    rewrite (bind_ok _ _ _ _ _ (get_operation_spec_run conn op st)), Hs.
    reflexivity. }
  rewrite E. simpl. split; [reflexivity|]. split; [apply cache_spec_quiet|].
  unfold crud_operation.
  assert (Hc : _operation_spec_cache (self (cache_spec conn op st)) !! op
               = Some None).
  { rewrite cache_spec_lookup, Hs. reflexivity. }
  rewrite (bind_ok _ _ _ _ _ (get_operation_spec_hit conn' op _ _ Hc)).
  reflexivity.
Qed.

Lemma crud_operation_rejects_unknown_operation_witness :
  let st := Demo.store false [] [] in
  lookup_spec Demo.conn "addNetwork" st = None /\
  fst (Demo.crud 50 "addNetwork" st)
  = Raise (FtdInvalidOperationNameError "addNetwork").
Proof.
  intros st.
  assert (Hs : lookup_spec Demo.conn "addNetwork" st = None) by reflexivity.
  destruct (crud_operation_rejects_unknown_operation _ Demo.conn Demo.conn
              Demo.py_str Demo.int_of_str Demo.equal_objects 50%nat
              "addNetwork" st Hs) as (E & _).
  split; [exact Hs|]. unfold Demo.crud. rewrite E. reflexivity.
Defined.

(** X2: for a known operation [crud_operation] is the handler chosen from the
    operation name, the method of its specification and the caller's
    [filters] alone, tested in the order add (name starts with "add" and
    method POST), edit ("edit" and PUT), delete ("delete" and DELETE),
    find-by-filter ("get"..."List", GET and a true [filters]), and otherwise
    the general request. *)
Theorem crud_operation_dispatches_by_name_and_method
    (W : Type) (conn : Connection W) py_str int_of_str equal_objects
    (fuel : nat) (op : string) (st : Store W) (s : OperationSpec) :
  lookup_spec conn op st = Some s ->
  crud_operation conn py_str int_of_str equal_objects fuel op st
  = handler conn py_str int_of_str equal_objects fuel op
            (classify op s (params st)) st.
Proof. apply crud_operation_run. Qed.

Lemma crud_operation_dispatches_by_name_and_method_witness :
  let st := Demo.store false (Demo.numbered 3) [("filters", VDict [])] in
  let s := mkSpec HTTPMethod.GET Demo.NETWORKS "NetworkObject" in
  lookup_spec Demo.conn "getNetworkObjectList" st = Some s /\
  Demo.crud 50 "getNetworkObjectList" st
  = send_general_request Demo.conn "getNetworkObjectList" st.
Proof.
  intros st s.
  assert (Hs : lookup_spec Demo.conn "getNetworkObjectList" st = Some s)
    by reflexivity.
  split; [exact Hs|].
  apply (crud_operation_dispatches_by_name_and_method _ Demo.conn Demo.py_str
           Demo.int_of_str Demo.equal_objects 50%nat "getNetworkObjectList"
           st s Hs).
Defined.

(** X3: in check mode [crud_operation] never returns a value and never
    reaches the device: whatever the operation and the parameters, it raises,
    and the requests sent, the device, the caller's [params] and
    [config_changed] are as before the call. *)
Theorem crud_operation_is_inert_in_check_mode
    (W : Type) (conn : Connection W) py_str int_of_str equal_objects
    (fuel : nat) (op : string) (st : Store W) :
  _check_mode (self st) = true ->
  let r := crud_operation conn py_str int_of_str equal_objects fuel op st in
  (forall v, fst r <> Ok v) /\
  sent (snd r) = sent st /\
  device (snd r) = device st /\
  params (snd r) = params st /\
  config_changed (self (snd r)) = config_changed (self st).
Proof.
  intros Hc r.
  assert (E : snd r = cache_spec conn op st /\ forall v, fst r <> Ok v).
  { unfold r. destruct (lookup_spec conn op st) as [s|] eqn:Hs.
    - rewrite (crud_operation_run conn py_str int_of_str equal_objects fuel op
                 st s Hs).
      apply handler_in_check_mode, Hc.
    - unfold crud_operation.
      rewrite (bind_ok _ _ _ _ _ (get_operation_spec_run conn op st)), Hs.
      split; [reflexivity|easy]. }
  destruct E as [E1 E2]. split; [exact E2|]. rewrite E1.
  destruct (cache_spec_quiet conn op st) as (H1 & H2 & H3 & H4 & _).
  auto.
Qed.

Lemma crud_operation_is_inert_in_check_mode_witness :
  let st := Demo.store true [Demo.network 1 "x" "10.0.0.0/8"]
              [("path_params", VDict [("objId", VInt 1)])] in
  _check_mode (self st) = true /\
  device (snd (Demo.crud 50 "deleteNetworkObject" st))
  = [Demo.network 1 "x" "10.0.0.0/8"].
Proof.
  intros st.
  assert (Hc : _check_mode (self st) = true) by reflexivity.
  destruct (crud_operation_is_inert_in_check_mode _ Demo.conn Demo.py_str
              Demo.int_of_str Demo.equal_objects 50%nat "deleteNetworkObject"
              st Hc) as (_ & _ & Hd & _).
  split; [exact Hc|]. exact Hd.
Defined.

(** * The caches, continued *)

(** X4: both lookups are memoized.  Once [get_operation_spec] or
    [get_operation_specs_by_model_name] has answered, asking again gives the
    same answer and leaves the store as it is, whatever the connection would
    answer by then. *)
Theorem spec_lookups_are_memoized
    (W : Type) (conn conn' : Connection W) (op model : string) (st : Store W) :
  let r := get_operation_spec conn op st in
  let m := get_operation_specs_by_model_name conn model st in
  get_operation_spec conn' op (snd r) = r /\
  get_operation_specs_by_model_name conn' model (snd m) = m.
Proof.
  intros r m. split.
  - unfold r. rewrite (get_operation_spec_run conn op st). simpl.
    apply get_operation_spec_hit, cache_spec_lookup.
  - unfold m, get_operation_specs_by_model_name, bind, get_self. simpl.
    destruct (_models_operations_specs_cache (self st) !! model) eqn:E; simpl.
    + rewrite E. reflexivity.
    + rewrite lookup_insert_eq. reflexivity.
Qed.

Lemma faithful_init {W} (conn : Connection W) check_mode :
  faithful conn (__init__ check_mode).
Proof.
  split; simpl; intros ? ? H; rewrite lookup_empty in H; discriminate.
Qed.

Lemma first_find_all_run {W} (conn : Connection W)
    (ops : list (string * OperationSpec)) :
  forall st : Store W,
    faithful conn (self st) ->
    (forall n s, In (n, s) ops -> conn_get_operation_spec conn n = Some s) ->
    fst (first_find_all conn (Dict.keys ops) st)
    = Ok (option_map fst (find is_find_all_spec ops)).
Proof.
  induction ops as [|[n s] ops IH]; intros st Hf Hc; [reflexivity|].
  cbn [Dict.keys map fst first_find_all find].
  assert (Hl : lookup_spec conn n st = Some s).
  { unfold lookup_spec.
    destruct (_operation_spec_cache (self st) !! n) eqn:E.
    - rewrite (proj1 Hf _ _ E). apply Hc. left. reflexivity.
    - apply Hc. left. reflexivity. }
  assert (E : is_find_all_operation conn n st
              = (Ok (is_find_all_spec (n, s)), cache_spec conn n st)).
  { unfold is_find_all_operation.
    rewrite (bind_ok _ _ _ _ _ (get_operation_spec_run conn n st)), Hl.
    reflexivity. }
  rewrite (bind_ok _ _ _ _ _ E).
  destruct (is_find_all_spec (n, s)); [reflexivity|].
  apply IH.
  - pose proof (run_call_faithful conn (GetOperationSpec n) st) as R.
    simpl in R. rewrite get_operation_spec_run in R. simpl in R.
    unfold cache_spec. destruct (_operation_spec_cache (self st) !! n) eqn:En;
      [exact Hf|].
    split; simpl; [|exact (proj2 Hf)].
    intros name v. destruct (decide (n = name)) as [->|Hne].
    + rewrite lookup_insert_eq. intros [= <-]. reflexivity.
    + rewrite lookup_insert_ne by assumption. apply (proj1 Hf).
  - intros n' s' Hin. apply Hc. right. exact Hin.
Qed.

(** X5: with a connection that describes an operation in the same way by
    name and by model, and caches that hold what the connection answered (as
    in a new resource), [_get_find_all_operation_name] returns the first
    operation of the model, in the model's order, whose name starts with
    "get" and ends with "List" and whose method is GET, and [None] when the
    model has none. *)
Theorem find_all_operation_is_first_get_list
    (W : Type) (conn : Connection W) (model : string) (st : Store W) :
  consistent conn ->
  faithful conn (self st) ->
  fst (_get_find_all_operation_name conn model st)
  = Ok (option_map fst
          (find is_find_all_spec
                (conn_get_operation_specs_by_model_name conn model))).
Proof.
  intros Hcons Hf. unfold _get_find_all_operation_name.
  pose proof (run_call_faithful conn (GetOperationSpecsByModelName model) st
                Hcons Hf) as Hf'.
  simpl in Hf'.
  destruct (get_operation_specs_by_model_name conn model st) as [o st1] eqn:E.
  assert (Eo : o = Ok (conn_get_operation_specs_by_model_name conn model)).
  { revert E. unfold get_operation_specs_by_model_name, bind, get_self. simpl.
    destruct (_models_operations_specs_cache (self st) !! model) eqn:Em; simpl.
    - intros [= <- <-]. rewrite (proj2 Hf _ _ Em). reflexivity.
    - intros [= <- <-]. reflexivity. }
  subst o. rewrite (bind_ok _ _ _ _ _ E). simpl in Hf'.
  destruct (conn_get_operation_specs_by_model_name conn model) as [|kv ops] eqn:Eops;
    [reflexivity|].
  apply first_find_all_run; [exact Hf'|].
  intros n s Hin. apply (Hcons model). rewrite Eops. exact Hin.
Qed.

Lemma find_all_operation_is_first_get_list_witness :
  let st := Demo.store false [] [] in
  consistent Demo.conn /\
  faithful Demo.conn (self st) /\
  fst (_get_find_all_operation_name Demo.conn "NetworkObject" st)
  = Ok (Some "getNetworkObjectList").
Proof.
  intros st. split; [exact Demo_consistent|].
  split; [apply faithful_init|].
  apply (find_all_operation_is_first_get_list _ Demo.conn "NetworkObject" st
           Demo_consistent (faithful_init Demo.conn false)).
Defined.

(** * Client-side filtering *)


(** X6: filtering on the client side selects from what the iterator yields
    and changes nothing else.  When the pages hold dictionaries, the list
    comprehension of [get_objects_by_filter] over [match_filters] returns, in
    order, exactly the items in which every filter key is present with an
    equal value (other fields of the item are ignored), it leaves the store
    the unfiltered iteration leaves, and the one-item form returns the first
    of them, or [None] when there is none. *)
Theorem client_side_filter_selects_matching_items
    (W : Type) (int_of_str : string -> option Z) (rf : dict -> @M W value)
    (f : dict) (fuel : nat) (g : generator) (st : Store W)
    (all : list value) (st' : Store W) :
  collect int_of_str rf fuel keep_all g st = (Ok all, st') ->
  forallb is_dict all = true ->
  collect int_of_str rf fuel (match_filters f) g st
  = (Ok (List.filter (matches f) all), st') /\
  (exists st'',
     first int_of_str rf fuel (match_filters f) g st
     = (Ok (hd VNone (List.filter (matches f) all)), st'')) /\
  (forall o,
     matches f (VDict o) = true <->
     forall k v, In (k, v) f ->
                 exists v', Dict.get k o = Some v' /\ py_eq v v' = true).
Proof.
  intros H Hd.
  pose proof (collect_filter int_of_str rf f fuel g st all st' H Hd) as C.
  split; [exact C|]. split; [|apply matches_spec].
  destruct (first_is_head int_of_str rf (match_filters f) fuel g st _ _ C)
    as [st'' E].
  exists st''. exact E.
Qed.

Lemma client_side_filter_selects_matching_items_witness :
  let st := Demo.store false (Demo.numbered 25) [] in
  let g := iterate_over_pageable_resource VNone in
  let run := collect Demo.int_of_str demo_pages 30 keep_all g st in
  fst run = Ok (Demo.numbered 25) /\
  forallb is_dict (Demo.numbered 25) = true /\
  fst (collect Demo.int_of_str demo_pages 30
         (match_filters [("id", VInt 12)]) g st)
  = Ok [VDict [("id", VInt 12)]].
Proof.
  intros st g run.
  assert (E : fst run = Ok (Demo.numbered 25)) by (vm_compute; reflexivity).
  assert (H : collect Demo.int_of_str demo_pages 30 keep_all g st
              = (Ok (Demo.numbered 25), snd run)).
  { rewrite <- E. apply surjective_pairing. }
  assert (Hd : forallb is_dict (Demo.numbered 25) = true) by reflexivity.
  destruct (client_side_filter_selects_matching_items _ Demo.int_of_str
              demo_pages [("id", VInt 12)] 30 g st (Demo.numbered 25) (snd run)
              H Hd) as (C & _).
  split; [exact E|]. split; [exact Hd|].
  rewrite C. reflexivity.
Defined.

(** X7: the one-item form of [get_objects_by_filter] is lazy.  Whenever the
    list form returns, the one-item form returns the head of that list (or
    [None] for the empty list), and the requests it has sent are an initial
    segment of those of the list form: it stops fetching at the first
    match. *)
Theorem get_one_item_stops_at_first_match
    (W : Type) (conn : Connection W) py_str int_of_str
    (fuel : nat) (op : string) (st : Store W) (l : list value) (st' : Store W) :
  get_objects_by_filter conn py_str int_of_str fuel op false st
  = (Ok (VList l), st') ->
  exists st'',
    get_objects_by_filter conn py_str int_of_str fuel op true st
    = (Ok (hd VNone l), st'') /\
    exists rest, sent st' = (sent st'' ++ rest)%list.
Proof.
  unfold get_objects_by_filter. intros H.
  bind_inv H E1 u1 st1. rewrite (bind_ok _ _ _ _ _ E1).
  bind_inv H E2 u2 st2. rewrite (bind_ok _ _ _ _ _ E2).
  bind_inv H E3 p st3. rewrite (bind_ok _ _ _ _ _ E3).
  destruct (_get_user_params p) as [[data query] path].
  bind_inv H E4 op_spec st4. rewrite (bind_ok _ _ _ _ _ E4).
  bind_inv H E5 um st5. rewrite (bind_ok _ _ _ _ _ E5).
  destruct um as [url method].
  bind_inv H E6 fq st6. rewrite (bind_ok _ _ _ _ _ E6).
  destruct fq as [filters q].
  bind_inv H E7 l0 st7. injection H as <- <-.
  destruct (first_is_head_evolves int_of_str _
              (fun q => evolves__send_request conn url method VNone path
                          (VDict q))
              (match_filters filters) fuel
              (fun i => evolves_match_filters filters i) _ _ _ _ E7)
    as (st'' & E & _ & _ & Hs).
  exists st''. split; [exact E | exact Hs].
Qed.

Lemma get_one_item_stops_at_first_match_witness :
  let st := Demo.store false (Demo.numbered 25)
              [("filters", VDict [("id", VInt 3)])] in
  let all := get_objects_by_filter Demo.conn Demo.py_str Demo.int_of_str 50
               "getNetworkObjectList" false st in
  let one := get_objects_by_filter Demo.conn Demo.py_str Demo.int_of_str 50
               "getNetworkObjectList" true st in
  fst all = Ok (VList [VDict [("id", VInt 3)]]) /\
  fst one = Ok (VDict [("id", VInt 3)]) /\
  length (sent (snd one)) = 1%nat /\
  length (sent (snd all)) = 4%nat.
Proof.
  intros st all one.
  assert (E : fst all = Ok (VList [VDict [("id", VInt 3)]]))
    by (vm_compute; reflexivity).
  assert (H : get_objects_by_filter Demo.conn Demo.py_str Demo.int_of_str 50
                "getNetworkObjectList" false st
              = (Ok (VList [VDict [("id", VInt 3)]]), snd all)).
  { rewrite <- E. apply surjective_pairing. }
  destruct (get_one_item_stops_at_first_match _ Demo.conn Demo.py_str
              Demo.int_of_str 50%nat "getNetworkObjectList" st _ _ H)
    as (st'' & Eone & _).
  split; [exact E|]. split.
  - unfold one. rewrite Eone. reflexivity.
  - split; vm_compute; reflexivity.
Defined.

(** * Frame conditions *)

Lemma same_params_refl {W} (st : Store W) : same_params st st.
Proof. reflexivity. Qed.

Lemma same_params_trans {W} (a b c : Store W) :
  same_params a b -> same_params b c -> same_params a c.
Proof. unfold same_params. congruence. Qed.

Lemma reads_only_refl {W} (st : Store W) : reads_only st st.
Proof.
  split; [reflexivity|]. exists []. split; [|constructor].
  symmetry. apply app_nil_r.
Qed.

Lemma reads_only_trans {W} (a b c : Store W) :
  reads_only a b -> reads_only b c -> reads_only a c.
Proof.
  intros (F1 & l1 & S1 & G1) (F2 & l2 & S2 & G2). split; [congruence|].
  exists (l1 ++ l2)%list. split.
  - rewrite S2, S1. symmetry. apply app_assoc.
  - apply Forall_app. split; assumption.
Qed.

Lemma quiet_reads_only {W} (a b : Store W) : quiet a b -> reads_only a b.
Proof.
  intros (_ & S & _ & F & _). split; [exact F|]. exists [].
  split; [|constructor]. rewrite S. symmetry. apply app_nil_r.
Qed.

Lemma sends_to_refl {W} u p (st : Store W) : sends_to u p st st.
Proof. exists []. split; [|constructor]. symmetry. apply app_nil_r. Qed.

Lemma sends_to_trans {W} u p (a b c : Store W) :
  sends_to u p a b -> sends_to u p b c -> sends_to u p a c.
Proof.
  intros (l1 & S1 & G1) (l2 & S2 & G2).
  exists (l1 ++ l2)%list. split.
  - rewrite S2, S1. symmetry. apply app_assoc.
  - apply Forall_app. split; assumption.
Qed.

Lemma quiet_sends_to {W} u p (a b : Store W) : quiet a b -> sends_to u p a b.
Proof.
  intros (_ & S & _). exists []. split; [|constructor].
  rewrite S. symmetry. apply app_nil_r.
Qed.

Lemma respects_quiet_sends_to {W A} u p (m : @M W A) :
  respects quiet m -> respects (sends_to u p) m.
Proof. intros H st. apply quiet_sends_to, H. Qed.

Lemma caches_kept_refl {W} (conn : Connection W) (st : Store W) :
  caches_kept conn st st.
Proof. split; [reflexivity|]. split; [reflexivity|]. split; auto. Qed.

Lemma caches_kept_trans {W} (conn : Connection W) (a b c : Store W) :
  caches_kept conn a b -> caches_kept conn b c -> caches_kept conn a c.
Proof.
  intros (N1 & M1 & B1 & F1) (N2 & M2 & B2 & F2).
  split; [etransitivity; eassumption|].
  split; [etransitivity; eassumption|].
  split; auto.
Qed.

(** A step that leaves both caches as they are. *)
Lemma caches_kept_same {W} (conn : Connection W) (a b : Store W) :
  _operation_spec_cache (self b) = _operation_spec_cache (self a) ->
  _models_operations_specs_cache (self b)
  = _models_operations_specs_cache (self a) ->
  caches_kept conn a b.
Proof.
  intros En Em. unfold caches_kept, backfilled, faithful.
  rewrite En, Em. split; [reflexivity|]. split; [reflexivity|]. split; auto.
Qed.

Lemma respects_quiet_same_params {W A} (m : @M W A) :
  respects quiet m -> respects same_params m.
Proof. intros H st. apply (H st). Qed.

Lemma respects_quiet_reads_only {W A} (m : @M W A) :
  respects quiet m -> respects reads_only m.
Proof. intros H st. apply quiet_reads_only, H. Qed.

Ltac rel_side ::=
  first [ exact quiet_refl | exact quiet_trans
        | exact evolves_refl | exact evolves_trans
        | exact filters_stay_refl | exact filters_stay_trans
        | exact same_params_refl | exact same_params_trans
        | exact reads_only_refl | exact reads_only_trans
        | exact (sends_to_refl _ _) | exact (sends_to_trans _ _)
        | exact (caches_kept_refl _) | exact (caches_kept_trans _) ].

Ltac run_handler_prelude conn Hs Hv Hc :=
  rewrite (bind_ok _ _ _ _ _ (validate_ok conn _ _ _ Hs Hv));
  rewrite (bind_ok _ _ _ _ _ (stop_ok conn _ _ Hc));
  rewrite (bind_ok _ _ _ _ _ (params_after_validation conn _ _));
  unfold _get_user_params; cbv beta iota;
  rewrite (bind_ok _ _ _ _ _ (spec_after_validation conn _ _ _ Hs));
  rewrite (bind_ok _ _ _ _ _ (request_params_ok _ _)).

Section Frames.
Context {W : Type}.
Variable conn : Connection W.
Variable py_str : value -> string.
Variable int_of_str : string -> option Z.
Variable equal_objects : value -> value -> bool.

Hint Resolve quiet_get_operation_spec quiet_validate_params
  quiet_stop_if_check_mode respects_quiet_same_params
  respects_quiet_reads_only : respects.

Lemma same_params__send_request u m b p q :
  respects same_params (_send_request conn u m b p q).
Proof.
  intros st. rewrite _send_request_run. unfold transmit, same_params.
  destruct (conn_send_request conn _ (device st)) as [r d].
  destruct (SUCCESS r); [|reflexivity].
  destruct (HTTPMethod.eqb m HTTPMethod.GET); reflexivity.
Qed.

Lemma reads_only_get_request u b p q :
  respects reads_only (_send_request conn u HTTPMethod.GET b p q).
Proof.
  intros st. rewrite _send_request_run. unfold transmit.
  destruct (conn_send_request conn _ (device st)) as [r d].
  assert (G : reads_only st
                (mkStore (self st) d
                   (sent st ++ [mkRequest u HTTPMethod.GET b p q]) (params st))).
  { split; [reflexivity|]. eexists. split; [reflexivity|].
    constructor; [reflexivity | constructor]. }
  destruct (SUCCESS r); exact G.
Qed.

Lemma same_params_match_filters f o :
  respects same_params (@match_filters W f o).
Proof. unfold match_filters. respects_solve. Qed.

Lemma reads_only_match_filters f o :
  respects reads_only (@match_filters W f o).
Proof. unfold match_filters. respects_solve. Qed.

Lemma reads_only_set_params p : respects reads_only (@set_params W p).
Proof.
  intros st. split; [reflexivity|]. exists []. split; [|constructor].
  symmetry. apply app_nil_r.
Qed.

Hint Resolve reads_only_set_params : respects.

Lemma reads_only_apply_filters q :
  respects reads_only (@apply_filters W py_str q).
Proof. unfold apply_filters. respects_solve. Qed.

Hint Resolve same_params__send_request reads_only_get_request
  same_params_match_filters reads_only_match_filters
  reads_only_apply_filters : respects.

(** The caller's [params] after the [if filters:] block. *)
Lemma apply_filters_params (st : Store W) :
  params (snd (apply_filters py_str (get_or_empty "query_params" (params st))
                 st))
  = params_after_filters py_str (params st).
Proof.
  unfold apply_filters, params_after_filters, get_or_empty, Dict.mem.
  rewrite (bind_ok _ _ _ _ _ (get_params_run st)).
  destruct (Dict.get "filters" (params st))
    as [[| b0 | z0 | c0 | l0 | [|[k v] f]]|];
    try reflexivity;
    try (cbv beta iota;
         match goal with
         | |- context [if truthy ?x then ?x else _] =>
             destruct (truthy x) eqn:E
         end; cbv iota; [rewrite E|]; reflexivity).
  destruct (Dict.get "query_params" (params st)) as [[| b | z | c | l | q]|];
    reflexivity.
Qed.

Section Pulls.
Variable R : Store W -> Store W -> Prop.
Hypothesis R_refl : forall st, R st st.
Hypothesis R_trans : forall a b c, R a b -> R b c -> R a c.
Variable rf : dict -> @M W value.
Variable keep : value -> @M W bool.
Hypothesis R_rf : forall q, respects R (rf q).
Hypothesis R_keep : forall i, respects R (keep i).

Ltac side := first [ exact R_refl | exact R_trans ].

Ltac pull_step :=
  first [ apply R_rf | apply R_keep
        | apply respects_ret; side | apply respects_raise; side
        | apply respects_out_of_fuel; side
        | apply respects_getitem; side | apply respects_py_int; side
        | apply respects_bind; try side
        | match goal with
          | |- respects _ (if ?b then _ else _) => destruct b
          | |- respects _ (match ?x with _ => _ end) => destruct x
          | |- forall _, _ => intro
          end ].

Lemma respects_fetch q : respects R (fetch rf q).
Proof. unfold fetch. repeat pull_step. Qed.

Lemma respects_next g : respects R (next int_of_str rf g).
Proof.
  destruct g as [v|[|i rest] q|]; cbn [next];
    repeat first [ apply respects_fetch | pull_step ].
Qed.

Lemma respects_collect fuel : forall g,
  respects R (collect int_of_str rf fuel keep g).
Proof.
  induction fuel as [|fuel IH]; intros g; cbn [collect];
    repeat first [ apply respects_next | apply IH | pull_step ].
Qed.

Lemma respects_first fuel : forall g,
  respects R (first int_of_str rf fuel keep g).
Proof.
  induction fuel as [|fuel IH]; intros g; cbn [first];
    repeat first [ apply respects_next | apply IH | pull_step ].
Qed.
End Pulls.

Lemma same_params_first u m p fuel f g :
  respects same_params
    (first int_of_str (fun q => _send_request conn u m VNone p (VDict q))
       fuel (match_filters f) g).
Proof. apply respects_first; first [rel_side | intros; auto with respects]. Qed.

Lemma same_params_collect u m p fuel f g :
  respects same_params
    (collect int_of_str (fun q => _send_request conn u m VNone p (VDict q))
       fuel (match_filters f) g).
Proof. apply respects_collect; first [rel_side | intros; auto with respects]. Qed.

Lemma reads_only_first u p fuel f g :
  respects reads_only
    (first int_of_str
       (fun q => _send_request conn u HTTPMethod.GET VNone p (VDict q))
       fuel (match_filters f) g).
Proof. apply respects_first; first [rel_side | intros; auto with respects]. Qed.

Lemma reads_only_collect u p fuel f g :
  respects reads_only
    (collect int_of_str
       (fun q => _send_request conn u HTTPMethod.GET VNone p (VDict q))
       fuel (match_filters f) g).
Proof. apply respects_collect; first [rel_side | intros; auto with respects]. Qed.

Hint Resolve same_params_first same_params_collect reads_only_first
  reads_only_collect : respects.

(** Opens a handler in any store: when validation fails or the gate stops
    the call, the store is [cache_spec conn op st], related to [st] by [Hq];
    otherwise the body remains, to be run in that store. *)
Ltac open_handler Hs Hq :=
  match goal with
  | |- _ ?st (snd (bind (validate_params ?conn ?op) _ ?st)) =>
      let Ev := fresh "Ev" in
      let Ec := fresh "Ec" in
      let Eo := fresh "Eo" in
      pose proof (validate_params_run conn op st) as Ev; rewrite Hs in Ev;
      pose proof (stop_if_check_mode_run (cache_spec conn op st)) as Ec;
      destruct (validation_outcome _) as [[]| |] eqn:Eo;
      [ rewrite (bind_ok _ _ _ _ _ Ev);
        destruct (_check_mode (self (cache_spec conn op st)));
        [ rewrite (bind_raise _ _ _ _ _ Ec); exact Hq
        | rewrite (bind_ok _ _ _ _ _ Ec);
          rewrite (bind_ok _ _ _ _ _ (params_after_validation conn _ _));
          unfold _get_user_params; cbv beta iota;
          rewrite (bind_ok _ _ _ _ _ (spec_after_validation conn _ _ _ Hs));
          rewrite (bind_ok _ _ _ _ _ (request_params_ok _ _)) ]
      | rewrite (bind_raise _ _ _ _ _ Ev); exact Hq
      | unfold validation_outcome in Eo;
        destruct (expected_report _ _ _ _); discriminate Eo ]
  end.

(** Runs the body of a handler left by [open_handler]. *)
Ltac run_body R R_trans Hq :=
  eapply R_trans; [exact Hq|];
  match goal with
  | |- _ ?a (snd (?m ?a)) =>
      let H := fresh "H" in
      assert (H : respects R m) by respects_solve; apply H
  end.

Lemma reads_only_get_objects_by_filter fuel op one st s :
  lookup_spec conn op st = Some s ->
  METHOD s = HTTPMethod.GET ->
  reads_only st
    (snd (get_objects_by_filter conn py_str int_of_str fuel op one st)).
Proof.
  intros Hs Hm.
  pose proof (quiet_reads_only _ _ (cache_spec_quiet conn op st)) as Hq.
  unfold get_objects_by_filter. open_handler Hs Hq. rewrite Hm.
  run_body (@reads_only W) (@reads_only_trans W) Hq.
Qed.

Lemma reads_only_send_general_request op st s :
  lookup_spec conn op st = Some s ->
  METHOD s = HTTPMethod.GET ->
  reads_only st (snd (send_general_request conn op st)).
Proof.
  intros Hs Hm.
  pose proof (quiet_reads_only _ _ (cache_spec_quiet conn op st)) as Hq.
  unfold send_general_request. open_handler Hs Hq. rewrite Hm.
  run_body (@reads_only W) (@reads_only_trans W) Hq.
Qed.

(** The operation [first_find_all] settles on is in the cache, with the
    method GET. *)
Lemma first_find_all_cached names : forall st f st',
  first_find_all conn names st = (Ok (Some f), st') ->
  exists sf, _operation_spec_cache (self st') !! f = Some (Some sf) /\
             METHOD sf = HTTPMethod.GET.
Proof.
  induction names as [|n names IH]; intros st f st' H; cbn [first_find_all] in H;
    [discriminate H|].
  bind_inv H E b st1. destruct b; [|exact (IH _ _ _ H)].
  injection H as <- <-. unfold is_find_all_operation in E.
  rewrite (bind_ok _ _ _ _ _ (get_operation_spec_run conn n st)) in E.
  pose proof (cache_spec_lookup conn n st) as Hl.
  destruct (lookup_spec conn n st) as [sf|]; [|discriminate E].
  injection E as Eb <-. exists sf. split; [exact Hl|].
  apply andb_true_iff in Eb. destruct Eb as [_ Eb].
  unfold HTTPMethod.eqb in Eb. apply bool_decide_eq_true in Eb. exact Eb.
Qed.

Lemma _get_find_all_operation_name_cached model st f st' :
  _get_find_all_operation_name conn model st = (Ok (Some f), st') ->
  exists sf, _operation_spec_cache (self st') !! f = Some (Some sf) /\
             METHOD sf = HTTPMethod.GET.
Proof.
  unfold _get_find_all_operation_name. intros H.
  bind_inv H E ops st1. destruct ops as [|o ops]; [discriminate H|].
  exact (first_find_all_cached _ _ _ _ H).
Qed.

(** Reconciliation only reads. *)
Lemma reads_only__check_if_the_same_object fuel o e st :
  reads_only st
    (snd (_check_if_the_same_object conn py_str int_of_str equal_objects fuel
            o e st)).
Proof.
  unfold _check_if_the_same_object.
  destruct o as [s|]; [|apply reads_only_refl].
  rewrite (bind_ok _ _ _ _ _ (or_raise_run s TypeError st)).
  pose proof (quiet__get_find_all_operation_name conn (MODEL_NAME s) st) as Hq.
  apply quiet_reads_only in Hq.
  destruct (_get_find_all_operation_name conn (MODEL_NAME s) st)
    as [[[f|]| e' |] st2] eqn:Ef; simpl in Hq.
  2: { rewrite (bind_ok _ _ _ _ _ Ef). exact Hq. }
  2: { rewrite (bind_raise _ _ _ _ _ Ef). exact Hq. }
  2: { rewrite (bind_out_of_fuel _ _ _ _ Ef). exact Hq. }
  rewrite (bind_ok _ _ _ _ _ Ef).
  destruct (_get_find_all_operation_name_cached _ _ _ _ Ef) as (sf & Hc & Hm).
  rewrite (bind_ok _ _ _ _ _ (get_params_run st2)).
  eapply reads_only_trans; [exact Hq|].
  destruct (Dict.get "data" (params st2)) as [data|]; [|apply reads_only_refl].
  rewrite (bind_ok _ _ _ _ _ (or_raise_run data (KeyError "data") st2)).
  match goal with
  | |- reads_only _ (snd (bind ?m _ _)) =>
      assert (Hs : respects reads_only m) by respects_solve;
      assert (Hself : self (snd (m st2)) = self st2)
  end.
  { destruct (Dict.mem "filters" (params st2)); [reflexivity|].
    unfold bind. pose proof (getitem_state data "name" st2) as G.
    destruct (getitem data "name" st2) as [[name| |] st2']; simpl in G;
      subst st2'; reflexivity. }
  specialize (Hs st2).
  match goal with
  | |- reads_only _ (snd (bind ?m _ _)) =>
      destruct (m st2) as [[[]| e3 |] st3] eqn:E3
  end; simpl in Hs, Hself.
  2: { rewrite (bind_raise _ _ _ _ _ E3). exact Hs. }
  2: { rewrite (bind_out_of_fuel _ _ _ _ E3). exact Hs. }
  rewrite (bind_ok _ _ _ _ _ E3).
  eapply reads_only_trans; [exact Hs|].
  assert (Hl : lookup_spec conn f st3 = Some sf).
  { unfold lookup_spec. rewrite Hself, Hc. reflexivity. }
  pose proof (reads_only_get_objects_by_filter fuel f true st3 sf Hl Hm) as Hg.
  destruct (get_objects_by_filter conn py_str int_of_str fuel f true st3)
    as [[obj| e4 |] st4] eqn:E4; simpl in Hg.
  2: { rewrite (bind_raise _ _ _ _ _ E4). exact Hg. }
  2: { rewrite (bind_out_of_fuel _ _ _ _ E4). exact Hg. }
  rewrite (bind_ok _ _ _ _ _ E4).
  destruct obj; try exact Hg; destruct (equal_objects _ data); exact Hg.
Qed.

(** X8: validation, [edit_object], [delete_object] and
    [send_general_request] never write to the caller's [params], whatever
    the operation, the parameters and the answers of the device. *)
Theorem handlers_leave_params_alone op (st : Store W) :
  params (snd (validate_params conn op st)) = params st /\
  params (snd (edit_object conn equal_objects op st)) = params st /\
  params (snd (delete_object conn py_str op st)) = params st /\
  params (snd (send_general_request conn op st)) = params st.
Proof.
  assert (Hv : respects same_params (validate_params conn op))
    by auto with respects.
  assert (He : respects same_params (edit_object conn equal_objects op))
    by (unfold edit_object; respects_solve).
  assert (Hd : respects same_params (delete_object conn py_str op))
    by (unfold delete_object; respects_solve).
  assert (Hg : respects same_params (send_general_request conn op))
    by (unfold send_general_request; respects_solve).
  exact (conj (Hv st) (conj (He st) (conj (Hd st) (Hg st)))).
Qed.

(** X9: past validation and the gate, the only thing
    [get_objects_by_filter] writes to the caller's [params] is the entry
    [params['query_params']['filters']], and only for a non-empty [filters]
    dictionary and a [query_params] dictionary of the caller's own; the
    paging defaults [limit] and [offset] and the advancing offset never reach
    the caller's [params], whatever the device answers and in both modes. *)
Theorem get_objects_by_filter_writes_only_filters fuel op one st s :
  lookup_spec conn op st = Some s ->
  expected_report conn op s (params st) = [] ->
  _check_mode (self st) = false ->
  params (snd (get_objects_by_filter conn py_str int_of_str fuel op one st))
  = params_after_filters py_str (params st).
Proof.
  intros Hs Hv Hc. unfold get_objects_by_filter.
  run_handler_prelude conn Hs Hv Hc.
  pose proof (apply_filters_params (cache_spec conn op st)) as Ha.
  rewrite cache_spec_params in Ha.
  destruct (apply_filters py_str (get_or_empty "query_params" (params st))
              (cache_spec conn op st)) as [[[f q]| e |] st1] eqn:Ea;
    simpl in Ha.
  2: { rewrite (bind_raise _ _ _ _ _ Ea). exact Ha. }
  2: { rewrite (bind_out_of_fuel _ _ _ _ Ea). exact Ha. }
  rewrite (bind_ok _ _ _ _ _ Ea). rewrite <- Ha.
  match goal with
  | |- params (snd (?m ?a)) = _ =>
      assert (H : respects same_params m) by respects_solve; apply H
  end.
Qed.

(** X10: an operation whose specification has the method GET only reads:
    [get_objects_by_filter] and [send_general_request] on it leave
    [config_changed] as it was, and every request they send is a GET,
    whatever the parameters, the mode and the answers of the device. *)
Theorem get_operations_only_read fuel op one st s :
  lookup_spec conn op st = Some s ->
  METHOD s = HTTPMethod.GET ->
  reads_only st
    (snd (get_objects_by_filter conn py_str int_of_str fuel op one st)) /\
  reads_only st (snd (send_general_request conn op st)).
Proof.
  intros Hs Hm. split.
  - exact (reads_only_get_objects_by_filter fuel op one st s Hs Hm).
  - exact (reads_only_send_general_request op st s Hs Hm).
Qed.

(** X11: when the create request of [add_object] fails, nothing is written
    afterwards: [config_changed] is left as it was before the call, and every
    request sent after the create -- the reconciliation with the existing
    objects -- is a GET. *)
Theorem failed_create_only_reads fuel op st s :
  lookup_spec conn op st = Some s ->
  expected_report conn op s (params st) = [] ->
  _check_mode (self st) = false ->
  let create :=
    mkRequest (URL s) (METHOD s) (get_or_empty "data" (params st))
      (get_or_empty "path_params" (params st))
      (get_or_empty "query_params" (params st)) in
  let after :=
    snd (add_object conn py_str int_of_str equal_objects fuel op st) in
  SUCCESS (fst (transmit conn create (cache_spec conn op st))) = false ->
  config_changed (self after) = config_changed (self st) /\
  exists l, sent after = (sent st ++ create :: l)%list /\
            Forall (fun r => http_method r = HTTPMethod.GET) l.
Proof.
  intros Hs Hv Hc create after Hf. unfold after.
  rewrite (add_object_run conn py_str int_of_str equal_objects op st s Hs Hv Hc).
  cbv zeta. fold create.
  pose proof (transmit_sent conn create (cache_spec conn op st)) as Es.
  pose proof (transmit_self conn create (cache_spec conn op st)) as Er.
  rewrite cache_spec_sent in Es.
  destruct (transmit conn create (cache_spec conn op st)) as [r st1].
  simpl in Hf, Es, Er. rewrite Hf.
  assert (G : reads_only st1
                (snd (if is_duplicate_name_error py_str (RESPONSE r)
                                                 (STATUS_CODE r)
                      then _check_if_the_same_object conn py_str int_of_str
                             equal_objects fuel (Some s)
                             (FtdServerError (RESPONSE r) (STATUS_CODE r)) st1
                      else (Raise (FtdServerError (RESPONSE r) (STATUS_CODE r)),
                            st1)))).
  { destruct (is_duplicate_name_error py_str (RESPONSE r) (STATUS_CODE r)).
    - apply reads_only__check_if_the_same_object.
    - apply reads_only_refl. }
  destruct G as (F & l & S & A). split.
  - rewrite F, Er. apply cache_spec_config_changed.
  - exists l. split; [|exact A]. rewrite S, Es, <- app_assoc. reflexivity.
Qed.

(** ** Where the requests go *)

Lemma sends_to__send_request u m b p q :
  respects (sends_to u p) (_send_request conn u m b p q).
Proof.
  intros st. rewrite _send_request_run. unfold transmit.
  destruct (conn_send_request conn _ (device st)) as [r d].
  assert (G : forall r0,
             sends_to u p st
               (mkStore r0 d (sent st ++ [mkRequest u m b p q]) (params st))).
  { intros r0. eexists. split; [reflexivity|].
    constructor; [split; reflexivity | constructor]. }
  destruct (SUCCESS r); [|apply G].
  destruct (HTTPMethod.eqb m HTTPMethod.GET); apply G.
Qed.

Lemma sends_to_set_params u p p' : respects (sends_to u p) (@set_params W p').
Proof.
  intros st. exists []. split; [|constructor]. symmetry. apply app_nil_r.
Qed.

Hint Resolve sends_to__send_request sends_to_set_params
  respects_quiet_sends_to : respects.

Lemma sends_to_match_filters u p f o :
  respects (sends_to u p) (@match_filters W f o).
Proof. unfold match_filters. respects_solve. Qed.

Lemma sends_to_apply_filters u p q :
  respects (sends_to u p) (@apply_filters W py_str q).
Proof. unfold apply_filters. respects_solve. Qed.

Hint Resolve sends_to_match_filters sends_to_apply_filters : respects.

Lemma sends_to_first u m p fuel f g :
  respects (sends_to u p)
    (first int_of_str (fun q => _send_request conn u m VNone p (VDict q))
       fuel (match_filters f) g).
Proof. apply respects_first; first [rel_side | intros; auto with respects]. Qed.

Lemma sends_to_collect u m p fuel f g :
  respects (sends_to u p)
    (collect int_of_str (fun q => _send_request conn u m VNone p (VDict q))
       fuel (match_filters f) g).
Proof. apply respects_collect; first [rel_side | intros; auto with respects]. Qed.

Hint Resolve sends_to_first sends_to_collect : respects.

(** X12: a handler called with an operation the connection does not know
    ends in [TypeError] -- the subscript of the missing specification in
    [validate_params] -- with nothing sent to the device, whatever the
    parameters and whether or not the resource is in check mode. *)
Theorem handlers_raise_type_error_on_unknown_operation fuel op one st :
  lookup_spec conn op st = None ->
  let unknown := (Raise TypeError, cache_spec conn op st) in
  validate_params conn op st = (Raise TypeError, cache_spec conn op st) /\
  add_object conn py_str int_of_str equal_objects fuel op st = unknown /\
  edit_object conn equal_objects op st = unknown /\
  delete_object conn py_str op st = unknown /\
  get_objects_by_filter conn py_str int_of_str fuel op one st = unknown /\
  send_general_request conn op st = unknown /\
  sent (cache_spec conn op st) = sent st /\
  device (cache_spec conn op st) = device st.
Proof.
  intros Hs unknown.
  assert (E : validate_params conn op st = (Raise TypeError, cache_spec conn op st)).
  { rewrite validate_params_run, Hs. reflexivity. }
  split; [exact E|].
  repeat (split; [apply (bind_raise _ _ _ _ _ E)|]).
  split; [apply cache_spec_sent | apply cache_spec_device].
Qed.

(** X13: for a known operation, every request that [edit_object],
    [delete_object], [get_objects_by_filter] and [send_general_request] send
    goes to the URL of the operation with the caller's path parameters,
    whatever the device answers and however many pages are fetched. *)
Theorem handlers_send_only_to_operation_url fuel op one st s :
  lookup_spec conn op st = Some s ->
  let target :=
    sends_to (URL s) (get_or_empty "path_params" (params st)) st in
  target (snd (edit_object conn equal_objects op st)) /\
  target (snd (delete_object conn py_str op st)) /\
  target (snd (get_objects_by_filter conn py_str int_of_str fuel op one st)) /\
  target (snd (send_general_request conn op st)).
Proof.
  intros Hs target. unfold target.
  pose proof (quiet_sends_to (URL s) (get_or_empty "path_params" (params st))
                _ _ (cache_spec_quiet conn op st)) as Hq.
  repeat split.
  - unfold edit_object. open_handler Hs Hq.
    run_body (@sends_to W (URL s) (get_or_empty "path_params" (params st)))
             (@sends_to_trans W (URL s) (get_or_empty "path_params" (params st)))
             Hq.
  - unfold delete_object. open_handler Hs Hq.
    run_body (@sends_to W (URL s) (get_or_empty "path_params" (params st)))
             (@sends_to_trans W (URL s) (get_or_empty "path_params" (params st)))
             Hq.
  - unfold get_objects_by_filter. open_handler Hs Hq.
    run_body (@sends_to W (URL s) (get_or_empty "path_params" (params st)))
             (@sends_to_trans W (URL s) (get_or_empty "path_params" (params st)))
             Hq.
  - unfold send_general_request. open_handler Hs Hq.
    run_body (@sends_to W (URL s) (get_or_empty "path_params" (params st)))
             (@sends_to_trans W (URL s) (get_or_empty "path_params" (params st)))
             Hq.
Qed.
End Frames.

Lemma get_objects_by_filter_writes_only_filters_witness :
  let st := Demo.store false [Demo.network 1 "x" "10.0.0.0/8"]
              [("filters", VDict [("name", VStr "x")]);
               ("query_params", VDict [])] in
  let s := mkSpec HTTPMethod.GET Demo.NETWORKS "NetworkObject" in
  lookup_spec Demo.conn "getNetworkObjectList" st = Some s /\
  expected_report Demo.conn "getNetworkObjectList" s (params st) = [] /\
  _check_mode (self st) = false /\
  params (snd (get_objects_by_filter Demo.conn Demo.py_str Demo.int_of_str 50
                 "getNetworkObjectList" false st))
  = [("filters", VDict [("name", VStr "x")]);
     ("query_params", VDict [("filters", VStr "name:x")])].
Proof.
  intros st s.
  assert (Hs : lookup_spec Demo.conn "getNetworkObjectList" st = Some s)
    by reflexivity.
  assert (Hv : expected_report Demo.conn "getNetworkObjectList" s (params st)
               = []) by reflexivity.
  assert (Hc : _check_mode (self st) = false) by reflexivity.
  split; [exact Hs|]. split; [exact Hv|]. split; [exact Hc|].
  rewrite (get_objects_by_filter_writes_only_filters Demo.conn Demo.py_str
             Demo.int_of_str 50%nat "getNetworkObjectList" false st s Hs Hv Hc).
  vm_compute. reflexivity.
Defined.

Lemma get_operations_only_read_witness :
  let st := Demo.store false (Demo.numbered 25) [] in
  let s := mkSpec HTTPMethod.GET Demo.NETWORKS "NetworkObject" in
  lookup_spec Demo.conn "getNetworkObjectList" st = Some s /\
  METHOD s = HTTPMethod.GET /\
  reads_only st
    (snd (get_objects_by_filter Demo.conn Demo.py_str Demo.int_of_str 50
            "getNetworkObjectList" false st)) /\
  reads_only st (snd (send_general_request Demo.conn "getNetworkObjectList" st)).
Proof.
  intros st s.
  assert (Hs : lookup_spec Demo.conn "getNetworkObjectList" st = Some s)
    by reflexivity.
  assert (Hm : METHOD s = HTTPMethod.GET) by reflexivity.
  split; [exact Hs|]. split; [exact Hm|].
  exact (get_operations_only_read Demo.conn Demo.py_str Demo.int_of_str 50%nat
           "getNetworkObjectList" false st s Hs Hm).
Defined.

Lemma failed_create_only_reads_witness :
  let data := VDict [("name", VStr "x"); ("value", VStr "10.0.0.0/8")] in
  let st := Demo.store false [Demo.network 1 "x" "10.0.0.0/8"] [("data", data)] in
  let s := mkSpec HTTPMethod.POST Demo.NETWORKS "NetworkObject" in
  let create := mkRequest Demo.NETWORKS HTTPMethod.POST data (VDict []) (VDict []) in
  let after :=
    snd (add_object Demo.conn Demo.py_str Demo.int_of_str Demo.equal_objects 50
           "addNetworkObject" st) in
  lookup_spec Demo.conn "addNetworkObject" st = Some s /\
  expected_report Demo.conn "addNetworkObject" s (params st) = [] /\
  _check_mode (self st) = false /\
  SUCCESS (fst (transmit Demo.conn create (cache_spec Demo.conn "addNetworkObject" st)))
  = false /\
  config_changed (self after) = false /\
  exists l, sent after = (sent st ++ create :: l)%list /\
            Forall (fun r => http_method r = HTTPMethod.GET) l.
Proof.
  intros data st s create after.
  assert (Hs : lookup_spec Demo.conn "addNetworkObject" st = Some s)
    by reflexivity.
  assert (Hv : expected_report Demo.conn "addNetworkObject" s (params st) = [])
    by reflexivity.
  assert (Hc : _check_mode (self st) = false) by reflexivity.
  assert (Hf : SUCCESS (fst (transmit Demo.conn create
                               (cache_spec Demo.conn "addNetworkObject" st)))
               = false) by reflexivity.
  split; [exact Hs|]. split; [exact Hv|]. split; [exact Hc|].
  split; [exact Hf|].
  exact (failed_create_only_reads Demo.conn Demo.py_str Demo.int_of_str
           Demo.equal_objects 50%nat "addNetworkObject" st s Hs Hv Hc Hf).
Defined.

(** * The queries of the pagination iterator *)

Section Screening.
Context {W : Type}.
Variable int_of_str : string -> option Z.
Variable resource_func : dict -> @M W value.
Variable P : dict -> bool.
Hypothesis P_offset : forall q v, P q = true -> P (Dict.set "offset" v q) = true.

Lemma fetch_screened q st :
  P q = true ->
  fetch (screened P resource_func) q st = fetch resource_func q st.
Proof. intros H. unfold fetch, screened, bind. rewrite H. reflexivity. Qed.

Lemma fetch_passes q st o g' st' :
  P q = true ->
  fetch resource_func q st = (Ok (o, g'), st') -> passes P g'.
Proof.
  intros Hq H. unfold fetch in H.
  bind_inv H Er res st1. bind_inv H Eg its st2.
  destruct its as [| b | z | [|c t] | [|i rest] | [|[k v] rest]];
    simpl in H; try discriminate;
    try (injection H as <- <- <-; simpl; auto).
  - destruct b; [discriminate|]. injection H as <- <- <-. exact I.
  - destruct (negb (z =? 0)); [discriminate|]. injection H as <- <- <-.
    exact I.
Qed.

Lemma next_screened g st :
  passes P g ->
  next int_of_str (screened P resource_func) g st
  = next int_of_str resource_func g st.
Proof.
  destruct g as [v|[|i rest] q|]; intros Hq; cbn [next]; try reflexivity.
  - destruct v; try reflexivity.
    + apply (fetch_screened (with_defaults [])), Hq.
    + apply (fetch_screened (with_defaults d)), Hq.
  - unfold bind.
    destruct (getitem (VDict q) "offset" st) as [[off| |] st1]; try reflexivity.
    destruct (py_int int_of_str off st1) as [[o| |] st2]; try reflexivity.
    destruct (getitem (VDict q) "limit" st2) as [[lim| |] st3]; try reflexivity.
    destruct (py_int int_of_str lim st3) as [[li| |] st4]; try reflexivity.
    apply fetch_screened, P_offset, Hq.
Qed.

Lemma next_passes g st o g' st' :
  passes P g ->
  next int_of_str resource_func g st = (Ok (o, g'), st') -> passes P g'.
Proof.
  destruct g as [v|[|i rest] q|]; intros Hq H; cbn [next] in H.
  - destruct v; try discriminate.
    + apply (fetch_passes (with_defaults []) _ _ _ _ Hq H).
    + apply (fetch_passes (with_defaults d) _ _ _ _ Hq H).
  - bind_inv H E1 off st1. bind_inv H E2 o1 st2.
    bind_inv H E3 lim st3. bind_inv H E4 li st4.
    eapply fetch_passes; [|exact H]. apply P_offset, Hq.
  - injection H as <- <- <-. exact Hq.
  - injection H as <- <- <-. exact I.
Qed.

Lemma collect_screened keep fuel : forall g st,
  passes P g ->
  collect int_of_str (screened P resource_func) fuel keep g st
  = collect int_of_str resource_func fuel keep g st.
Proof.
  induction fuel as [|fuel IH]; intros g st Hg; [reflexivity|].
  cbn [collect]. unfold bind at 1 4. rewrite (next_screened g st Hg).
  destruct (next int_of_str resource_func g st) as [[[[i|] g']| |] st1] eqn:En;
    try reflexivity.
  unfold bind.
  destruct (keep i st1) as [[b| |] st2]; try reflexivity.
  rewrite IH; [reflexivity|]. eapply next_passes; eauto.
Qed.

Lemma first_screened keep fuel : forall g st,
  passes P g ->
  first int_of_str (screened P resource_func) fuel keep g st
  = first int_of_str resource_func fuel keep g st.
Proof.
  induction fuel as [|fuel IH]; intros g st Hg; [reflexivity|].
  cbn [first]. unfold bind at 1 3. rewrite (next_screened g st Hg).
  destruct (next int_of_str resource_func g st) as [[[[i|] g']| |] st1] eqn:En;
    try reflexivity.
  unfold bind.
  destruct (keep i st1) as [[[|]| |] st2]; try reflexivity.
  apply IH. eapply next_passes; eauto.
Qed.
End Screening.

(** X14: from one page to the next the iterator changes the entry [offset]
    of the query parameters and nothing else: whatever test the entry of
    another key passes in the first query -- the supplied parameters with the
    defaults for [limit] and [offset] -- it passes in every query handed to
    the resource function, so that the iterator behaves the same, in both
    ways of consuming it, against a resource function that refuses a query
    failing the test. *)
Theorem page_queries_differ_in_offset_only
    (W : Type) (int_of_str : string -> option Z)
    (resource_func : dict -> @M W value) (supplied : dict)
    (k : string) (test : option value -> bool)
    (keep : value -> @M W bool) (fuel : nat) (st : Store W) :
  String.eqb k "offset" = false ->
  test (Dict.get k (with_defaults supplied)) = true ->
  let it := iterate_over_pageable_resource (VDict supplied) in
  let refusing := screened (fun q => test (Dict.get k q)) resource_func in
  collect int_of_str refusing fuel keep it st
  = collect int_of_str resource_func fuel keep it st /\
  first int_of_str refusing fuel keep it st
  = first int_of_str resource_func fuel keep it st.
Proof.
  intros Hk Ht it refusing.
  assert (Ho : forall q v, test (Dict.get k q) = true ->
                           test (Dict.get k (Dict.set "offset" v q)) = true).
  { intros q v H. rewrite Dict_get_set, Hk. exact H. }
  split.
  - apply collect_screened; [exact Ho | exact Ht].
  - apply first_screened; [exact Ho | exact Ht].
Qed.

Lemma page_queries_differ_in_offset_only_witness :
  let st := Demo.store false (Demo.numbered 25) [] in
  let test (o : option value) :=
    match o with Some (VInt 5) => true | _ => false end in
  let refusing := screened (fun q => test (Dict.get "limit" q)) demo_pages in
  let it := iterate_over_pageable_resource (VDict [("limit", VInt 5)]) in
  String.eqb "limit" "offset" = false /\
  test (Dict.get "limit" (with_defaults [("limit", VInt 5)])) = true /\
  fst (collect Demo.int_of_str refusing 30 keep_all it st)
  = Ok (Demo.numbered 25).
Proof.
  intros st test refusing it.
  split; [reflexivity|]. split; [reflexivity|].
  destruct (page_queries_differ_in_offset_only _ Demo.int_of_str demo_pages
              [("limit", VInt 5)] "limit" test keep_all 30%nat st
              eq_refl eq_refl) as [H _].
  unfold refusing, it. rewrite H. vm_compute. reflexivity.
Defined.

(** * [_set_default] *)

Lemma Dict_set_set {A} (k : string) (v : A) (d : list (string * A)) :
  Dict.set k v (Dict.set k v d) = Dict.set k v d.
Proof.
  induction d as [|[k' v'] d IH]; simpl.
  - rewrite String.eqb_refl. reflexivity.
  - destruct (String.eqb k k') eqn:E; simpl.
    + rewrite String.eqb_refl. reflexivity.
    + rewrite E, IH. reflexivity.
Qed.

(** X15: after [_set_default(params, field_name, value)] the field holds what
    it held before when that was present and not [None], and [value]
    otherwise; every other field is as before; and a second call with the
    same arguments changes nothing. *)
Theorem set_default_fills_missing_and_none
    (p : dict) (field_name k : string) (v : value) :
  Dict.get k (_set_default p field_name v)
  = (if String.eqb k field_name
     then Some (match Dict.get field_name p with
                | None | Some VNone => v
                | Some old => old
                end)
     else Dict.get k p) /\
  _set_default (_set_default p field_name v) field_name v
  = _set_default p field_name v.
Proof.
  split.
  - unfold _set_default.
    destruct (String.eqb k field_name) eqn:E.
    + apply eqb_string_eq in E. subst k.
      destruct (Dict.get field_name p) as [[]|] eqn:G;
        rewrite ?Dict_get_set, ?String.eqb_refl; auto.
    + destruct (Dict.get field_name p) as [[]|] eqn:G;
        rewrite ?Dict_get_set, ?E; reflexivity.
  - assert (Hset : _set_default (Dict.set field_name v p) field_name v
                   = Dict.set field_name v p).
    { unfold _set_default. rewrite Dict_get_set, String.eqb_refl.
      destruct v; try reflexivity. apply Dict_set_set. }
    assert (E : _set_default p field_name v = Dict.set field_name v p \/
                _set_default p field_name v = p).
    { unfold _set_default.
      destruct (Dict.get field_name p) as [[]|]; auto. }
    destruct E as [E|E]; rewrite E; [exact Hset | exact E].
Qed.

(** * The caches across a whole call *)

Section Caches.
Context {W : Type}.
Variable conn : Connection W.
Variable py_str : value -> string.
Variable int_of_str : string -> option Z.
Variable equal_objects : value -> value -> bool.

Lemma caches_kept_get_operation_spec op :
  respects (caches_kept conn) (get_operation_spec conn op).
Proof.
  intros st.
  pose proof (run_call_keeps conn (GetOperationSpec op) st) as Hk.
  pose proof (run_call_backfilled conn (GetOperationSpec op) st) as Hb.
  pose proof (run_call_faithful conn (GetOperationSpec op) st) as Hf.
  simpl in Hk, Hb, Hf.
  split; [exact Hk|]. split; [|split; assumption].
  rewrite get_operation_spec_run. unfold cache_spec.
  destruct (_operation_spec_cache (self st) !! op); reflexivity.
Qed.

Lemma caches_kept_get_operation_specs_by_model_name m :
  respects (caches_kept conn) (get_operation_specs_by_model_name conn m).
Proof.
  intros st.
  pose proof (run_call_keeps conn (GetOperationSpecsByModelName m) st) as Hk.
  pose proof (run_call_backfilled conn (GetOperationSpecsByModelName m) st)
    as Hb.
  pose proof (run_call_faithful conn (GetOperationSpecsByModelName m) st)
    as Hf.
  simpl in Hk, Hb, Hf.
  split; [exact Hk|]. split; [|split; assumption].
  unfold get_operation_specs_by_model_name, bind, get_self. simpl.
  destruct (_models_operations_specs_cache (self st) !! m) eqn:E; simpl;
    [reflexivity|].
  apply insert_subseteq, E.
Qed.

Lemma caches_kept__send_request u m b p q :
  respects (caches_kept conn) (_send_request conn u m b p q).
Proof.
  intros st. rewrite _send_request_run.
  pose proof (transmit_self conn (mkRequest u m b p q) st) as Es.
  destruct (transmit conn (mkRequest u m b p q) st) as [r st1].
  simpl in Es.
  destruct (SUCCESS r);
    [|apply caches_kept_same; simpl; rewrite Es; reflexivity].
  destruct (HTTPMethod.eqb m HTTPMethod.GET);
    apply caches_kept_same; simpl; rewrite Es; reflexivity.
Qed.

Lemma caches_kept_set_params p :
  respects (caches_kept conn) (@set_params W p).
Proof. intros st. apply caches_kept_same; reflexivity. Qed.

Hint Resolve caches_kept_get_operation_spec
  caches_kept_get_operation_specs_by_model_name caches_kept__send_request
  caches_kept_set_params : respects.

Lemma caches_kept_match_filters f o :
  respects (caches_kept conn) (@match_filters W f o).
Proof. unfold match_filters. respects_solve. Qed.

Lemma caches_kept_apply_filters q :
  respects (caches_kept conn) (@apply_filters W py_str q).
Proof. unfold apply_filters. respects_solve. Qed.

Lemma caches_kept_validate_params op :
  respects (caches_kept conn) (validate_params conn op).
Proof. unfold validate_params. respects_solve. Qed.

Lemma caches_kept_stop_if_check_mode :
  respects (caches_kept conn) (@stop_if_check_mode W).
Proof. unfold stop_if_check_mode. respects_solve. Qed.

Lemma caches_kept_is_add_operation op :
  respects (caches_kept conn) (is_add_operation conn op).
Proof. unfold is_add_operation. respects_solve. Qed.

Lemma caches_kept_is_edit_operation op :
  respects (caches_kept conn) (is_edit_operation conn op).
Proof. unfold is_edit_operation. respects_solve. Qed.

Lemma caches_kept_is_delete_operation op :
  respects (caches_kept conn) (is_delete_operation conn op).
Proof. unfold is_delete_operation. respects_solve. Qed.

Lemma caches_kept_is_find_all_operation op :
  respects (caches_kept conn) (is_find_all_operation conn op).
Proof. unfold is_find_all_operation. respects_solve. Qed.

Hint Resolve caches_kept_match_filters caches_kept_apply_filters
  caches_kept_validate_params caches_kept_stop_if_check_mode
  caches_kept_is_add_operation caches_kept_is_edit_operation
  caches_kept_is_delete_operation caches_kept_is_find_all_operation
  : respects.

Lemma caches_kept_is_find_by_filter_operation op :
  respects (caches_kept conn) (is_find_by_filter_operation conn op).
Proof. unfold is_find_by_filter_operation. respects_solve. Qed.

Lemma caches_kept_first_find_all names :
  respects (caches_kept conn) (first_find_all conn names).
Proof. induction names as [|n names IH]; simpl; respects_solve. Qed.

Hint Resolve caches_kept_is_find_by_filter_operation
  caches_kept_first_find_all : respects.

Lemma caches_kept__get_find_all_operation_name m :
  respects (caches_kept conn) (_get_find_all_operation_name conn m).
Proof. unfold _get_find_all_operation_name. respects_solve. Qed.

Lemma caches_kept_first u m p fuel f g :
  respects (caches_kept conn)
    (first int_of_str (fun q => _send_request conn u m VNone p (VDict q))
       fuel (match_filters f) g).
Proof. apply respects_first; first [rel_side | intros; auto with respects]. Qed.

Lemma caches_kept_collect u m p fuel f g :
  respects (caches_kept conn)
    (collect int_of_str (fun q => _send_request conn u m VNone p (VDict q))
       fuel (match_filters f) g).
Proof. apply respects_collect; first [rel_side | intros; auto with respects]. Qed.

Hint Resolve caches_kept__get_find_all_operation_name caches_kept_first
  caches_kept_collect : respects.

Lemma caches_kept_get_objects_by_filter fuel op one :
  respects (caches_kept conn)
    (get_objects_by_filter conn py_str int_of_str fuel op one).
Proof. unfold get_objects_by_filter. respects_solve. Qed.

Hint Resolve caches_kept_get_objects_by_filter : respects.

Lemma caches_kept__check_if_the_same_object fuel o e :
  respects (caches_kept conn)
    (_check_if_the_same_object conn py_str int_of_str equal_objects fuel o e).
Proof. unfold _check_if_the_same_object. respects_solve. Qed.

Hint Resolve caches_kept__check_if_the_same_object : respects.

Lemma caches_kept_add_object fuel op :
  respects (caches_kept conn)
    (add_object conn py_str int_of_str equal_objects fuel op).
Proof. unfold add_object. respects_solve. Qed.

Lemma caches_kept_delete_object op :
  respects (caches_kept conn) (delete_object conn py_str op).
Proof. unfold delete_object. respects_solve. Qed.

Lemma caches_kept_edit_object op :
  respects (caches_kept conn) (edit_object conn equal_objects op).
Proof. unfold edit_object. respects_solve. Qed.

Lemma caches_kept_send_general_request op :
  respects (caches_kept conn) (send_general_request conn op).
Proof. unfold send_general_request. respects_solve. Qed.

Hint Resolve caches_kept_add_object caches_kept_delete_object
  caches_kept_edit_object caches_kept_send_general_request : respects.

(** X16: whatever [crud_operation] does and however it ends, both caches
    afterwards hold every entry they held before, unchanged; if every
    operation of a cached model had an entry under its name, this is still
    so; and with a connection that describes an operation in the same way by
    name and by model, caches that held what the connection answered still
    do. *)
Theorem crud_operation_keeps_the_caches fuel op (st : Store W) :
  let st' :=
    snd (crud_operation conn py_str int_of_str equal_objects fuel op st) in
  _operation_spec_cache (self st) ⊆ _operation_spec_cache (self st') /\
  _models_operations_specs_cache (self st)
  ⊆ _models_operations_specs_cache (self st') /\
  (backfilled (self st) -> backfilled (self st')) /\
  (consistent conn -> faithful conn (self st) -> faithful conn (self st')).
Proof.
  assert (H : respects (caches_kept conn)
                (crud_operation conn py_str int_of_str equal_objects fuel op))
    by (unfold crud_operation; respects_solve).
  exact (H st).
Qed.
End Caches.

Lemma handlers_raise_type_error_on_unknown_operation_witness :
  let st := Demo.store true [] [] in
  lookup_spec Demo.conn "addNetwork" st = None /\
  fst (add_object Demo.conn Demo.py_str Demo.int_of_str Demo.equal_objects 50
         "addNetwork" st) = Raise TypeError /\
  fst (send_general_request Demo.conn "addNetwork" st) = Raise TypeError.
Proof.
  intros st.
  assert (Hs : lookup_spec Demo.conn "addNetwork" st = None) by reflexivity.
  destruct (handlers_raise_type_error_on_unknown_operation Demo.conn
              Demo.py_str Demo.int_of_str Demo.equal_objects 50%nat
              "addNetwork" false st Hs) as (_ & Ea & _ & _ & _ & Eg & _).
  split; [exact Hs|]. rewrite Ea, Eg. split; reflexivity.
Defined.

Lemma handlers_send_only_to_operation_url_witness :
  let path := VDict [("objId", VInt 1)] in
  let st := Demo.store false [Demo.network 1 "x" "10.0.0.0/8"]
              [("data", VDict [("name", VStr "y")]); ("path_params", path)] in
  let s := mkSpec HTTPMethod.PUT Demo.NETWORK "NetworkObject" in
  lookup_spec Demo.conn "editNetworkObject" st = Some s /\
  sends_to Demo.NETWORK path st
    (snd (edit_object Demo.conn Demo.equal_objects "editNetworkObject" st)) /\
  length (sent (snd (edit_object Demo.conn Demo.equal_objects
                       "editNetworkObject" st))) = 2%nat.
Proof.
  intros path st s.
  assert (Hs : lookup_spec Demo.conn "editNetworkObject" st = Some s)
    by reflexivity.
  destruct (handlers_send_only_to_operation_url Demo.conn Demo.py_str
              Demo.int_of_str Demo.equal_objects 50%nat "editNetworkObject"
              false st s Hs) as (He & _).
  split; [exact Hs|]. split; [exact He|]. vm_compute. reflexivity.
Defined.

Lemma crud_operation_keeps_the_caches_witness :
  let st := Demo.store false [Demo.network 1 "x" "10.0.0.0/8"]
              [("data", VDict [("name", VStr "x"); ("value", VStr "10.0.0.0/8")])] in
  let st' := snd (Demo.crud 50 "addNetworkObject" st) in
  consistent Demo.conn /\
  faithful Demo.conn (self st) /\
  faithful Demo.conn (self st') /\
  _operation_spec_cache (self st') !! "getNetworkObjectList"
  = Some (Some (mkSpec HTTPMethod.GET Demo.NETWORKS "NetworkObject")).
Proof.
  intros st st'.
  destruct (crud_operation_keeps_the_caches Demo.conn Demo.py_str
              Demo.int_of_str Demo.equal_objects 50%nat "addNetworkObject" st)
    as (_ & _ & _ & Hf).
  split; [exact Demo_consistent|].
  split; [apply faithful_init|].
  split; [exact (Hf Demo_consistent (faithful_init Demo.conn false))|].
  vm_compute. reflexivity.
Defined.
